(** * The video-classifier pipeline: collector, trainer, predictor,
      exporter and the exported JavaScript scorer

    A shallow embedding of
      - [ml-training/collect_data.py]  ([extract_video_id],
        [get_video_metadata_from_page], [create_template_csv],
        [collect_from_search_queries], [collect_from_youtube_api] and the
        [__main__] block),
      - [ml-training/train_model.py]   ([preprocess_text], [extract_features],
        the column check and the model comparison of [main]),
      - [ml-training/predict.py]       ([predict_video] and [main]),
      - [ml-training/export_model_for_extension.py] ([export_to_json], the
        [__main__] block and the [VideoClassifier] class that
        [create_js_model_loader] writes out),
    followed by the properties of these definitions.

    Conventions.
      - A text is a [string]; each [ascii] is one code point in the range
        U+0000..U+00FF. On this range Python's [str.lower] and JavaScript's
        [toLowerCase] are the same function, written out in [Text.to_lower],
        and the two regular-expression engines differ only in what [\s]
        matches, written out in [Text.py_isspace] and [Text.js_isspace].
      - Python and JavaScript numbers that hold weights are real numbers
        ([R]) in [Scorer]: rounding and overflow of binary64 are not part
        of that model; JavaScript's [undefined] and [NaN] are part of it
        ([Scorer.num]). Where rounding and division by zero decide a
        property, the code is embedded on binary64 numbers ([Binary64]).
      - A Python exception is a value of [exn] returned on the left of a sum.
      - Printing appends to an explicit console; files live in an explicit
        map from path to content, next to the set of the directories that
        exist.
      - What lies outside the repository is given, not computed: the text
        of a fetched page, the answers of the YouTube client library
        ([Collector.Api]), the accuracies that training returned, and the
        predictions of the persisted estimators ([Predict.Library]). *)

From Stdlib Require Import Ascii String ZArith Reals Lra.
From Stdlib Require Floats.
From stdpp Require Import gmap strings list fin_maps pretty.

Open Scope string_scope.

(** ** Characters and the regular-expression steps shared by both languages *)

Module Text.

Definition code (c : ascii) : N := N_of_ascii c.

(** The class [a-z0-9]. *)
Definition is_az09 (c : ascii) : bool :=
  let n := code c in
  (((97 <=? n) && (n <=? 122)) || ((48 <=? n) && (n <=? 57)))%N.

(** Python 3, [\s] in a [str] pattern and [str.isspace]: U+0009..U+000D,
    U+001C..U+001F, U+0020, U+0085, U+00A0 (below U+0100). *)
Definition py_isspace (c : ascii) : bool :=
  let n := code c in
  (((9 <=? n) && (n <=? 13)) || ((28 <=? n) && (n <=? 31))
   || (n =? 32) || (n =? 133) || (n =? 160))%N.

(** ECMAScript, [\s] and the characters [trim] removes: WhiteSpace and
    LineTerminator, that is U+0009..U+000D, U+0020, U+00A0 (below U+0100). *)
Definition js_isspace (c : ascii) : bool :=
  let n := code c in
  (((9 <=? n) && (n <=? 13)) || (n =? 32) || (n =? 160))%N.

(** Unicode lower-casing of one code point below U+0100: A-Z, and
    U+00C0..U+00DE without the multiplication sign U+00D7. *)
Definition to_lower (c : ascii) : ascii :=
  let n := code c in
  if ((65 <=? n) && (n <=? 90))%N then ascii_of_N (n + 32)
  else if ((192 <=? n) && (n <=? 222) && negb (n =? 215))%N
       then ascii_of_N (n + 32)
       else c.

(** [str.lower()] and [String.prototype.toLowerCase()]. *)
Fixpoint lower (s : string) : string :=
  match s with
  | "" => ""
  | String c r => String (to_lower c) (lower r)
  end.

(** [sub(/[^...]/g, '')]: delete every character outside the class
    [keep]. *)
Fixpoint delete_outside (keep : ascii -> bool) (s : string) : string :=
  match s with
  | "" => ""
  | String c r =>
      if keep c then String c (delete_outside keep r)
      else delete_outside keep r
  end.

(** [sub(/\s+/g, ' ')]: every maximal run of whitespace becomes one
    space. [in_run] tells that the previous character belonged to the run
    being replaced. *)
Fixpoint squeeze (isspace : ascii -> bool) (in_run : bool) (s : string)
  : string :=
  match s with
  | "" => ""
  | String c r =>
      if isspace c
      then (if in_run then squeeze isspace true r
            else String " " (squeeze isspace true r))
      else String c (squeeze isspace false r)
  end.

Fixpoint lstrip (isspace : ascii -> bool) (s : string) : string :=
  match s with
  | "" => ""
  | String c r => if isspace c then lstrip isspace r else s
  end.

Fixpoint rstrip (isspace : ascii -> bool) (s : string) : string :=
  match s with
  | "" => ""
  | String c r =>
      match rstrip isspace r with
      | "" => if isspace c then "" else String c ""
      | r' => String c r'
      end
  end.

(** [str.strip()] and [String.prototype.trim()]. *)
Definition strip (isspace : ascii -> bool) (s : string) : string :=
  rstrip isspace (lstrip isspace s).

End Text.

(** ** Python: exceptions and the error monad *)

Inductive exn :=
| KeyError (key : string)
| TypeError
| IndexError
| AttributeError (attr : string)
| UnpicklingError
| FileNotFoundError (path : string)
| IsADirectoryError (path : string)
| NotADirectoryError (path : string)
| SystemExit.

Definition result (A : Type) : Type := exn + A.

Definition ret {A} (a : A) : result A := inr a.
Definition raise {A} (e : exn) : result A := inl e.
Definition bind {A B} (m : result A) (k : A -> result B) : result B :=
  match m with
  | inl e => inl e
  | inr a => k a
  end.

Notation "'let*' x ':=' m 'in' k" := (bind m (fun x => k))
  (at level 10, x name, m at level 100, k at level 200).

(** Apply a function that may raise to every element, left to right. *)
Fixpoint map_result {A B} (f : A -> result B) (l : list A) : result (list B) :=
  match l with
  | [] => ret []
  | a :: r =>
      let* b := f a in
      let* bs := map_result f r in
      ret (b :: bs)
  end.

(** ** train_model.py *)

Module Trainer.

(** A Python value as it occurs in a cell of a data frame: missing, a
    string, or an integer. *)
Inductive Cell :=
| NaN
| Str (s : string)
| Num (z : Z).

(** [str(text)] *)
Definition str (text : Cell) : string :=
  match text with
  | NaN => "nan"
  | Str s => s
  | Num z => pretty z
  end.

(** [preprocess_text(text)] *)
Definition preprocess_text (text : Cell) : string :=
  match text with
  | NaN => ""
  | _ =>
      let text := Text.lower (str text) in
      let text :=
        Text.delete_outside
          (fun c => Text.is_az09 c || Text.py_isspace c) text in
      let text :=
        Text.strip Text.py_isspace (Text.squeeze Text.py_isspace false text) in
      text
  end.

(** A data frame maps a column name to its cells, in row order. *)
Abbreviation DataFrame := (gmap string (list Cell)).

(** [df[col]] *)
Definition getitem (df : DataFrame) (col : string) : result (list Cell) :=
  match df !! col with
  | Some cells => ret cells
  | None => raise (KeyError col)
  end.

(** [series.fillna('')] *)
Definition fillna (series : list Cell) : list Cell :=
  map (fun c => match c with NaN => Str "" | _ => c end) series.

(** [cell + other] for a cell and a string. *)
Definition add_str (c : Cell) (other : string) : result Cell :=
  match c with
  | Str s => ret (Str (s +:+ other))
  | _ => raise TypeError
  end.

(** [left + right], element by element. *)
Fixpoint add_series (left right : list Cell) : result (list Cell) :=
  match left, right with
  | l :: ls, r :: rs =>
      let* c := match r with
                | Str s => add_str l s
                | _ => raise TypeError
                end in
      let* cs := add_series ls rs in
      ret (c :: cs)
  | _, _ => ret []
  end.

(** [len(x)] *)
Definition len (c : Cell) : result Cell :=
  match c with
  | Str s => ret (Num (Z.of_nat (String.length s)))
  | _ => raise TypeError
  end.

(** [x.split()]: the maximal runs of characters that are not whitespace.
    [cur] is the word read so far. *)
Fixpoint split_aux (cur : string) (s : string) : list string :=
  match s with
  | "" => match cur with "" => [] | _ => [cur] end
  | String c r =>
      if Text.py_isspace c
      then match cur with
           | "" => split_aux "" r
           | _ => cur :: split_aux "" r
           end
      else split_aux (cur +:+ String c "") r
  end.

Definition split (s : string) : list string := split_aux "" s.

(** [kw in x] *)
Fixpoint contains (x kw : string) : bool :=
  String.prefix kw x ||
  match x with
  | "" => false
  | String _ r => contains r kw
  end.

Definition edu_keywords : list string :=
  ["tutorial"; "lesson"; "course"; "learn"; "explain"; "guide";
   "how to"; "introduction"; "basics"; "advanced"; "concept"].

Definition ent_keywords : list string :=
  ["funny"; "comedy"; "prank"; "fail"; "compilation"; "reaction";
   "vlog"; "challenge"; "gameplay"; "music video"; "song"].

(** [sum(1 for kw in keywords if kw in x)] *)
Definition keyword_count (keywords : list string) (c : Cell) : result Cell :=
  match c with
  | Str x =>
      ret (Num (Z.of_nat (List.length (List.filter (contains x) keywords))))
  | _ => raise TypeError
  end.

(** [extract_features(df)] *)
Definition extract_features (df : DataFrame) : result DataFrame :=
  let* title := getitem df "title" in
  let* title_sp := map_result (fun c => add_str c " ") (fillna title) in
  let* description := getitem df "description" in
  let* combined := add_series title_sp (fillna description) in
  let df := <["combined_text" := combined]> df in
  let* combined := getitem df "combined_text" in
  let combined := map (fun text => Str (preprocess_text text)) combined in
  let df := <["combined_text" := combined]> df in
  let* title := getitem df "title" in
  let* title_length := map_result len (fillna title) in
  let df := <["title_length" := title_length]> df in
  let* description := getitem df "description" in
  let* desc_length := map_result len (fillna description) in
  let df := <["desc_length" := desc_length]> df in
  let* combined := getitem df "combined_text" in
  let* word_count :=
    map_result
      (fun c => match c with
                | Str x => ret (Num (Z.of_nat (List.length (split x))))
                | _ => raise TypeError
                end) combined in
  let df := <["word_count" := word_count]> df in
  let* combined := getitem df "combined_text" in
  let* edu := map_result (keyword_count edu_keywords) combined in
  let df := <["edu_keyword_count" := edu]> df in
  let* combined := getitem df "combined_text" in
  let* ent := map_result (keyword_count ent_keywords) combined in
  let df := <["ent_keyword_count" := ent]> df in
  ret df.

(** How the first part of [main] ends: it prints and returns, an
    exception escapes, or it goes on to split and train with the frame
    that [extract_features] returned. *)
Inductive Outcome :=
| Returns (printed : list string)
| Raises (e : exn)
| Proceeds (df : DataFrame).

Definition required_cols : list string := ["title"; "label"].

(** [main()] up to and including [df = extract_features(df)]. [csv] is
    what [pd.read_csv('data/labeled/videos.csv')] yields, [None] when the
    file does not exist. The console is recorded on the two paths that
    return early; the progress lines of the third path are left out. *)
Definition main (csv : option DataFrame) : Outcome :=
  match csv with
  | None =>
      Returns ["Error: data/labeled/videos.csv not found!";
               "Run collect_data.py first to create the data file."]
  | Some df =>
      if negb (forallb (fun col => bool_decide (is_Some (df !! col)))
                       required_cols)
      then Returns ["Loading data from data/labeled/videos.csv...";
                    "Error: CSV must have columns: ['title', 'label']"]
      else match extract_features df with
           | inl e => Raises e
           | inr df' => Proceeds df'
           end
  end.

End Trainer.

(** ** predict.py *)

Module Predictor.

(** The text [predict_video] passes to [vectorizer.transform]:
    [f"{title} {description}".lower().strip()]. *)
Definition combined_text (title description : string) : string :=
  Text.strip Text.py_isspace (Text.lower (title +:+ " " +:+ description)).

End Predictor.

(** ** export_model_for_extension.py: the Python half *)

(** What [joblib.load] finds in a persisted pair. An attribute that the
    estimator does not have is [None], so [hasattr(model, 'coef_')] is
    [is_Some (coef_ model)]. *)
Module Sklearn.

Record Model := {
  coef_ : option (list (list R));
  intercept_ : option (list R);
  feature_log_prob_ : option (list (list R));
  class_log_prior_ : option (list R)
}.

Record Vectorizer := {
  vocabulary_ : gmap string nat;
  numpy_indices : bool;
    (* whether the values of vocabulary_ are numpy.int64 and not int: they
       are after a fit with max_features set, which reassigns the indices
       from a NumPy array; a vocabulary given to the vectorizer, or fitted
       without a limit, keeps Python integers *)
  idf_ : list R;
  max_features : nat;
  ngram_range : Z * Z
}.

End Sklearn.

(** The exported JSON object. A key that the dictionary does not have is
    [None]. *)
Module Json.

Record ExportData := {
  type : string;
  coefficients : option (list R);
  intercept : option R;
  feature_log_prob : option (list R);
  class_log_prior : option R;
  vocabulary : gmap string nat;
  idf : list R;
  max_features : nat;
  ngram_range : Z * Z
}.

End Json.

Module Exporter.

Import Sklearn.

Inductive File :=
| Pickle (model : Model) (vectorizer : Vectorizer)
    (* joblib.dump({'model': model, 'vectorizer': vectorizer}, path) *)
| JsonFile (export_data : Json.ExportData)
    (* json.dump(export_data, f, indent=2), completed *)
| Truncated (export_data : Json.ExportData)
    (* the beginning of the JSON text of export_data, cut off inside its
       vocabulary: what json.dump had written when it raised *)
| ModelLoaderJs
    (* the text js_code, whose class is Module Scorer below *)
| OtherFile.

Inductive Line :=
| Say (text : string)
| ExportReport (output_file : string) (export_data : Json.ExportData)
    (* the lines after the dump: the path, the file size in KB and the
       production note *)
| LoaderCreated (output_file : string).

(** The file system and the console: the content of every regular file by
    its path, and the paths of the directories. The current directory
    always exists. A path is a regular file or a directory, not both; where
    a world has both, the file map decides for reading. Permissions and
    disk space are not part of the model. *)
Record World := {
  files : gmap string File;
  directories : gset string;
  console : list Line
}.

(** A statement sequence: it reads and changes the world and either
    completes with a value or lets an exception escape. *)
Definition prog (A : Type) : Type := World -> result A * World.

Definition throw {A} (e : exn) : prog A := fun w => (inl e, w).
Definition seq {A B} (m : prog A) (k : A -> prog B) : prog B :=
  fun w => match m w with
           | (inl e, w') => (inl e, w')
           | (inr a, w') => k a w'
           end.
Definition lift {A} (r : result A) : prog A := fun w => (r, w).

Notation "x <- m ;; k" := (seq m (fun x => k))
  (at level 100, m at next level, right associativity).
Notation "m ;;; k" := (seq m (fun _ => k))
  (at level 100, right associativity).

Definition print (l : Line) : prog unit :=
  fun w => (inr tt, {| files := files w;
                       directories := directories w;
                       console := console w ++ [l] |}).

(** [os.path.exists(path)] *)
Definition path_exists (path : string) : prog bool :=
  fun w => (inr (bool_decide (is_Some (files w !! path))
                 || bool_decide (path ∈ directories w)), w).

(** [data = joblib.load(path); data['model'], data['vectorizer']] *)
Definition joblib_load (path : string) : prog (Model * Vectorizer) :=
  fun w => match files w !! path with
           | Some (Pickle model vectorizer) => (inr (model, vectorizer), w)
           | Some _ => (inl UnpicklingError, w)
           | None =>
               if bool_decide (path ∈ directories w)
               then (inl (IsADirectoryError path), w)
               else (inl (FileNotFoundError path), w)
           end.

Fixpoint has_slash (path : string) : bool :=
  match path with
  | "" => false
  | String c r => Ascii.eqb c "/" || has_slash r
  end.

(** [os.path.dirname(path)]: what stands before the last slash; empty for
    a path without a slash, which names an entry of the current
    directory. A path directly under the root is read the same way. *)
Fixpoint dirname (path : string) : string :=
  match path with
  | "" => ""
  | String c r => if has_slash r then String c (dirname r) else ""
  end.

(** What stands before each slash of the path: the directories that lead
    to it, outermost first. [acc] is the part of the path read so far. *)
Fixpoint ancestors_aux (acc path : string) : list string :=
  match path with
  | "" => []
  | String c r =>
      if Ascii.eqb c "/" then acc :: ancestors_aux (acc +:+ "/") r
      else ancestors_aux (acc +:+ String c "") r
  end.

Definition ancestors (path : string) : list string := ancestors_aux "" path.

(** [open(path, 'w')]: it raises when the path is empty or names a
    directory, when something that leads to it is a regular file, and
    when the directory of the path does not exist; otherwise the file is
    there to be written. *)
Definition open_w (path : string) : prog unit :=
  fun w =>
    if String.eqb path "" then (inl (FileNotFoundError path), w)
    else if bool_decide (path ∈ directories w)
    then (inl (IsADirectoryError path), w)
    else if existsb (fun d => bool_decide (is_Some (files w !! d)))
                    (ancestors path)
    then (inl (NotADirectoryError path), w)
    else if String.eqb (dirname path) ""
            || bool_decide (dirname path ∈ directories w)
    then (inr tt, w)
    else (inl (FileNotFoundError path), w).

(** The content of the open file when the [with] block is left. *)
Definition write (path : string) (content : File) : prog unit :=
  fun w => (inr tt, {| files := <[path := content]> (files w);
                       directories := directories w;
                       console := console w |}).

(** The dictionary [export_data]: the JSON object it stands for, and
    whether the values of its vocabulary are [numpy.int64]. The dictionary
    holds [vectorizer.vocabulary_] itself, not a copy with converted
    values. *)
Record Dict := {
  object : Json.ExportData;
  numpy_values : bool
}.

(** What [json.dump] can encode: [numpy.int64] is not among the types it
    knows, so the first value of such a vocabulary makes it raise
    [TypeError]. A vocabulary without entries has no value to encode. *)
Definition encodable (export_data : Dict) : bool :=
  negb (numpy_values export_data)
  || bool_decide (Json.vocabulary (object export_data) = ∅).

(** [with open(output_file, 'w') as f: json.dump(export_data, f, indent=2)].
    The encoder writes piece by piece; when it raises, the pieces written
    so far stay in the file. *)
Definition json_dump (export_data : Dict) (output_file : string)
  : prog unit :=
  open_w output_file ;;;
  if encodable export_data
  then write output_file (JsonFile (object export_data))
  else (write output_file (Truncated (object export_data)) ;;;
        throw TypeError).

(** [array[i]] *)
Definition item {A} (array : list A) (i : nat) : result A :=
  match array !! i with
  | Some a => ret a
  | None => raise IndexError
  end.

(** [obj.attr] *)
Definition getattr {A} (attr : option A) (name : string) : result A :=
  match attr with
  | Some a => ret a
  | None => raise (AttributeError name)
  end.

Definition model_path (model_type : string) : string :=
  "models/" +:+ model_type +:+ "_model.pkl".

(** The statements from [# Save to JSON] to the end of the function. *)
Definition save (export_data : Dict) (output_file : string) : prog unit :=
  json_dump export_data output_file ;;;
  print (ExportReport output_file (object export_data)).

(** [export_to_json(model_type, output_file)] *)
Definition export_to_json (model_type output_file : string) : prog unit :=
  let model_path := model_path model_type in
  found <- path_exists model_path ;;
  if negb found then
    print (Say ("Model not found: " +:+ model_path))
  else
    print (Say ("Loading model from " +:+ model_path +:+ "...")) ;;;
    data <- joblib_load model_path ;;
    let model := fst data in
    let vectorizer := snd data in
    match coef_ model with
    | Some coef_ =>
        coef <- lift (item coef_ 0) ;;
        intercept <- lift (match intercept_ model with
                           | Some intercept_ => item intercept_ 0
                           | None => ret 0%R
                           end) ;;
        save {| object :=
                  {| Json.type := "logistic_regression";
                     Json.coefficients := Some coef;
                     Json.intercept := Some intercept;
                     Json.feature_log_prob := None;
                     Json.class_log_prior := None;
                     Json.vocabulary := vocabulary_ vectorizer;
                     Json.idf := idf_ vectorizer;
                     Json.max_features := max_features vectorizer;
                     Json.ngram_range := ngram_range vectorizer |};
                numpy_values := numpy_indices vectorizer |} output_file
    | None =>
        match feature_log_prob_ model with
        | Some feature_log_prob_ =>
            feature_log_prob <- lift (item feature_log_prob_ 1) ;;
            class_log_prior_ <-
              lift (getattr (class_log_prior_ model) "class_log_prior_") ;;
            class_log_prior <- lift (item class_log_prior_ 1) ;;
            save {| object :=
                      {| Json.type := "naive_bayes";
                         Json.coefficients := None;
                         Json.intercept := None;
                         Json.feature_log_prob := Some feature_log_prob;
                         Json.class_log_prior := Some class_log_prior;
                         Json.vocabulary := vocabulary_ vectorizer;
                         Json.idf := idf_ vectorizer;
                         Json.max_features := max_features vectorizer;
                         Json.ngram_range := ngram_range vectorizer |};
                    numpy_values := numpy_indices vectorizer |} output_file
        | None =>
            print (Say "Model type not supported for JSON export") ;;;
            print (Say "Consider using TensorFlow.js or ONNX.js for complex models")
        end
    end.

(** [create_js_model_loader(output_file)] *)
Definition create_js_model_loader (output_file : string) : prog unit :=
  open_w output_file ;;;
  write output_file ModelLoaderJs ;;;
  print (LoaderCreated output_file).

Definition choices : list string :=
  ["naive_bayes"; "logistic_regression"; "random_forest"].

(** The [__main__] block. [model] is the value of [--model], [None] when
    the flag is absent; a value outside [choices] makes [parse_args]
    exit. *)
Definition main (model : option string) : prog unit :=
  let model := default "logistic_regression" model in
  if bool_decide (model ∈ choices) then
    export_to_json model "models/model_for_extension.json" ;;;
    create_js_model_loader "models/model_loader.js"
  else throw SystemExit.

End Exporter.

(** ** export_model_for_extension.py: the JavaScript class [VideoClassifier] *)

Module Scorer.

(** A JavaScript number: a real, or [NaN]. [undefined] turns into [NaN]
    as soon as arithmetic touches it. *)
Inductive num :=
| NaN
| Fin (x : R).

Definition lift1 (f : R -> R) (a : num) : num :=
  match a with
  | Fin x => Fin (f x)
  | NaN => NaN
  end.

Definition lift2 (f : R -> R -> R) (a b : num) : num :=
  match a, b with
  | Fin x, Fin y => Fin (f x y)
  | _, _ => NaN
  end.

(** [a > b]; a comparison with [NaN] is false. *)
Definition gt (a b : num) : bool :=
  match a, b with
  | Fin x, Fin y => if Rlt_dec y x then true else false
  | _, _ => false
  end.

(** An array element or a property that may be missing, read as a
    number. *)
Definition to_num (v : option R) : num :=
  match v with
  | Some x => Fin x
  | None => NaN
  end.

Record VideoClassifier := {
  modelType : string;
  vocabulary : gmap string nat;
  idf : list R;
  maxFeatures : nat;
  ngramRange : Z * Z;
  coefficients : option (list R);
  intercept : option R;
  featureLogProb : option (list R);
  classLogPrior : option R
}.

(** [constructor(modelData)] *)
Definition constructor (modelData : Json.ExportData) : VideoClassifier :=
  let modelType := Json.type modelData in
  let lr := String.eqb modelType "logistic_regression" in
  let nb := negb lr && String.eqb modelType "naive_bayes" in
  {| modelType := modelType;
     vocabulary := Json.vocabulary modelData;
     idf := Json.idf modelData;
     maxFeatures := Json.max_features modelData;
     ngramRange := Json.ngram_range modelData;
     coefficients := if lr then Json.coefficients modelData else None;
     intercept := if lr then Json.intercept modelData else None;
     featureLogProb := if nb then Json.feature_log_prob modelData else None;
     classLogPrior := if nb then Json.class_log_prior modelData else None |}.

(** [preprocessText(text)] *)
Definition preprocessText (text : string) : string :=
  Text.strip Text.js_isspace
    (Text.squeeze Text.js_isspace false
       (Text.delete_outside
          (fun c => Text.is_az09 c || Text.js_isspace c)
          (Text.lower text))).

(** [text.split(' ')]; [cur] is the piece read so far. *)
Fixpoint split_aux (cur : string) (text : string) : list string :=
  match text with
  | "" => [cur]
  | String c r =>
      if Ascii.eqb c " " then cur :: split_aux "" r
      else split_aux (cur +:+ String c "") r
  end.

Definition split (text : string) : list string := split_aux "" text.

(** [words.slice(i, i + n).join(' ')] *)
Definition slice_join (words : list string) (i n : nat) : string :=
  String.concat " " (take n (drop i words)).

(** [extractNgrams(text, n)]: the loop runs for [i = 0 .. words.length - n]. *)
Definition extractNgrams (text : string) (n : nat) : list string :=
  let words := split text in
  map (fun i => slice_join words i n) (seq 0 (S (length words) - n)).

(** The list [ngrams] that [vectorize] builds from the processed text. *)
Definition ngrams_of (c : VideoClassifier) (processed : string)
  : list string :=
  (if (fst (ngramRange c) <=? 1)%Z then extractNgrams processed 1 else [])
  ++ (if (2 <=? snd (ngramRange c))%Z then extractNgrams processed 2 else []).

(** [this.idf[index] || 1] *)
Definition idf_or_1 (c : VideoClassifier) (index : nat) : R :=
  match idf c !! index with
  | Some w => if Req_dec_T w 0 then 1%R else w
  | None => 1%R
  end.

(** The body of the [forEach] callback. *)
Definition set_feature (c : VideoClassifier) (features : list R)
    (ngram : string) : list R :=
  match vocabulary c !! ngram with
  | Some index =>
      if (index <? maxFeatures c)%nat
      then <[index := idf_or_1 c index]> features
      else features
  | None => features
  end.

(** [features] when the [forEach] has ended, before normalization. *)
Definition features_of (c : VideoClassifier) (text : string) : list R :=
  let processed := preprocessText text in
  let features := replicate (maxFeatures c) 0%R in
  fold_left (set_feature c) (ngrams_of c processed) features.

(** [Math.sqrt(features.reduce((sum, x) => sum + x * x, 0))] *)
Definition norm_of (features : list R) : R :=
  sqrt (fold_left (fun sum x => sum + x * x)%R features 0%R).

(** [vectorize(text)] *)
Definition vectorize (c : VideoClassifier) (text : string) : list R :=
  let features := features_of c text in
  let norm := norm_of features in
  if Rlt_dec 0 norm then map (fun x => x / norm)%R features
  else features.

Record Prediction := {
  prediction : Z;
  probability : num;
  confidence : num
}.

(** How a call of [predict] ends: with the object literal, with
    [undefined] (no branch taken), or with a [TypeError] from reading an
    element of [undefined]. *)
Inductive Completion :=
| Return (p : Prediction)
| ReturnUndefined
| ThrowTypeError.

(** The logistic-regression loop from index [i] on, over the features
    that are left. *)
Fixpoint lr_loop (coefficients : option (list R)) (features : list R)
    (i : nat) (score : num) : option num :=
  match features with
  | [] => Some score
  | x :: rest =>
      match coefficients with
      | None => None
      | Some cs =>
          lr_loop coefficients rest (S i)
            (lift2 Rplus score (lift2 Rmult (to_num (cs !! i)) (Fin x)))
      end
  end.

(** The naive-Bayes loop from index [i] on. *)
Fixpoint nb_loop (featureLogProb : option (list R)) (features : list R)
    (i : nat) (logProb : num) : option num :=
  match features with
  | [] => Some logProb
  | x :: rest =>
      if Rlt_dec 0 x then
        match featureLogProb with
        | None => None
        | Some ps =>
            nb_loop featureLogProb rest (S i)
              (lift2 Rplus logProb (to_num (ps !! i)))
        end
      else nb_loop featureLogProb rest (S i) logProb
  end.

(** [1 / (1 + Math.exp(-score))] and the object literal built from it. *)
Definition sigmoid (score : num) : num :=
  lift1 (fun s => 1 / (1 + exp (- s)))%R score.

Definition verdict (probability : num) : Prediction :=
  {| prediction := if gt probability (Fin 0.5) then 1%Z else 0%Z;
     probability := probability;
     confidence :=
       lift2 Rmult (lift1 Rabs (lift2 Rminus probability (Fin 0.5))) (Fin 2) |}.

(** [predict(title, description = '')] *)
Definition predict (c : VideoClassifier) (title description : string)
  : Completion :=
  let combinedText := title +:+ " " +:+ description in
  let features := vectorize c combinedText in
  if String.eqb (modelType c) "logistic_regression" then
    match lr_loop (coefficients c) features 0 (to_num (intercept c)) with
    | Some score => Return (verdict (sigmoid score))
    | None => ThrowTypeError
    end
  else if String.eqb (modelType c) "naive_bayes" then
    match nb_loop (featureLogProb c) features 0 (to_num (classLogPrior c)) with
    | Some logProb => Return (verdict (sigmoid logProb))
    | None => ThrowTypeError
    end
  else ReturnUndefined.

End Scorer.

(** ** [vectorize] on binary64 numbers

    [Scorer] reads JavaScript numbers as real numbers. JavaScript computes
    with IEEE 754 binary64: every operation rounds its result, zero divided
    by zero is NaN, and a comparison with NaN is false. This module embeds
    [vectorize] once more, on the binary64 numbers of the kernel, whose
    operations are those of the processor. The strings and the n-grams are
    those of [Scorer]. *)

Module Binary64.

Import PrimFloat.

(** The fields of the class that [vectorize] reads. *)
Record VideoClassifier := {
  vocabulary : gmap string nat;
  idf : list float;
  maxFeatures : nat;
  ngramRange : Z * Z
}.

(** The list [ngrams] that [vectorize] builds from the processed text. *)
Definition ngrams_of (c : VideoClassifier) (processed : string)
  : list string :=
  (if (fst (ngramRange c) <=? 1)%Z
   then Scorer.extractNgrams processed 1 else [])
  ++ (if (2 <=? snd (ngramRange c))%Z
      then Scorer.extractNgrams processed 2 else []).

(** [this.idf[index] || 1]: zero, negative zero, NaN and [undefined] are
    falsy. *)
Definition idf_or_1 (c : VideoClassifier) (index : nat) : float :=
  match idf c !! index with
  | Some w => if (w =? 0)%float || is_nan w then 1%float else w
  | None => 1%float
  end.

(** The body of the [forEach] callback. *)
Definition set_feature (c : VideoClassifier) (features : list float)
    (ngram : string) : list float :=
  match vocabulary c !! ngram with
  | Some index =>
      if (index <? maxFeatures c)%nat
      then <[index := idf_or_1 c index]> features
      else features
  | None => features
  end.

(** [features] when the [forEach] has ended, before normalization. *)
Definition features_of (c : VideoClassifier) (text : string) : list float :=
  let processed := Scorer.preprocessText text in
  let features := replicate (maxFeatures c) 0%float in
  fold_left (set_feature c) (ngrams_of c processed) features.

(** [Math.sqrt(features.reduce((sum, x) => sum + x * x, 0))] *)
Definition norm_of (features : list float) : float :=
  sqrt (fold_left (fun sum x => sum + x * x)%float features 0%float).

(** [vectorize(text)] *)
Definition vectorize (c : VideoClassifier) (text : string) : list float :=
  let features := features_of c text in
  let norm := norm_of features in
  if (0 <? norm)%float then map (fun x => x / norm)%float features
  else features.

End Binary64.

(** ** Notions used to state the properties *)

Module Spec.

(** Every character of [s] satisfies [p]. *)
Fixpoint all_chars (p : ascii -> bool) (s : string) : bool :=
  match s with
  | "" => true
  | String c r => p c && all_chars p r
  end.

(** [s] has no whitespace other than single spaces; with [prev] set, it
    also does not start with one. *)
Fixpoint squeezed (isspace : ascii -> bool) (prev : bool) (s : string)
  : bool :=
  match s with
  | "" => true
  | String c r =>
      if isspace c
      then Ascii.eqb c " " && negb prev && squeezed isspace true r
      else squeezed isspace false r
  end.

(** [c] is whitespace for both engines or for neither. Below U+0100 this
    fails at the five characters that Python's [\s] matches and
    JavaScript's does not: U+001C..U+001F and U+0085. *)
Definition same_class (c : ascii) : bool :=
  Bool.eqb (Text.py_isspace c) (Text.js_isspace c).

(** [g] is an n-gram of length [n] of the word sequence [words]: [n]
    consecutive words, joined by single spaces. *)
Definition is_ngram (n : nat) (words : list string) (g : string) : Prop :=
  exists before ws after : list string,
    words = (before ++ ws ++ after)%list
    /\ length ws = n /\ g = String.concat " " ws.

(** The words of a text: its maximal runs of characters other than the
    space, in the order of the text. *)
Fixpoint words (text : string) : list string :=
  match text with
  | "" => []
  | String c r =>
      if Ascii.eqb c " " then words r
      else match r with
           | "" => [String c ""]
           | String d _ =>
               if Ascii.eqb d " " then String c "" :: words r
               else match words r with
                    | w :: ws => String c w :: ws
                    | [] => [String c ""]
                    end
           end
  end.

(** The scorer extracts from [text] all and only the n-grams whose length
    lies in the configured range: runs of that many consecutive words of
    the normalized text. *)
Definition extracts_range (c : Scorer.VideoClassifier) (text : string)
  : Prop :=
  let processed := Scorer.preprocessText text in
  forall g,
    g ∈ Scorer.ngrams_of c processed <->
    exists n, (fst (Scorer.ngramRange c) <= Z.of_nat n
               <= snd (Scorer.ngramRange c))%Z
              /\ is_ngram n (words processed) g.

(** Every token of the input that is in the vocabulary has its feature
    set to the IDF weight at its index. *)
Definition sets_idf_weight (c : Scorer.VideoClassifier) (text : string)
  : Prop :=
  forall token i,
    token ∈ Scorer.ngrams_of c (Scorer.preprocessText text) ->
    Scorer.vocabulary c !! token = Some i ->
    exists w, Scorer.idf c !! i = Some w
              /\ Scorer.features_of c text !! i = Some w.

(** Some n-gram of the list is the vocabulary entry of index [j]. *)
Definition hit (c : Scorer.VideoClassifier) (ngrams : list string) (j : nat)
  : bool :=
  existsb (fun g => bool_decide (Scorer.vocabulary c !! g = Some j)) ngrams.

(** Sum of squares. *)
Definition sumsq (l : list R) : R :=
  fold_right (fun x acc => x * x + acc)%R 0%R l.

(** The loaded model carries a coefficient vector: [coef_[0]] exists, and
    [intercept_], when present, has an element. *)
Definition carries_coefficients (m : Sklearn.Model) : Prop :=
  (exists coef rows, Sklearn.coef_ m = Some (coef :: rows))
  /\ Sklearn.intercept_ m <> Some [].

(** The loaded model carries per-feature log-probabilities: rows for both
    classes in [feature_log_prob_] and in [class_log_prior_]. *)
Definition carries_log_probabilities (m : Sklearn.Model) : Prop :=
  (exists r0 r1 rows, Sklearn.feature_log_prob_ m = Some (r0 :: r1 :: rows))
  /\ (exists p0 p1 ps, Sklearn.class_log_prior_ m = Some (p0 :: p1 :: ps)).

(** [path] can be opened for writing: it is not empty, it does not name a
    directory, nothing that leads to it is a regular file, and the
    directory it lies in exists. *)
Definition writable (w : Exporter.World) (path : string) : Prop :=
  path <> ""
  /\ (path ∉ Exporter.directories w)
  /\ Forall (fun d => Exporter.files w !! d = None) (Exporter.ancestors path)
  /\ (Exporter.dirname path = ""
      \/ Exporter.dirname path ∈ Exporter.directories w).

(** The vocabulary of the vectorizer is one that [json] can encode: its
    indices are Python integers, or it has no entry. *)
Definition json_encodable (v : Sklearn.Vectorizer) : Prop :=
  Sklearn.numpy_indices v = false \/ Sklearn.vocabulary_ v = ∅.

(** A column that holds only strings and missing values. *)
Definition textual (cells : list Trainer.Cell) : Prop :=
  Forall (fun c => match c with Trainer.Num _ => False | _ => True end) cells.

Definition is_str (c : Trainer.Cell) : Prop :=
  match c with Trainer.Str _ => True | _ => False end.

(** A number lies in [0, 1]. *)
Definition in_unit (a : Scorer.num) : Prop :=
  match a with
  | Scorer.Fin x => (0 <= x <= 1)%R
  | Scorer.NaN => False
  end.

End Spec.

(** ** Sample data *)

Module Sample.

Import Sklearn.

(** A vectorizer fitted with the trainer's settings on a corpus with two
    distinct words. *)
Definition vectorizer : Vectorizer :=
  {| vocabulary_ := {[ "python" := 0%nat; "tutorial" := 1%nat ]};
     numpy_indices := true;
     idf_ := [1.5; 2]%R;
     max_features := 5000;
     ngram_range := (1, 2)%Z |}.

(** The same vectorizer built on a vocabulary that was given to it: the
    indices are Python integers. *)
Definition given_vocabulary : Vectorizer :=
  {| vocabulary_ := {[ "python" := 0%nat; "tutorial" := 1%nat ]};
     numpy_indices := false;
     idf_ := [1.5; 2]%R;
     max_features := 5000;
     ngram_range := (1, 2)%Z |}.

Definition logistic_regression : Model :=
  {| coef_ := Some [[0.75; 0.25]%R];
     intercept_ := Some [0.1%R];
     feature_log_prob_ := None;
     class_log_prior_ := None |}.

Definition naive_bayes : Model :=
  {| coef_ := None;
     intercept_ := None;
     feature_log_prob_ := Some [[-1; -2]%R; [-0.5; -0.25]%R];
     class_log_prior_ := Some [-0.7; -0.6]%R |}.

Definition random_forest : Model :=
  {| coef_ := None;
     intercept_ := None;
     feature_log_prob_ := None;
     class_log_prior_ := None |}.

(** The [models] directory after a training run. *)
Definition trained : Exporter.World :=
  {| Exporter.files :=
       {[ "models/logistic_regression_model.pkl" :=
            Exporter.Pickle logistic_regression vectorizer;
          "models/naive_bayes_model.pkl" :=
            Exporter.Pickle naive_bayes vectorizer;
          "models/random_forest_model.pkl" :=
            Exporter.Pickle random_forest vectorizer ]};
     Exporter.directories := {[ "models" ]};
     Exporter.console := [] |}.

(** The same directory with the logistic-regression pair stored under the
    naive-Bayes file name. *)
Definition renamed : Exporter.World :=
  {| Exporter.files :=
       {[ "models/naive_bayes_model.pkl" :=
            Exporter.Pickle logistic_regression vectorizer ]};
     Exporter.directories := {[ "models" ]};
     Exporter.console := [] |}.

(** A [models] directory whose pairs hold the vectorizer with the given
    vocabulary. *)
Definition encodable : Exporter.World :=
  {| Exporter.files :=
       {[ "models/logistic_regression_model.pkl" :=
            Exporter.Pickle logistic_regression given_vocabulary;
          "models/naive_bayes_model.pkl" :=
            Exporter.Pickle naive_bayes given_vocabulary ]};
     Exporter.directories := {[ "models" ]};
     Exporter.console := [] |}.

(** Nothing has been trained: there is no [models] directory. *)
Definition untrained : Exporter.World :=
  {| Exporter.files := ∅;
     Exporter.directories := ∅;
     Exporter.console := [] |}.

(** The JSON object that [export_to_json] builds for the logistic-regression
    pair of [trained]: one coefficient per vocabulary entry. *)
Definition exported_lr : Json.ExportData :=
  {| Json.type := "logistic_regression";
     Json.coefficients := Some [0.75; 0.25]%R;
     Json.intercept := Some 0.1%R;
     Json.feature_log_prob := None;
     Json.class_log_prior := None;
     Json.vocabulary := {[ "python" := 0%nat; "tutorial" := 1%nat ]};
     Json.idf := [1.5; 2]%R;
     Json.max_features := 5000;
     Json.ngram_range := (1, 2)%Z |}.

(** A scorer whose feature vector is as long as its weight vector. *)
Definition balanced : Scorer.VideoClassifier :=
  {| Scorer.modelType := "logistic_regression";
     Scorer.vocabulary := {[ "python" := 0%nat; "tutorial" := 1%nat ]};
     Scorer.idf := [1.5; 2]%R;
     Scorer.maxFeatures := 2;
     Scorer.ngramRange := (1, 2)%Z;
     Scorer.coefficients := Some [0.75; 0.25]%R;
     Scorer.intercept := Some 0.1%R;
     Scorer.featureLogProb := None;
     Scorer.classLogPrior := None |}.

(** The same scorer configured for 1- to 3-grams. *)
Definition trigrams : Scorer.VideoClassifier :=
  {| Scorer.modelType := "logistic_regression";
     Scorer.vocabulary := {[ "python" := 0%nat; "tutorial" := 1%nat ]};
     Scorer.idf := [1.5; 2]%R;
     Scorer.maxFeatures := 2;
     Scorer.ngramRange := (1, 3)%Z;
     Scorer.coefficients := Some [0.75; 0.25]%R;
     Scorer.intercept := Some 0.1%R;
     Scorer.featureLogProb := None;
     Scorer.classLogPrior := None |}.

(** A scorer whose only IDF weight is zero. *)
Definition zero_idf : Scorer.VideoClassifier :=
  {| Scorer.modelType := "logistic_regression";
     Scorer.vocabulary := {[ "python" := 0%nat ]};
     Scorer.idf := [0%R];
     Scorer.maxFeatures := 1;
     Scorer.ngramRange := (1, 2)%Z;
     Scorer.coefficients := Some [0.75%R];
     Scorer.intercept := Some 0.1%R;
     Scorer.featureLogProb := None;
     Scorer.classLogPrior := None |}.

(** A scorer whose vocabulary index lies beyond [max_features]. *)
Definition beyond_max : Scorer.VideoClassifier :=
  {| Scorer.modelType := "logistic_regression";
     Scorer.vocabulary := {[ "python" := 3%nat ]};
     Scorer.idf := [1.5; 2; 2.5; 3]%R;
     Scorer.maxFeatures := 2;
     Scorer.ngramRange := (1, 2)%Z;
     Scorer.coefficients := Some [0.75; 0.25]%R;
     Scorer.intercept := Some 0.1%R;
     Scorer.featureLogProb := None;
     Scorer.classLogPrior := None |}.

(** A CSV with the two required columns only. *)
Definition title_label : Trainer.DataFrame :=
  {[ "title" := [Trainer.Str "Python Tutorial for Beginners";
                 Trainer.Str "Funny Cat Compilation"];
     "label" := [Trainer.Num 1; Trainer.Num 0] ]}.

End Sample.

Module Sample64.

Import PrimFloat.

(** A scorer with two vocabulary entries and the weights 1 and 2. *)
Definition weights_1_2 : Binary64.VideoClassifier :=
  {| Binary64.vocabulary := {[ "python" := 0%nat; "tutorial" := 1%nat ]};
     Binary64.idf := [1%float; 2%float];
     Binary64.maxFeatures := 2;
     Binary64.ngramRange := (1, 2)%Z |}.

End Sample64.

(** ** collect_data.py *)

Module Collector.

(** The class [[0-9A-Za-z_-]]. *)
Definition is_id_char (c : ascii) : bool :=
  let n := Text.code c in
  (((48 <=? n) && (n <=? 57)) || ((65 <=? n) && (n <=? 90))
   || ((97 <=? n) && (n <=? 122)) || (n =? 95) || (n =? 45))%N.

(** [[0-9A-Za-z_-]{n}] at the start of [s]: the characters it matches. *)
Fixpoint read_id (n : nat) (s : string) : option string :=
  match n with
  | O => Some ""
  | S n' =>
      match s with
      | "" => None
      | String c r =>
          if is_id_char c then option_map (String c) (read_id n' r) else None
      end
  end.

(** A literal at the start of [s]: the text that follows it. *)
Fixpoint after_literal (lit s : string) : option string :=
  match lit with
  | "" => Some s
  | String a lit' =>
      match s with
      | "" => None
      | String c r => if Ascii.eqb a c then after_literal lit' r else None
      end
  end.

(** [(?:lit1|lit2|...)([0-9A-Za-z_-]{11})] at the start of [s]: group 1 of
    the first alternative that fits. *)
Fixpoint match_here (alternatives : list string) (s : string) : option string :=
  match alternatives with
  | [] => None
  | lit :: rest =>
      match after_literal lit s with
      | Some r =>
          match read_id 11 r with
          | Some g => Some g
          | None => match_here rest s
          end
      | None => match_here rest s
      end
  end.

(** [re.search]: group 1 of the match that starts leftmost. *)
Fixpoint search (alternatives : list string) (s : string) : option string :=
  match match_here alternatives s with
  | Some g => Some g
  | None =>
      match s with
      | "" => None
      | String _ r => search alternatives r
      end
  end.

(** The three patterns, each by the literals of its non-capturing group.
    The trailing [.*] of the first one matches anything and captures
    nothing. *)
Definition patterns : list (list string) :=
  [["v="; "/"]; ["embed/"]; ["youtu.be/"]].

Fixpoint first_match (patterns : list (list string)) (url : string)
  : option string :=
  match patterns with
  | [] => None
  | pattern :: rest =>
      match search pattern url with
      | Some g => Some g
      | None => first_match rest url
      end
  end.

(** [extract_video_id(url)] *)
Definition extract_video_id (url : string) : option string :=
  first_match patterns url.

Definition newline : ascii := "010".
Definition dquote : ascii := "034".

(** [(.*?)lit] at the start of [s]: the shortest run of characters other
    than newline that [lit] follows. *)
Fixpoint lazy_until (lit s : string) : option string :=
  if String.prefix lit s then Some ""
  else match s with
       | "" => None
       | String c r =>
           if Ascii.eqb c newline then None
           else option_map (String c) (lazy_until lit r)
       end.

(** [re.search(r'<title>(.*?)</title>', text)], group 1. *)
Fixpoint search_title (text : string) : option string :=
  match
    match after_literal "<title>" text with
    | Some r => lazy_until "</title>" r
    | None => None
    end
  with
  | Some g => Some g
  | None =>
      match text with
      | "" => None
      | String _ r => search_title r
      end
  end.

(** A greedy run of characters other than the double quote, then a double
    quote, at the start of [s]: the run. *)
Fixpoint until_quote (s : string) : option string :=
  match s with
  | "" => None
  | String c r =>
      if Ascii.eqb c dquote then Some ""
      else option_map (String c) (until_quote r)
  end.

(** The literal that opens the description in the page source: the key
    shortDescription in double quotes, a colon, a double quote. *)
Definition shortDescription : string :=
  String dquote ("shortDescription" +:+ String dquote (":" +:+ String dquote "")).

(** [re.search] for the description pattern, group 1. *)
Fixpoint search_description (text : string) : option string :=
  match
    match after_literal shortDescription text with
    | Some r => until_quote r
    | None => None
    end
  with
  | Some g => Some g
  | None =>
      match text with
      | "" => None
      | String _ r => search_description r
      end
  end.

(** [s.replace(old, '')] for a non-empty [old]: the occurrences are found
    left to right and do not overlap. [skip] characters of the occurrence
    being removed are still to be dropped. *)
Fixpoint remove_all (old : string) (skip : nat) (s : string) : string :=
  match s with
  | "" => ""
  | String c r =>
      match skip with
      | S k => remove_all old k r
      | O =>
          if String.prefix old s
          then remove_all old (String.length old - 1) r
          else String c (remove_all old 0 r)
      end
  end.

(** [s[:n]] *)
Fixpoint truncate (n : nat) (s : string) : string :=
  match n, s with
  | S n', String c r => String c (truncate n' r)
  | _, _ => ""
  end.

Inductive Line :=
| Say (text : string)
| SayError (context : string) (e : exn).
    (* f"{context}: {e}" *)

Record Metadata := {
  video_id : string;
  title : string;
  description : string;
  url : string
}.

(** [get_video_metadata_from_page(video_id)], given what
    [requests.get(url, timeout=10).text] yields: the text of the page, or
    the exception that the request raised. The result comes with the lines
    printed. *)
Definition get_video_metadata_from_page (video_id : string)
    (response : result string) : option Metadata * list Line :=
  let url := "https://www.youtube.com/watch?v=" +:+ video_id in
  match response with
  | inr text =>
      let title :=
        match search_title text with
        | Some g => Text.strip Text.py_isspace (remove_all " - YouTube" 0 g)
        | None => ""
        end in
      let description :=
        match search_description text with
        | Some g => g
        | None => ""
        end in
      (Some {| video_id := video_id;
               title := title;
               description := truncate 500 description;
               url := url |}, [])
  | inl e => (None, [SayError ("Error fetching " +:+ video_id) e])
  end.

(** A row of the CSV file, field by field. *)
Abbreviation Row := (list string).

(** The file [data/labeled/videos.csv] ([None] when it does not exist) and
    the console. *)
Record World := {
  csv : option (list Row);
  console : list Line
}.

Definition print (w : World) (lines : list Line) : World :=
  {| csv := csv w; console := console w ++ lines |}.

Definition csv_path : string := "data/labeled/videos.csv".

Definition header : Row := ["video_id"; "title"; "description"; "label"; "url"].

Definition examples : list Row :=
  [["dQw4w9WgXcQ"; "Python Tutorial for Beginners";
    "Learn Python programming from scratch"; "1";
    "https://youtube.com/watch?v=dQw4w9WgXcQ"];
   ["example2"; "Funny Cat Compilation"; "Best funny cat videos of 2024";
    "0"; "https://youtube.com/watch?v=example2"]].

(** [create_template_csv()]: the value returned and the world it leaves. *)
Definition create_template_csv (w : World) : option string * World :=
  match csv w with
  | Some _ =>
      (None,
       print w [Say (csv_path +:+ " already exists. Add more rows manually.")])
  | None =>
      (Some csv_path,
       print {| csv := Some (header :: examples); console := console w |}
         [Say ("Created template CSV at " +:+ csv_path);
          Say "Please manually add video data with labels:";
          Say "  - Label 1 = Educational";
          Say "  - Label 0 = Entertainment"])
  end.

(** [collect_from_search_queries(queries, count_per_query)] *)
Definition collect_from_search_queries (queries : list string)
    (count_per_query : Z) (w : World) : option string * World :=
  create_template_csv
    (print w [Say "Note: This is a simplified collector.";
              Say "For production use, integrate YouTube Data API v3";
              Say "Get API key from: https://console.cloud.google.com/"]).

(** What the YouTube client library gives back. A key that a dictionary
    does not have is [None]. *)
Record Id := { videoId : option string }.

Record Snippet := {
  snippet_title : option string;
  snippet_description : option string;
  channelTitle : option string;
  publishedAt : option string
}.

Record Item := { id : option Id; snippet : option Snippet }.

Record Response := { items : option (list Item) }.

(** The library: whether [googleapiclient] can be imported, [build] for a
    developer key, and [youtube.search().list(q, maxResults).execute()] for
    a key, a query and a result count. *)
Record Api := {
  installed : bool;
  build : string -> result unit;
  execute : string -> string -> Z -> result Response
}.

Record Video := {
  v_video_id : string;
  v_title : string;
  v_description : string;
  v_channel : string;
  v_published_at : string;
  v_url : string
}.

(** [d[key]] *)
Definition key {A} (name : string) (value : option A) : result A :=
  match value with
  | Some a => ret a
  | None => raise (KeyError name)
  end.

(** The dictionary [video_data] built from one item. *)
Definition video_data (item : Item) : result Video :=
  let* i := key "id" (id item) in
  let* video_id := key "videoId" (videoId i) in
  let* s := key "snippet" (snippet item) in
  let* title := key "title" (snippet_title s) in
  let* description := key "description" (snippet_description s) in
  let* channel := key "channelTitle" (channelTitle s) in
  let* published_at := key "publishedAt" (publishedAt s) in
  ret {| v_video_id := video_id;
         v_title := title;
         v_description := truncate 500 description;
         v_channel := channel;
         v_published_at := published_at;
         v_url := "https://youtube.com/watch?v=" +:+ video_id |}.

(** The loop over the queries, with the videos appended so far. *)
Fixpoint collect_queries (api : Api) (api_key : string)
    (search_queries : list string) (max_results : Z) (videos : list Video)
  : result (list Video) :=
  match search_queries with
  | [] => ret videos
  | query :: rest =>
      let* response := execute api api_key query max_results in
      let* found := map_result video_data (default [] (items response)) in
      collect_queries api api_key rest max_results (videos ++ found)
  end.

(** [collect_from_youtube_api(search_queries, api_key, max_results)]: the
    list returned and the lines printed. *)
Definition collect_from_youtube_api (api : Api) (search_queries : list string)
    (api_key : string) (max_results : Z) : list Video * list Line :=
  if negb (installed api) then
    ([], [Say "Install google-api-python-client: pip install google-api-python-client"])
  else
    match
      (let* _ := build api api_key in
       collect_queries api api_key search_queries max_results [])
    with
    | inr videos => (videos, [])
    | inl e => ([], [SayError "API Error" e])
    end.

Definition row_of (label : string) (video : Video) : Row :=
  [v_video_id video; v_title video; v_description video; label; v_url video].

(** The [__main__] block, for the values of [--count] and [--api-key]
    ([None] when the flag is absent). *)
Definition main (api : Api) (count : Z) (api_key : option string) (w : World)
  : World :=
  match api_key with
  | Some (String c k) =>
      let api_key := String c k in
      let educational_queries :=
        ["python tutorial"; "javascript course"; "math lesson"] in
      let entertainment_queries :=
        ["funny videos"; "music video"; "gaming"] in
      let '(edu_videos, edu_lines) :=
        collect_from_youtube_api api educational_queries api_key (count / 2) in
      let '(ent_videos, ent_lines) :=
        collect_from_youtube_api api entertainment_queries api_key (count / 2) in
      print
        {| csv := Some (header :: map (row_of "1") edu_videos
                               ++ map (row_of "0") ent_videos);
           console := console w ++ edu_lines ++ ent_lines |}
        [Say ("Collected " +:+ pretty (length edu_videos)
              +:+ " educational and " +:+ pretty (length ent_videos)
              +:+ " entertainment videos");
         Say ("Saved to " +:+ csv_path)]
  | _ =>
      print (snd (create_template_csv w))
        [Say "";
         Say "To use YouTube API:";
         Say "1. Get API key from https://console.cloud.google.com/";
         Say "2. Run: python collect_data.py --api-key YOUR_KEY --count 1000"]
  end.

End Collector.

(** ** train_model.py: the comparison at the end of [main] *)

Module Report.

(** The dictionary [results], in insertion order, for the accuracies that
    the four training functions returned. [train_neural_network] returns 0
    when TensorFlow is not installed. *)
Definition results (nb_acc lr_acc rf_acc nn_acc : R) : list (string * R) :=
  [("Naive Bayes", nb_acc); ("Logistic Regression", lr_acc);
   ("Random Forest", rf_acc)]
  ++ (if Rlt_dec 0 nn_acc then [("Neural Network", nn_acc)] else []).

(** Put [x] in front of the first entry that is not above it. *)
Fixpoint insert (x : string * R) (l : list (string * R)) : list (string * R) :=
  match l with
  | [] => [x]
  | y :: r =>
      if Rlt_dec (snd x) (snd y) then y :: insert x r else x :: y :: r
  end.

(** [sorted(items, key=lambda x: x[1], reverse=True)]: highest first,
    entries with equal accuracy in their original order. *)
Definition sorted (items : list (string * R)) : list (string * R) :=
  fold_right insert [] items.

(** [max(results, key=results.get)] over the entries after the first one,
    with the best entry so far: a later entry replaces it only when it is
    strictly higher. *)
Fixpoint max_from (best : string * R) (items : list (string * R))
  : string * R :=
  match items with
  | [] => best
  | x :: r => max_from (if Rlt_dec (snd best) (snd x) then x else best) r
  end.

Definition max (items : list (string * R)) : option (string * R) :=
  match items with
  | [] => None
  | x :: r => Some (max_from x r)
  end.

(** The lines of the comparison, as (name, accuracy) pairs in print order,
    and [best_model] with its accuracy. *)
Definition summary (nb_acc lr_acc rf_acc nn_acc : R)
  : list (string * R) * option (string * R) :=
  let results := results nb_acc lr_acc rf_acc nn_acc in
  (sorted results, max results).

End Report.

(** ** predict.py: [predict_video] and [main] *)

Module Predict.

(** What a file of the [models] directory holds. *)
Inductive File :=
| Pair (model : Sklearn.Model) (vectorizer : Sklearn.Vectorizer)
    (* joblib.dump({'model': model, 'vectorizer': vectorizer}, path) *)
| Vectorizer (vectorizer : Sklearn.Vectorizer)
    (* joblib.dump(vectorizer, path) *)
| Keras (network : N)
    (* model.save(path); the number names the saved network *)
| Other.

(** The directory [models]: its entries by name, in the order in which
    [os.listdir] gives them. The directory is flat. *)
Abbreviation Directory := (list (string * File)).

Inductive Line :=
| Say (text : string)
| SayConfidence (percent : R)
    (* f"Confidence: {confidence:.2f}%" *)
| SayVerdict (educational : bool).
    (* the closing line, by the value of prediction == 1 *)

(** The directory [models] ([None] when it does not exist) and the
    console. *)
Record World := {
  models : option Directory;
  console : list Line
}.

Inductive error :=
| FileNotFoundError (path : string)
| LoadError (path : string)
| IndexError
| TypeError.

(** The libraries: whether TensorFlow can be imported, and the predictions
    of a persisted scikit-learn pair and of a saved network for a text. *)
Record Library := {
  tensorflow : bool;
  predict_proba : Sklearn.Model -> Sklearn.Vectorizer -> string -> list R;
  predict : Sklearn.Model -> Sklearn.Vectorizer -> string -> Z;
  keras_predict : N -> Sklearn.Vectorizer -> string -> R
}.

(** The entry [name] of the directory. *)
Fixpoint entry (name : string) (dir : Directory) : option File :=
  match dir with
  | [] => None
  | (n, f) :: rest => if String.eqb n name then Some f else entry name rest
  end.

(** [os.path.exists('models/' + name)] *)
Definition path_exists (w : World) (name : string) : bool :=
  match models w with
  | Some dir => bool_decide (is_Some (entry name dir))
  | None => false
  end.

(** [f.endswith(suffix)] *)
Definition endswith (f suffix : string) : bool :=
  String.eqb
    (String.substring (String.length f - String.length suffix)
       (String.length suffix) f)
    suffix
  && (String.length suffix <=? String.length f)%nat.

Definition say (w : World) (lines : list Line) : World :=
  {| models := models w; console := console w ++ lines |}.

(** How a call ends: with the returned value, or with an exception that
    nothing catches; in both cases with the world it leaves. *)
Definition outcome (A : Type) : Type := (error + A) * World.

(** [predict_video(title, description, model_type)] *)
Definition predict_video (lib : Library) (title description model_type : string)
    (w : World) : outcome (option Z * option R) :=
  let combined_text := Predictor.combined_text title description in
  if String.eqb model_type "neural_network" then
    let model_path := "models/neural_network_model.h5" in
    let vectorizer_path := "models/neural_network_vectorizer.pkl" in
    if negb (path_exists w "neural_network_model.h5") then
      (inr (None, None),
       say w [Say ("Model not found: " +:+ model_path);
              Say "Train the model first with: python train_model.py"])
    else if negb (tensorflow lib) then
      (inr (None, None),
       say w [Say "TensorFlow required for neural network model"])
    else
      match entry "neural_network_model.h5" (default [] (models w)) with
      | Some (Keras network) =>
          match entry "neural_network_vectorizer.pkl" (default [] (models w)) with
          | Some (Vectorizer vectorizer) =>
              let probability := keras_predict lib network vectorizer combined_text in
              let prediction := if Rlt_dec 0.5 probability then 1%Z else 0%Z in
              (inr (Some prediction, Some probability), w)
          | Some _ => (inl (LoadError vectorizer_path), w)
          | None => (inl (FileNotFoundError vectorizer_path), w)
          end
      | _ => (inl (LoadError model_path), w)
      end
  else
    let name := model_type +:+ "_model.pkl" in
    let model_path := "models/" +:+ name in
    if negb (path_exists w name) then
      let w := say w [Say ("Model not found: " +:+ model_path);
                      Say "Available models:"] in
      match models w with
      | None => (inl (FileNotFoundError "models"), w)
      | Some dir =>
          (inr (None, None),
           say w (map (fun f => Say ("  - " +:+ f))
                      (filter (fun f => endswith f ".pkl") (map fst dir))))
      end
    else
      match entry name (default [] (models w)) with
      | Some (Pair model vectorizer) =>
          let probability := predict_proba lib model vectorizer combined_text in
          let prediction := predict lib model vectorizer combined_text in
          match probability with
          | _ :: p1 :: _ => (inr (Some prediction, Some p1), w)
          | [p0] => (inr (Some prediction, Some p0), w)
          | [] => (inl IndexError, w)
          end
      | _ => (inl (LoadError model_path), w)
      end.

(** [main()], for [sys.argv]. *)
Definition main (lib : Library) (argv : list string) (w : World)
  : outcome unit :=
  match argv with
  | [] | [_] =>
      (inr tt,
       say w [Say "Usage: python predict.py '<video_title>' [description] [model_type]";
              Say "";
              Say "Example:";
              Say "  python predict.py 'Python Tutorial for Beginners'";
              Say "  python predict.py 'Funny Cat Compilation' '' 'logistic_regression'"])
  | _ :: title :: rest =>
      let description := default "" (rest !! 0%nat) in
      let model_type := default "logistic_regression" (rest !! 1%nat) in
      let w := say w [Say ("Title: " +:+ title)] in
      let w :=
        match description with
        | "" => w
        | _ => say w [Say ("Description: "
                           +:+ Collector.truncate 100 description +:+ "...")]
        end in
      let w := say w [Say ("Model: " +:+ model_type);
                      Say "--------------------------------------------------"] in
      match predict_video lib title description model_type w with
      | (inl e, w) => (inl e, w)
      | (inr (Some prediction, Some probability), w) =>
          let educational := (prediction =? 1)%Z in
          let label := if educational then "Educational" else "Entertainment" in
          (inr tt,
           say w [Say ""; Say ("Prediction: " +:+ label);
                  SayConfidence (probability * 100)%R;
                  SayVerdict educational])
      | (inr (Some prediction, None), w) => (inl TypeError, w)
      | (inr (None, _), w) => (inr tt, w)
      end
  end.

End Predict.

(** ** Notions and sample data for the further properties *)

Module Notions.

(** [url] is [before], then [lit], then [id], then [after]. *)
Definition splits_at (url before lit id after : string) : Prop :=
  url = before +:+ lit +:+ id +:+ after.

(** An eleven-character video id. *)
Definition valid_id (id : string) : Prop :=
  String.length id = 11%nat /\ Spec.all_chars Collector.is_id_char id = true.

(** The videos built from the answer to one query; none when the request
    or an item fails. *)
Definition answers (api : Collector.Api) (key : string) (max_results : Z)
    (query : string) : list Collector.Video :=
  match Collector.execute api key query max_results with
  | inr response =>
      match map_result Collector.video_data
              (default [] (Collector.items response)) with
      | inr videos => videos
      | inl _ => []
      end
  | inl _ => []
  end.

(** The request of [query] succeeds and each of its items has every key. *)
Definition answered (api : Collector.Api) (key : string) (max_results : Z)
    (query : string) : Prop :=
  exists response videos,
    Collector.execute api key query max_results = inr response
    /\ map_result Collector.video_data (default [] (Collector.items response))
       = inr videos.

(** A data row: id, title, a description of at most 500 characters, the
    label, and the watch URL of the id. *)
Definition data_row (label : string) (row : Collector.Row) : Prop :=
  exists id title description,
    row = [id; title; description; label;
           "https://youtube.com/watch?v=" +:+ id]
    /\ String.length description <= 500.

(** Each entry is at least as accurate as every entry after it. *)
Fixpoint descending (items : list (string * R)) : Prop :=
  match items with
  | [] => True
  | x :: r => Forall (fun y => (snd y <= snd x)%R) r /\ descending r
  end.

(** The entries whose accuracy is [a], in the order of the list. *)
Definition with_accuracy (a : R) (items : list (string * R))
  : list (string * R) :=
  List.filter (fun e => if Req_dec_T (snd e) a then true else false) items.

(** The sum of the products of the weights and the features, index by
    index. *)
Definition dot (weights features : list R) : R :=
  fold_right Rplus 0%R (zip_with Rmult weights features).

(** A number that is not above [bound]; [NaN] is not above anything. *)
Definition not_above (bound : R) (a : Scorer.num) : Prop :=
  match a with
  | Scorer.Fin x => (x <= bound)%R
  | Scorer.NaN => True
  end.

(** The string in a cell of a text column after [fillna('')]. *)
Definition text (c : Trainer.Cell) : string :=
  match c with
  | Trainer.Str s => s
  | _ => ""
  end.

(** The normalized text of one row: title, a space, description. *)
Definition combined (title description : Trainer.Cell) : string :=
  Trainer.preprocess_text (Trainer.Str (text title +:+ " " +:+ text description)).

(** How many of the keywords occur in [x]. *)
Definition count (keywords : list string) (x : string) : Trainer.Cell :=
  Trainer.Num (Z.of_nat (List.length (List.filter (Trainer.contains x) keywords))).

(** The columns that [extract_features] adds. *)
Definition new_columns : list string :=
  ["combined_text"; "title_length"; "desc_length"; "word_count";
   "edu_keyword_count"; "ent_keyword_count"].

End Notions.

Module Fixture.

(** A client library that answers the first two queries of each class and
    fails on the third. *)
Definition flaky : Collector.Api :=
  {| Collector.installed := true;
     Collector.build := fun _ => ret tt;
     Collector.execute := fun _ query _ =>
       if String.eqb query "math lesson" || String.eqb query "gaming"
       then raise (KeyError "quota")
       else ret {| Collector.items :=
                     Some [{| Collector.id :=
                                Some {| Collector.videoId := Some "dQw4w9WgXcQ" |};
                              Collector.snippet :=
                                Some {| Collector.snippet_title := Some query;
                                        Collector.snippet_description := Some "";
                                        Collector.channelTitle := Some "channel";
                                        Collector.publishedAt := Some "2024" |} |}] |} |}.

(** A client library that answers every query with one video. *)
Definition steady : Collector.Api :=
  {| Collector.installed := true;
     Collector.build := fun _ => ret tt;
     Collector.execute := fun _ query _ =>
       ret {| Collector.items :=
                Some [{| Collector.id :=
                           Some {| Collector.videoId := Some "dQw4w9WgXcQ" |};
                         Collector.snippet :=
                           Some {| Collector.snippet_title := Some query;
                                   Collector.snippet_description := Some "about";
                                   Collector.channelTitle := Some "channel";
                                   Collector.publishedAt := Some "2024" |} |}] |} |}.

(** The client library is not installed. *)
Definition absent : Collector.Api :=
  {| Collector.installed := false;
     Collector.build := fun _ => ret tt;
     Collector.execute := fun _ _ _ => ret {| Collector.items := None |} |}.

(** A labelled CSV that is already there. *)
Definition labelled : Collector.World :=
  {| Collector.csv :=
       Some [Collector.header;
             ["abcdefghijk"; "Calculus Lesson 1"; "Limits"; "1";
              "https://youtube.com/watch?v=abcdefghijk"]];
     Collector.console := [] |}.

(** No [models] directory: nothing has been trained yet. *)
Definition untrained : Predict.World :=
  {| Predict.models := None; Predict.console := [] |}.

(** Libraries without TensorFlow whose estimators answer with fixed
    numbers. *)
Definition library : Predict.Library :=
  {| Predict.tensorflow := false;
     Predict.predict_proba := fun _ _ _ => [0.25; 0.75]%R;
     Predict.predict := fun _ _ _ => 1%Z;
     Predict.keras_predict := fun _ _ _ => 0.75%R |}.

(** The scorer built from the artifact that [export_to_json] writes for
    the naive-Bayes pair of [Sample.trained], with as many features as
    vocabulary entries. *)
Definition bayes : Scorer.VideoClassifier :=
  {| Scorer.modelType := "naive_bayes";
     Scorer.vocabulary := {[ "python" := 0%nat; "tutorial" := 1%nat ]};
     Scorer.idf := [1.5; 2]%R;
     Scorer.maxFeatures := 2;
     Scorer.ngramRange := (1, 2)%Z;
     Scorer.coefficients := None;
     Scorer.intercept := None;
     Scorer.featureLogProb := Some [-0.5; -0.25]%R;
     Scorer.classLogPrior := Some (-0.6)%R |}.

(** A CSV with all three columns, one title and one description missing. *)
Definition videos : Trainer.DataFrame :=
  {[ "title" := [Trainer.Str "Python Tutorial: Learn the Basics!"; Trainer.NaN];
     "description" := [Trainer.NaN; Trainer.Str "Funny cat compilation"];
     "label" := [Trainer.Num 1; Trainer.Num 0] ]}.

End Fixture.

(** * Properties *)

(** ** The definitions on small inputs *)

Example preprocess_text_title :
  Trainer.preprocess_text (Trainer.Str "  Python Tutorial:   C++ (101)! ")
  = "python tutorial c 101".
Proof. reflexivity. Qed.

Example preprocess_text_missing : Trainer.preprocess_text Trainer.NaN = "".
Proof. reflexivity. Qed.

Example preprocessText_title :
  Scorer.preprocessText "  Python Tutorial:   C++ (101)! "
  = "python tutorial c 101".
Proof. reflexivity. Qed.

Example combined_text_title :
  Predictor.combined_text " Python Tutorial:   C++ " "(101)! "
  = "python tutorial:   c++  (101)!".
Proof. reflexivity. Qed.

Example extractNgrams_bigrams :
  Scorer.extractNgrams "python tutorial for beginners" 2
  = ["python tutorial"; "tutorial for"; "for beginners"].
Proof. reflexivity. Qed.

Example extractNgrams_short : Scorer.extractNgrams "python" 2 = [].
Proof. reflexivity. Qed.

(** [''.split(' ')] is [['']] in JavaScript: the empty text has one empty
    unigram. *)
Example extractNgrams_empty : Scorer.extractNgrams "" 1 = [""].
Proof. reflexivity. Qed.

Example split_words : Trainer.split "  how to   learn " = ["how"; "to"; "learn"].
Proof. reflexivity. Qed.

Example keyword_count_edu :
  Trainer.keyword_count Trainer.edu_keywords
    (Trainer.Str "python tutorial how to learn")
  = inr (Trainer.Num 3).
Proof. reflexivity. Qed.

(** The pair that the trainer wrote: the dump raises at the first index of
    the vocabulary and leaves the beginning of the text behind. *)
Example export_naive_bayes_file :
  let run := Exporter.export_to_json "naive_bayes"
               "models/model_for_extension.json" Sample.trained in
  fst run = inl TypeError
  /\ Exporter.files (snd run) !! "models/model_for_extension.json"
     = Some (Exporter.Truncated
               {| Json.type := "naive_bayes";
                  Json.coefficients := None;
                  Json.intercept := None;
                  Json.feature_log_prob := Some [-0.5; -0.25]%R;
                  Json.class_log_prior := Some (-0.6)%R;
                  Json.vocabulary := {[ "python" := 0%nat; "tutorial" := 1%nat ]};
                  Json.idf := [1.5; 2]%R;
                  Json.max_features := 5000;
                  Json.ngram_range := (1, 2)%Z |}).
Proof. split; reflexivity. Qed.

(** The same pair with Python integers as indices: the artifact is
    written. *)
Example export_naive_bayes_given_vocabulary :
  let run := Exporter.export_to_json "naive_bayes"
               "models/model_for_extension.json" Sample.encodable in
  fst run = inr tt
  /\ Exporter.files (snd run) !! "models/model_for_extension.json"
     = Some (Exporter.JsonFile
               {| Json.type := "naive_bayes";
                  Json.coefficients := None;
                  Json.intercept := None;
                  Json.feature_log_prob := Some [-0.5; -0.25]%R;
                  Json.class_log_prior := Some (-0.6)%R;
                  Json.vocabulary := {[ "python" := 0%nat; "tutorial" := 1%nat ]};
                  Json.idf := [1.5; 2]%R;
                  Json.max_features := 5000;
                  Json.ngram_range := (1, 2)%Z |}).
Proof. split; reflexivity. Qed.

Example export_missing_model :
  Exporter.export_to_json "neural_network" "models/model_for_extension.json"
    Sample.trained
  = (inr tt,
     {| Exporter.files := Exporter.files Sample.trained;
        Exporter.directories := Exporter.directories Sample.trained;
        Exporter.console :=
          [Exporter.Say "Model not found: models/neural_network_model.pkl"] |}).
Proof. reflexivity. Qed.

Example dirname_models :
  Exporter.dirname "models/model_loader.js" = "models"
  /\ Exporter.dirname "model_loader.js" = ""
  /\ Exporter.dirname "data/labeled/videos.csv" = "data/labeled"
  /\ Exporter.ancestors "data/labeled/videos.csv" = ["data"; "data/labeled"]
  /\ Exporter.ancestors "model_loader.js" = [].
Proof. repeat split. Qed.

(** ** Tactics *)

(** Settle a statement about one character by going through the 256 of
    them. *)
Ltac each_char c :=
  destruct c as [[] [] [] [] [] [] [] []]; vm_compute; try reflexivity;
  try discriminate; auto.

(** Run [export_to_json] up to the branch on the model's attributes, given
    what the model file holds. *)
Ltac step_export Hfile :=
  unfold Exporter.export_to_json, Exporter.seq, Exporter.path_exists,
    Exporter.joblib_load, Exporter.print, Exporter.lift;
  cbn [fst snd Exporter.files Exporter.directories Exporter.console];
  rewrite ?Hfile;
  rewrite ?(bool_decide_eq_true_2 (is_Some (Some _))) by eauto;
  cbn [orb negb fst snd Exporter.files Exporter.directories
       Exporter.console bind ret raise Exporter.item];
  rewrite ?Hfile;
  cbn [fst snd].

(** ** Characters *)

Lemma to_lower_az09 (c : ascii) : Text.is_az09 c = true -> Text.to_lower c = c.
Proof. each_char c. Qed.

Lemma same_class_to_lower (c : ascii) :
  Spec.same_class c = true -> Spec.same_class (Text.to_lower c) = true.
Proof. each_char c. Qed.

Lemma ascii_eqb_true (a b : ascii) : Ascii.eqb a b = true -> a = b.
Proof. apply Ascii.eqb_eq. Qed.

(** ** The normalization steps, for any whitespace class *)

Section Normalization.

Variable W : ascii -> bool.
Hypothesis W_space : W " " = true.

Abbreviation keep := (fun c => Text.is_az09 c || W c).
Abbreviation tidy := (fun c => Text.is_az09 c || Ascii.eqb c " ").
Abbreviation normalize s :=
  (Text.strip W (Text.squeeze W false (Text.delete_outside keep (Text.lower s)))).

Lemma all_chars_delete_outside (s : string) :
  Spec.all_chars keep (Text.delete_outside keep s) = true.
Proof.
  induction s as [|c r IH]; simpl; [reflexivity|].
  destruct (Text.is_az09 c || W c) eqn:E; simpl; [rewrite E|]; exact IH.
Qed.

Lemma all_chars_squeeze (b : bool) (s : string) :
  Spec.all_chars keep s = true ->
  Spec.all_chars tidy (Text.squeeze W b s) = true.
Proof.
  revert b. induction s as [|c r IH]; intros b; simpl; [reflexivity|].
  intros [Hc Hr]%andb_prop.
  destruct (W c) eqn:E.
  - destruct b; simpl; auto.
  - simpl. rewrite orb_false_r in Hc. rewrite Hc. simpl. auto.
Qed.

Lemma all_chars_lstrip (p : ascii -> bool) (s : string) :
  Spec.all_chars p s = true -> Spec.all_chars p (Text.lstrip W s) = true.
Proof.
  induction s as [|c r IH]; simpl; [reflexivity|].
  intros H. destruct (W c); [|exact H].
  apply andb_prop in H as [_ H]. auto.
Qed.

Lemma all_chars_rstrip (p : ascii -> bool) (s : string) :
  Spec.all_chars p s = true -> Spec.all_chars p (Text.rstrip W s) = true.
Proof.
  induction s as [|c r IH]; simpl; [reflexivity|].
  intros [Hc Hr]%andb_prop. specialize (IH Hr).
  destruct (Text.rstrip W r) as [|c' r'].
  - destruct (W c); simpl; [reflexivity|]. rewrite Hc. reflexivity.
  - change (p c && Spec.all_chars p (String c' r') = true).
    rewrite Hc, IH. reflexivity.
Qed.

Lemma squeezed_squeeze (b : bool) (s : string) :
  Spec.squeezed W b (Text.squeeze W b s) = true.
Proof.
  revert b. induction s as [|c r IH]; intros b; simpl; [reflexivity|].
  destruct (W c) eqn:E.
  - destruct b; [apply IH|].
    simpl. rewrite W_space. simpl. apply IH.
  - simpl. rewrite E. apply IH.
Qed.

Lemma squeezed_weaken (b : bool) (s : string) :
  Spec.squeezed W b s = true -> Spec.squeezed W false s = true.
Proof.
  destruct s as [|c r]; simpl; [reflexivity|].
  destruct (W c); [|auto].
  intros [[-> _]%andb_prop ->]%andb_prop. reflexivity.
Qed.

Lemma squeezed_lstrip (b : bool) (s : string) :
  Spec.squeezed W b s = true ->
  Spec.squeezed W true (Text.lstrip W s) = true.
Proof.
  revert b. induction s as [|c r IH]; intros b; simpl; [reflexivity|].
  destruct (W c) eqn:E.
  - intros [_ H]%andb_prop. eauto.
  - intros H. simpl. rewrite E. exact H.
Qed.

Lemma squeezed_rstrip (b : bool) (s : string) :
  Spec.squeezed W b s = true ->
  Spec.squeezed W b (Text.rstrip W s) = true.
Proof.
  revert b. induction s as [|c r IH]; intros b; simpl; [reflexivity|].
  intros H.
  destruct (Text.rstrip W r) as [|c' r'] eqn:Er.
  - destruct (W c) eqn:E; simpl; [reflexivity|]. rewrite E. reflexivity.
  - change (Spec.squeezed W b (String c (String c' r')) = true).
    cbn [Spec.squeezed] in *. destruct (W c).
    + apply andb_prop in H as [-> H]. apply (IH true) in H. exact H.
    + apply (IH false) in H. exact H.
Qed.

Lemma squeeze_fixed (b : bool) (s : string) :
  Spec.squeezed W b s = true -> Text.squeeze W b s = s.
Proof.
  revert b. induction s as [|c r IH]; intros b; simpl; [reflexivity|].
  destruct (W c).
  - intros [[Hc Hb]%andb_prop Hr]%andb_prop.
    apply ascii_eqb_true in Hc as ->. destruct b; [discriminate|].
    f_equal. auto.
  - intros H. f_equal. auto.
Qed.

Lemma lower_fixed (s : string) :
  Spec.all_chars tidy s = true -> Text.lower s = s.
Proof.
  induction s as [|c r IH]; simpl; [reflexivity|].
  intros [Hc Hr]%andb_prop. f_equal; [|auto].
  apply orb_prop in Hc as [Hc|Hc]; [apply to_lower_az09, Hc|].
  apply ascii_eqb_true in Hc as ->. reflexivity.
Qed.

Lemma delete_outside_fixed (s : string) :
  Spec.all_chars tidy s = true -> Text.delete_outside keep s = s.
Proof.
  induction s as [|c r IH]; simpl; [reflexivity|].
  intros [Hc Hr]%andb_prop.
  assert (Text.is_az09 c || W c = true) as ->.
  { apply orb_prop in Hc as [->|Hc]; [reflexivity|].
    apply ascii_eqb_true in Hc as ->. rewrite W_space. apply orb_true_r. }
  f_equal. auto.
Qed.

Lemma rstrip_rstrip (s : string) :
  Text.rstrip W (Text.rstrip W s) = Text.rstrip W s.
Proof.
  induction s as [|c r IH]; simpl; [reflexivity|].
  destruct (Text.rstrip W r) as [|c' r'] eqn:Er.
  - destruct (W c) eqn:E; simpl; [reflexivity|]. rewrite E. reflexivity.
  - change (Text.rstrip W (String c (String c' r')) = String c (String c' r')).
    cbn [Text.rstrip]. cbn [Text.rstrip] in IH. rewrite IH. reflexivity.
Qed.

Lemma lstrip_rstrip_lstrip (s : string) :
  Text.lstrip W (Text.rstrip W (Text.lstrip W s))
  = Text.rstrip W (Text.lstrip W s).
Proof.
  induction s as [|c r IH]; simpl; [reflexivity|].
  destruct (W c) eqn:E; [exact IH|].
  simpl. destruct (Text.rstrip W r) as [|c' r']; rewrite ?E; simpl;
    rewrite E; reflexivity.
Qed.

Lemma strip_strip (s : string) :
  Text.strip W (Text.strip W s) = Text.strip W s.
Proof.
  unfold Text.strip. rewrite lstrip_rstrip_lstrip. apply rstrip_rstrip.
Qed.

(** The shape of a normalized text: only [a-z0-9] and single spaces, no
    space at either end. *)
Lemma normalize_shape (s : string) :
  Spec.all_chars tidy (normalize s) = true
  /\ Spec.squeezed W true (normalize s) = true
  /\ Text.rstrip W (normalize s) = normalize s.
Proof.
  split; [|split].
  - apply all_chars_rstrip, all_chars_lstrip, all_chars_squeeze,
      all_chars_delete_outside.
  - apply squeezed_rstrip, (squeezed_lstrip false), squeezed_squeeze.
  - apply rstrip_rstrip.
Qed.

(** Normalizing a normalized text changes nothing. *)
Lemma normalize_idempotent (s : string) :
  normalize (normalize s) = normalize s.
Proof.
  set (u := Text.squeeze W false (Text.delete_outside keep (Text.lower s))).
  assert (Spec.all_chars tidy (Text.strip W u) = true) as Htidy.
  { apply all_chars_rstrip, all_chars_lstrip, all_chars_squeeze,
      all_chars_delete_outside. }
  assert (Spec.squeezed W false (Text.strip W u) = true) as Hsq.
  { apply (squeezed_weaken true), squeezed_rstrip, (squeezed_lstrip false),
      squeezed_squeeze. }
  rewrite (lower_fixed _ Htidy), (delete_outside_fixed _ Htidy),
    (squeeze_fixed _ _ Hsq).
  apply strip_strip.
Qed.

End Normalization.

(** ** Two whitespace classes that agree on the characters of a text *)

Section Agreement.

Variables W1 W2 : ascii -> bool.
Hypothesis W_space : W1 " " = W2 " ".

Abbreviation agree := (fun c => Bool.eqb (W1 c) (W2 c)).

Lemma agree_eq (c : ascii) : agree c = true -> W1 c = W2 c.
Proof. apply Bool.eqb_prop. Qed.

Lemma delete_outside_agree (s : string) :
  Spec.all_chars agree s = true ->
  Text.delete_outside (fun c => Text.is_az09 c || W1 c) s
  = Text.delete_outside (fun c => Text.is_az09 c || W2 c) s.
Proof.
  induction s as [|c r IH]; simpl; [reflexivity|].
  intros [Hc Hr]%andb_prop. apply agree_eq in Hc. rewrite Hc, (IH Hr).
  reflexivity.
Qed.

Lemma all_chars_agree_delete_outside (keep : ascii -> bool) (s : string) :
  Spec.all_chars agree s = true ->
  Spec.all_chars agree (Text.delete_outside keep s) = true.
Proof.
  induction s as [|c r IH]; simpl; [reflexivity|].
  intros [Hc Hr]%andb_prop. destruct (keep c); simpl; [rewrite Hc|]; auto.
Qed.

Lemma squeeze_agree (b : bool) (s : string) :
  Spec.all_chars agree s = true ->
  Text.squeeze W1 b s = Text.squeeze W2 b s.
Proof.
  revert b. induction s as [|c r IH]; intros b; simpl; [reflexivity|].
  intros [Hc Hr]%andb_prop. apply agree_eq in Hc. rewrite Hc.
  destruct (W2 c); [destruct b|]; rewrite IH; auto.
Qed.

Lemma all_chars_agree_squeeze (b : bool) (s : string) :
  Spec.all_chars agree s = true ->
  Spec.all_chars agree (Text.squeeze W1 b s) = true.
Proof.
  revert b. induction s as [|c r IH]; intros b; simpl; [reflexivity|].
  intros [Hc Hr]%andb_prop.
  destruct (W1 c) eqn:E; [destruct b|]; simpl; auto.
  - rewrite W_space, Bool.eqb_reflx. simpl. auto.
  - apply andb_true_intro. split; [rewrite E; exact Hc | auto].
Qed.

Lemma lstrip_agree (s : string) :
  Spec.all_chars agree s = true -> Text.lstrip W1 s = Text.lstrip W2 s.
Proof.
  induction s as [|c r IH]; simpl; [reflexivity|].
  intros [Hc Hr]%andb_prop. apply agree_eq in Hc. rewrite Hc.
  destruct (W2 c); auto.
Qed.

Lemma rstrip_agree (s : string) :
  Spec.all_chars agree s = true -> Text.rstrip W1 s = Text.rstrip W2 s.
Proof.
  induction s as [|c r IH]; simpl; [reflexivity|].
  intros [Hc Hr]%andb_prop. apply agree_eq in Hc. rewrite Hc, (IH Hr).
  reflexivity.
Qed.

Lemma strip_agree (s : string) :
  Spec.all_chars agree s = true -> Text.strip W1 s = Text.strip W2 s.
Proof.
  intros H. unfold Text.strip. rewrite <- (lstrip_agree _ H).
  apply rstrip_agree, all_chars_lstrip, H.
Qed.

End Agreement.

Lemma all_chars_same_class_lower (s : string) :
  Spec.all_chars Spec.same_class s = true ->
  Spec.all_chars Spec.same_class (Text.lower s) = true.
Proof.
  induction s as [|c r IH]; simpl; [reflexivity|].
  intros [Hc Hr]%andb_prop. rewrite (same_class_to_lower _ Hc). auto.
Qed.

(** On a text without U+001C..U+001F and U+0085 the scorer's normalization
    and the trainer's return the same string. *)
Lemma preprocessText_preprocess_text (s : string) :
  Spec.all_chars Spec.same_class s = true ->
  Scorer.preprocessText s = Trainer.preprocess_text (Trainer.Str s).
Proof.
  intros H%all_chars_same_class_lower.
  unfold Scorer.preprocessText, Trainer.preprocess_text, Trainer.str.
  symmetry.
  rewrite (delete_outside_agree Text.py_isspace Text.js_isspace _ H).
  pose proof (all_chars_agree_delete_outside Text.py_isspace Text.js_isspace
                (fun c => Text.is_az09 c || Text.js_isspace c) _ H) as H1.
  rewrite (squeeze_agree Text.py_isspace Text.js_isspace false _ H1).
  apply strip_agree.
  rewrite <- (squeeze_agree Text.py_isspace Text.js_isspace false _ H1).
  apply all_chars_agree_squeeze; [reflexivity | exact H1].
Qed.

(** ** Preprocessing *)

(** C9. The trainer's [preprocess_text] is idempotent: normalizing its
    result again returns the same string, whatever value it was given; and
    so is the scorer's [preprocessText]. *)
Theorem preprocess_idempotent :
  (forall text : Trainer.Cell,
      Trainer.preprocess_text (Trainer.Str (Trainer.preprocess_text text))
      = Trainer.preprocess_text text)
  /\ (forall text : string,
         Scorer.preprocessText (Scorer.preprocessText text)
         = Scorer.preprocessText text).
Proof.
  split.
  - intros [|s|z]; [reflexivity| |];
      apply (normalize_idempotent Text.py_isspace); reflexivity.
  - intros s. apply (normalize_idempotent Text.js_isspace). reflexivity.
Qed.

(** C1, at the texts [a], U+001C, [b] and [wait], U+0085, [what]. Python's
    [\s] matches the file separator U+001C and the next-line character
    U+0085, so the trainer keeps them and then turns each into a space;
    JavaScript's [\s] matches neither, so the scorer deletes them. The two
    normalizations return different strings. *)
Theorem preprocessText_differs_on_python_whitespace :
  let fs := String "a" (String "028" (String "b" "")) in
  let nel := "wait" +:+ String "133" "what" in
  Trainer.preprocess_text (Trainer.Str fs) = "a b"
  /\ Scorer.preprocessText fs = "ab"
  /\ Trainer.preprocess_text (Trainer.Str nel) = "wait what"
  /\ Scorer.preprocessText nel = "waitwhat".
Proof. repeat split. Qed.

(** C8, at title [Don't Stop] and an empty description. The predictor only
    lower-cases and strips the combined text; the apostrophe that the
    trainer's preprocessing deletes is still there when the text reaches the
    vectorizer. *)
Theorem predictor_text_differs_from_trainer :
  let title := "Don't Stop" in
  let description := "" in
  Predictor.combined_text title description = "don't stop"
  /\ Trainer.preprocess_text (Trainer.Str (title +:+ " " +:+ description))
     = "dont stop"
  /\ Predictor.combined_text title description
     <> Trainer.preprocess_text (Trainer.Str (title +:+ " " +:+ description)).
Proof. vm_compute. repeat split. discriminate. Qed.

(** ** N-gram extraction *)

Lemma extractNgrams_is_ngram (text : string) (n : nat) (g : string) :
  g ∈ Scorer.extractNgrams text n <-> Spec.is_ngram n (Scorer.split text) g.
Proof.
  unfold Scorer.extractNgrams, Scorer.slice_join, Spec.is_ngram.
  set (words := Scorer.split text).
  rewrite list_elem_of_In, in_map_iff. split.
  - intros (i & <- & Hi%in_seq).
    exists (take i words), (take n (drop i words)), (drop n (drop i words)).
    rewrite !take_drop. split; [reflexivity|]. split; [|reflexivity].
    rewrite length_take, length_drop. lia.
  - intros (before & ws & after & Hw & Hlen & ->).
    exists (length before). split.
    + rewrite Hw, drop_app_length, <- Hlen, take_app_length. reflexivity.
    + apply in_seq. rewrite Hw, !length_app. lia.
Qed.

(** ** The words of a normalized text *)

Lemma js_isspace_az09 (c : ascii) :
  Text.is_az09 c = true -> Text.js_isspace c = false.
Proof. each_char c. Qed.

Lemma all_chars_app (p : ascii -> bool) (s t : string) :
  Spec.all_chars p s = true -> Spec.all_chars p t = true ->
  Spec.all_chars p (s +:+ t) = true.
Proof.
  induction s as [|c r IH]; simpl; [auto|].
  intros [-> Hr]%andb_prop Ht. simpl. auto.
Qed.

Lemma string_app_nil_r (s : string) : s +:+ "" = s.
Proof.
  induction s as [|c r IH]; [reflexivity|].
  change (String c (r +:+ "") = String c r). f_equal. exact IH.
Qed.

Lemma string_app_assoc (s t u : string) : (s +:+ t) +:+ u = s +:+ (t +:+ u).
Proof.
  induction s as [|c r IH]; [reflexivity|].
  change (String c ((r +:+ t) +:+ u) = String c (r +:+ (t +:+ u))).
  f_equal. exact IH.
Qed.

Lemma split_aux_not_nil (cur text : string) : Scorer.split_aux cur text <> [].
Proof.
  revert cur. induction text as [|c r IH]; intros cur; simpl; [discriminate|].
  destruct (Ascii.eqb c " "); [discriminate | apply IH].
Qed.

(** Joining the pieces of [split] with spaces gives the text back. *)
Lemma concat_split_aux (cur text : string) :
  String.concat " " (Scorer.split_aux cur text) = cur +:+ text.
Proof.
  revert cur. induction text as [|c r IH]; intros cur; cbn [Scorer.split_aux].
  - symmetry. apply string_app_nil_r.
  - destruct (Ascii.eqb_spec c " ") as [->|Hc].
    + specialize (IH "").
      destruct (Scorer.split_aux "" r) as [|w ws] eqn:E.
      * apply split_aux_not_nil in E. contradiction.
      * change (cur +:+ " " +:+ String.concat " " (w :: ws)
                = cur +:+ String " " r).
        rewrite IH. reflexivity.
    + rewrite IH, string_app_assoc. reflexivity.
Qed.

Lemma concat_split (text : string) :
  String.concat " " (Scorer.split text) = text.
Proof. apply concat_split_aux. Qed.

Lemma rstrip_tail (W : ascii -> bool) (c : ascii) (r : string) :
  Text.rstrip W (String c r) = String c r -> r <> "" ->
  Text.rstrip W r = r.
Proof.
  simpl. destruct (Text.rstrip W r) as [|c' r'].
  - destruct (W c); [discriminate|]. intros [= <-]. contradiction.
  - intros [= <-]. reflexivity.
Qed.

(** Between two spaces, and between a space and either end, [split] finds a
    word: a non-empty run of [a-z0-9]. [cur] is the part of the current word
    that has been read. *)
Lemma split_aux_words (cur text : string) :
  Spec.all_chars Text.is_az09 cur = true ->
  Spec.all_chars (fun c => Text.is_az09 c || Ascii.eqb c " ") text = true ->
  Spec.squeezed Text.js_isspace (String.eqb cur "") text = true ->
  Text.rstrip Text.js_isspace text = text ->
  cur <> "" \/ text <> "" ->
  Forall (fun w => w <> "" /\ Spec.all_chars Text.is_az09 w = true)
         (Scorer.split_aux cur text).
Proof.
  revert cur. induction text as [|c r IH]; intros cur Hcur Htidy Hsq Hr Hne.
  - simpl. constructor; [|constructor]. split; [|exact Hcur].
    destruct Hne as [H|H]; [exact H | contradiction].
  - apply andb_prop in Htidy as [Hc Htidy].
    cbn [Scorer.split_aux]. destruct (Ascii.eqb_spec c " ") as [->|Hsp].
    + cbn [Spec.squeezed] in Hsq. change (Text.js_isspace " ") with true in Hsq.
      apply andb_prop in Hsq as [[_ Hb]%andb_prop Hsq].
      assert (cur <> "") as Hcur' by (intros ->; discriminate Hb).
      assert (r <> "") as Hr'.
      { intros ->. vm_compute in Hr. discriminate Hr. }
      constructor; [split; assumption|].
      apply IH; auto. apply (rstrip_tail _ _ _ Hr Hr').
    + assert (Text.is_az09 c = true) as Haz.
      { apply orb_prop in Hc as [Hc|Hc]; [exact Hc | discriminate Hc]. }
      cbn [Spec.squeezed] in Hsq. rewrite (js_isspace_az09 _ Haz) in Hsq.
      apply IH.
      * apply all_chars_app; [exact Hcur|]. simpl. rewrite Haz. reflexivity.
      * exact Htidy.
      * assert (String.eqb (cur +:+ String c "") "" = false) as ->; [|exact Hsq].
        destruct cur; reflexivity.
      * destruct r as [|c' r']; [reflexivity|].
        apply (rstrip_tail _ c); [exact Hr | discriminate].
      * left. destruct cur; discriminate.
Qed.

(** The word sequence that the scorer takes n-grams from: for a text that
    does not normalize to the empty string, every piece of [split] is a
    non-empty word over [a-z0-9], and the pieces joined by single spaces are
    the normalized text. *)
Lemma split_preprocessText (text : string) :
  Scorer.preprocessText text <> "" ->
  Forall (fun w => w <> "" /\ Spec.all_chars Text.is_az09 w = true)
         (Scorer.split (Scorer.preprocessText text))
  /\ String.concat " " (Scorer.split (Scorer.preprocessText text))
     = Scorer.preprocessText text.
Proof.
  intros Hne. split; [|apply concat_split].
  destruct (normalize_shape Text.js_isspace eq_refl text)
    as (Htidy & Hsq & Hr).
  apply split_aux_words; auto.
Qed.

(** Whatever the configured range, an extracted n-gram is a unigram or a
    bigram. *)
Lemma ngrams_of_unigram_or_bigram (c : Scorer.VideoClassifier)
    (processed g : string) :
  g ∈ Scorer.ngrams_of c processed ->
  Spec.is_ngram 1 (Scorer.split processed) g
  \/ Spec.is_ngram 2 (Scorer.split processed) g.
Proof.
  unfold Scorer.ngrams_of. rewrite elem_of_app.
  intros [H|H]; [left | right];
    (destruct (_ <=? _)%Z; [apply extractNgrams_is_ngram, H
                           | apply elem_of_nil in H; contradiction]).
Qed.

(** *** The words of a text, and the pieces that [split] finds *)

Abbreviation not_space := (fun c : ascii => negb (Ascii.eqb c " ")).
Abbreviation not_empty := (fun w : string => negb (String.eqb w "")).

(** A run without a space, followed by the end of the text or by a space,
    is one word. *)
Lemma words_run (cur rest : string) :
  Spec.all_chars not_space cur = true ->
  (rest = "" \/ exists r, rest = String " " r) ->
  Spec.words (cur +:+ rest)
  = (match cur with "" => [] | _ => [cur] end ++ Spec.words rest)%list.
Proof.
  intros Hcur Hrest. induction cur as [|c cur IH]; [reflexivity|].
  cbn [Spec.all_chars] in Hcur. apply andb_prop in Hcur as [Hc Hcur].
  apply negb_true_iff in Hc. specialize (IH Hcur).
  change (String c cur +:+ rest) with (String c (cur +:+ rest)).
  cbn [Spec.words]. rewrite Hc.
  destruct cur as [|d cur'].
  - change ("" +:+ rest) with rest.
    destruct Hrest as [->|[r ->]]; reflexivity.
  - change (String d cur' +:+ rest) with (String d (cur' +:+ rest)) in *.
    cbn [Spec.all_chars] in Hcur. apply andb_prop in Hcur as [Hd _].
    apply negb_true_iff in Hd. rewrite Hd, IH. reflexivity.
Qed.

(** The words of a text are the non-empty pieces of [split]. *)
Lemma words_split_aux (cur text : string) :
  Spec.all_chars not_space cur = true ->
  Spec.words (cur +:+ text)
  = List.filter not_empty (Scorer.split_aux cur text).
Proof.
  revert cur. induction text as [|c r IH]; intros cur Hcur.
  - rewrite (words_run cur "" Hcur) by auto. cbn [Scorer.split_aux].
    destruct cur; reflexivity.
  - cbn [Scorer.split_aux]. destruct (Ascii.eqb_spec c " ") as [->|Hc].
    + rewrite (words_run cur _ Hcur) by eauto.
      cbn [Spec.words List.filter]. change (Ascii.eqb " " " ") with true.
      cbv beta iota. rewrite <- (IH "" eq_refl). change ("" +:+ r) with r.
      destruct cur; reflexivity.
    + rewrite <- IH.
      * rewrite string_app_assoc. reflexivity.
      * apply all_chars_app; [exact Hcur|]. cbn [Spec.all_chars].
        apply Ascii.eqb_neq in Hc. rewrite Hc. reflexivity.
Qed.

(** On a text that does not normalize to the empty string, the pieces that
    the scorer takes its n-grams from are the words of the normalized
    text. *)
Lemma words_preprocessText (text : string) :
  Scorer.preprocessText text <> "" ->
  Spec.words (Scorer.preprocessText text)
  = Scorer.split (Scorer.preprocessText text).
Proof.
  intros Hne. destruct (split_preprocessText text Hne) as [Hwords _].
  change (Spec.words (Scorer.preprocessText text))
    with (Spec.words ("" +:+ Scorer.preprocessText text)).
  rewrite words_split_aux by reflexivity. fold (Scorer.split (Scorer.preprocessText text)).
  induction Hwords as [|w ws [Hw _] Hws IH]; [reflexivity|].
  cbn [List.filter]. rewrite IH.
  destruct w; [contradiction | reflexivity].
Qed.

(** With a range within 1..2, the extracted n-grams are the runs of one or
    two consecutive pieces of [split] whose length is in the range. *)
Lemma ngrams_of_within_2 (c : Scorer.VideoClassifier) (processed g : string) :
  (1 <= fst (Scorer.ngramRange c))%Z ->
  (fst (Scorer.ngramRange c) <= snd (Scorer.ngramRange c))%Z ->
  (snd (Scorer.ngramRange c) <= 2)%Z ->
  g ∈ Scorer.ngrams_of c processed <->
  exists n, (fst (Scorer.ngramRange c) <= Z.of_nat n
             <= snd (Scorer.ngramRange c))%Z
            /\ Spec.is_ngram n (Scorer.split processed) g.
Proof.
  intros Hmin Hle Hmax. unfold Scorer.ngrams_of.
  destruct (Scorer.ngramRange c) as [min_n max_n]. simpl in *.
  rewrite elem_of_app.
  destruct (Z.leb_spec min_n 1) as [L1|L1], (Z.leb_spec 2 max_n) as [L2|L2];
    rewrite ?extractNgrams_is_ngram; split.
  - intros [H|H]; [exists 1%nat | exists 2%nat]; split; auto; lia.
  - intros (n & Hn & H).
    assert (n = 1 \/ n = 2)%nat as [-> | ->] by lia; auto.
  - intros [H|H%elem_of_nil]; [|contradiction]. exists 1%nat. split; auto; lia.
  - intros (n & Hn & H). assert (n = 1)%nat as -> by lia. auto.
  - intros [H%elem_of_nil|H]; [contradiction|]. exists 2%nat. split; auto; lia.
  - intros (n & Hn & H). assert (n = 2)%nat as -> by lia. auto.
  - lia.
  - lia.
Qed.

(** C2, as amended. When the configured range lies within 1..2 and the
    text does not normalize to the empty string, the scorer extracts all
    and only the n-grams whose length is in the range: the runs of that
    many consecutive words of the normalized text, joined by single spaces;
    the unigrams when [min_n <= 1], the bigrams when [max_n >= 2]. *)
Theorem ngrams_of_range_within_2 (c : Scorer.VideoClassifier) (text : string) :
  (1 <= fst (Scorer.ngramRange c))%Z ->
  (fst (Scorer.ngramRange c) <= snd (Scorer.ngramRange c))%Z ->
  (snd (Scorer.ngramRange c) <= 2)%Z ->
  Scorer.preprocessText text <> "" ->
  Spec.extracts_range c text.
Proof.
  intros Hmin Hle Hmax Hne g.
  rewrite (words_preprocessText text Hne).
  apply ngrams_of_within_2; assumption.
Qed.

(** C2, counterexample. With the range (1, 3) and the text [a b c], the
    trigram [a b c] has a length inside the range and is not extracted: the
    scorer never produces an n-gram longer than two words. *)
Lemma trigram_not_extracted : ~ Spec.extracts_range Sample.trigrams "a b c".
Proof.
  intros H. specialize (H "a b c") as [_ H].
  assert ("a b c" ∈ Scorer.ngrams_of Sample.trigrams
                       (Scorer.preprocessText "a b c")) as Hin.
  { apply H. exists 3%nat. split; [simpl; lia|].
    exists [], ["a"; "b"; "c"], []. repeat split. }
  apply list_elem_of_In in Hin. vm_compute in Hin.
  repeat destruct Hin as [Hin|Hin]; try discriminate Hin. exact Hin.
Qed.

(** Where the text normalizes to the empty string there is no word, and
    the scorer still extracts one unigram, the empty string:
    [''.split(' ')] is [['']]. *)
Lemma empty_text_unigram :
  Scorer.preprocessText "!!!" = ""
  /\ Spec.words "" = []
  /\ Scorer.ngrams_of Sample.balanced "" = [""]
  /\ ~ Spec.extracts_range Sample.balanced "!!!".
Proof.
  repeat split. intros H. specialize (H "") as [H _].
  destruct H as (n & Hn & before & ws & after & Hw & Hlen & _).
  { apply list_elem_of_here. }
  change (Spec.words (Scorer.preprocessText "!!!")) with (@nil string) in Hw.
  symmetry in Hw. apply app_eq_nil in Hw as [_ Hw].
  apply app_eq_nil in Hw as [-> _]. simpl in Hlen, Hn. lia.
Qed.

Lemma ngrams_of_range_within_2_witness :
  Spec.extracts_range Sample.balanced "Python Tutorial".
Proof.
  apply ngrams_of_range_within_2; [simpl; lia | simpl; lia | simpl; lia|].
  vm_compute. discriminate.
Defined.

(** ** Features before normalization *)

Lemma length_set_feature (c : Scorer.VideoClassifier) (f : list R) (g : string) :
  length (Scorer.set_feature c f g) = length f.
Proof.
  unfold Scorer.set_feature. destruct (Scorer.vocabulary c !! g); [|reflexivity].
  destruct (_ <? _)%nat; [apply length_insert | reflexivity].
Qed.

Lemma length_fold_set_feature (c : Scorer.VideoClassifier) (l : list string)
    (f : list R) :
  length (fold_left (Scorer.set_feature c) l f) = length f.
Proof.
  revert f. induction l as [|g l IH]; intros f; simpl; [reflexivity|].
  rewrite IH. apply length_set_feature.
Qed.

Lemma length_features_of (c : Scorer.VideoClassifier) (text : string) :
  length (Scorer.features_of c text) = Scorer.maxFeatures c.
Proof.
  unfold Scorer.features_of. rewrite length_fold_set_feature.
  apply length_replicate.
Qed.

Lemma lookup_set_feature (c : Scorer.VideoClassifier) (f : list R) (g : string)
    (j : nat) :
  length f = Scorer.maxFeatures c ->
  Scorer.set_feature c f g !! j
  = if bool_decide (Scorer.vocabulary c !! g = Some j)
       && (j <? Scorer.maxFeatures c)%nat
    then Some (Scorer.idf_or_1 c j) else f !! j.
Proof.
  intros Hlen. unfold Scorer.set_feature.
  destruct (Scorer.vocabulary c !! g) as [index|]; [|reflexivity].
  destruct (decide (index = j)) as [->|Hne].
  - rewrite bool_decide_eq_true_2 by reflexivity. simpl.
    destruct (Nat.ltb_spec j (Scorer.maxFeatures c)); [|reflexivity].
    apply list_lookup_insert_eq. lia.
  - rewrite bool_decide_eq_false_2 by congruence. simpl.
    destruct (_ <? _)%nat; [|reflexivity].
    apply list_lookup_insert_ne, Hne.
Qed.

(** What the loop over the n-grams leaves at index [j]. *)
Lemma lookup_fold_set_feature (c : Scorer.VideoClassifier) (l : list string)
    (f : list R) (j : nat) :
  length f = Scorer.maxFeatures c ->
  fold_left (Scorer.set_feature c) l f !! j
  = if Spec.hit c l j && (j <? Scorer.maxFeatures c)%nat
    then Some (Scorer.idf_or_1 c j) else f !! j.
Proof.
  revert f. induction l as [|g l IH]; intros f Hlen; simpl; [reflexivity|].
  rewrite IH by (rewrite length_set_feature; exact Hlen).
  rewrite lookup_set_feature by exact Hlen.
  destruct (bool_decide _), (Spec.hit c l j), (_ <? _)%nat; reflexivity.
Qed.

Lemma lookup_features_of (c : Scorer.VideoClassifier) (text : string) (j : nat) :
  Scorer.features_of c text !! j
  = if (j <? Scorer.maxFeatures c)%nat
    then Some (if Spec.hit c (Scorer.ngrams_of c (Scorer.preprocessText text)) j
               then Scorer.idf_or_1 c j else 0%R)
    else None.
Proof.
  unfold Scorer.features_of.
  rewrite lookup_fold_set_feature by apply length_replicate.
  destruct (Nat.ltb_spec j (Scorer.maxFeatures c)) as [Hj|Hj].
  - rewrite andb_true_r. destruct (Spec.hit _ _ _); [reflexivity|].
    apply lookup_replicate_2, Hj.
  - rewrite andb_false_r. apply lookup_replicate_None. lia.
Qed.

Lemma hit_true (c : Scorer.VideoClassifier) (l : list string) (j : nat) :
  Spec.hit c l j = true <->
  exists g, g ∈ l /\ Scorer.vocabulary c !! g = Some j.
Proof.
  unfold Spec.hit. rewrite existsb_exists. split.
  - intros (g & Hg & Hv). exists g. split; [apply list_elem_of_In, Hg|].
    apply bool_decide_eq_true in Hv. exact Hv.
  - intros (g & Hg & Hv). exists g. split; [apply list_elem_of_In, Hg|].
    apply bool_decide_eq_true. exact Hv.
Qed.

Lemma hit_same_elements (c : Scorer.VideoClassifier) (l1 l2 : list string)
    (j : nat) :
  (forall g, g ∈ l1 <-> g ∈ l2) -> Spec.hit c l1 j = Spec.hit c l2 j.
Proof.
  intros H. apply eq_true_iff_eq. rewrite !hit_true.
  split; intros (g & Hg & Hv); exists g; split; auto; apply H; exact Hg.
Qed.

(** C3, as amended. For every token of the input that is in the vocabulary
    with an index below [max_features], the feature at that index is the IDF
    weight at that index, or 1 when that weight is zero or missing. Only
    presence counts: two texts with the same set of n-grams get the same
    features, however often each n-gram occurs. *)
Theorem features_of_vocabulary_token (c : Scorer.VideoClassifier)
    (text token : string) (i : nat) :
  token ∈ Scorer.ngrams_of c (Scorer.preprocessText text) ->
  Scorer.vocabulary c !! token = Some i ->
  (i < Scorer.maxFeatures c)%nat ->
  Scorer.features_of c text !! i = Some (Scorer.idf_or_1 c i)
  /\ (forall w, Scorer.idf c !! i = Some w -> w <> 0%R ->
                Scorer.features_of c text !! i = Some w)
  /\ (forall text',
         (forall g, g ∈ Scorer.ngrams_of c (Scorer.preprocessText text) <->
                    g ∈ Scorer.ngrams_of c (Scorer.preprocessText text')) ->
         Scorer.features_of c text' = Scorer.features_of c text).
Proof.
  intros Hin Hv Hi.
  assert (Scorer.features_of c text !! i = Some (Scorer.idf_or_1 c i)) as Hset.
  { rewrite lookup_features_of.
    destruct (Nat.ltb_spec i (Scorer.maxFeatures c)); [|lia].
    assert (Spec.hit c (Scorer.ngrams_of c (Scorer.preprocessText text)) i = true)
      as -> by (apply hit_true; eauto).
    reflexivity. }
  split; [exact Hset|]. split.
  - intros w Hw Hne. rewrite Hset. unfold Scorer.idf_or_1. rewrite Hw.
    destruct (Req_dec_T w 0); [contradiction|reflexivity].
  - intros text' Hsame. apply list_eq. intros j.
    rewrite !lookup_features_of.
    rewrite (hit_same_elements c _ _ j Hsame). reflexivity.
Qed.

Lemma features_of_vocabulary_token_witness :
  Scorer.features_of Sample.balanced "Python Tutorial" !! 1%nat
  = Some (Scorer.idf_or_1 Sample.balanced 1).
Proof.
  refine (proj1 (features_of_vocabulary_token Sample.balanced "Python Tutorial"
                   "tutorial" 1 _ _ _)).
  - apply list_elem_of_In. vm_compute. auto.
  - reflexivity.
  - simpl. lia.
Defined.

(** C3, counterexample. With the token [python] in the vocabulary at index
    0 and the IDF weight 0 there, the scorer stores 1, not the weight; and
    with the token at index 3 and [max_features = 2], the scorer stores
    nothing: the feature vector has no index 3. *)
Lemma idf_weight_not_stored :
  ~ Spec.sets_idf_weight Sample.zero_idf "python"
  /\ ~ Spec.sets_idf_weight Sample.beyond_max "python".
Proof.
  split; intros H.
  - destruct (H "python" 0%nat) as (w & Hw & Hf).
    + apply list_elem_of_In. vm_compute. auto.
    + reflexivity.
    + rewrite lookup_features_of in Hf.
      assert (Spec.hit Sample.zero_idf
                (Scorer.ngrams_of Sample.zero_idf
                   (Scorer.preprocessText "python")) 0 = true) as Hhit
        by (vm_compute; reflexivity).
      rewrite Hhit in Hf. simpl in Hw, Hf. injection Hw as <-.
      unfold Scorer.idf_or_1 in Hf. simpl in Hf.
      destruct (Req_dec_T 0 0); [|contradiction].
      injection Hf as Hf. lra.
  - destruct (H "python" 3%nat) as (w & Hw & Hf).
    + apply list_elem_of_In. vm_compute. auto.
    + reflexivity.
    + rewrite lookup_features_of in Hf. simpl in Hf. discriminate Hf.
Qed.

(** ** L2 normalization *)

Open Scope R_scope.

Lemma fold_left_sumsq (l : list R) (a : R) :
  fold_left (fun sum x => sum + x * x) l a = a + Spec.sumsq l.
Proof.
  revert a. induction l as [|x l IH]; intros a; simpl; [lra|].
  rewrite IH. lra.
Qed.

Lemma norm_of_sumsq (l : list R) : Scorer.norm_of l = sqrt (Spec.sumsq l).
Proof. unfold Scorer.norm_of. rewrite fold_left_sumsq. f_equal. lra. Qed.

Lemma sumsq_nonneg (l : list R) : 0 <= Spec.sumsq l.
Proof.
  induction l as [|x l IH]; simpl; [lra|].
  pose proof (Rle_0_sqr x) as Hx. unfold Rsqr in Hx. lra.
Qed.

Lemma sumsq_zero (l : list R) :
  Spec.sumsq l = 0 <-> Forall (fun x => x = 0) l.
Proof.
  induction l as [|x l IH]; simpl.
  - split; [constructor | reflexivity].
  - pose proof (sumsq_nonneg l) as Hl.
    pose proof (Rle_0_sqr x) as Hx. unfold Rsqr in Hx. split.
    + intros H. assert (x * x = 0) as Hxx by lra.
      apply Rmult_integral in Hxx. constructor; [lra|]. apply IH. lra.
    + intros H. inversion H as [|? ? -> Hl']. apply IH in Hl'. lra.
Qed.

Lemma norm_of_nonneg (l : list R) : 0 <= Scorer.norm_of l.
Proof. rewrite norm_of_sumsq. apply sqrt_pos. Qed.

Lemma norm_of_zero (l : list R) :
  Scorer.norm_of l = 0 <-> Forall (fun x => x = 0) l.
Proof.
  rewrite norm_of_sumsq, <- sumsq_zero. split.
  - intros H. apply sqrt_eq_0; [apply sumsq_nonneg | exact H].
  - intros ->. apply sqrt_0.
Qed.

Lemma sumsq_scaled (l : list R) (n : R) :
  n <> 0 -> Spec.sumsq (map (fun x => x / n) l) = Spec.sumsq l / (n * n).
Proof.
  intros Hn. induction l as [|x l IH]; simpl; [field; exact Hn|].
  rewrite IH. field. exact Hn.
Qed.

Lemma norm_of_scaled (l : list R) :
  Scorer.norm_of l <> 0 ->
  Scorer.norm_of (map (fun x => x / Scorer.norm_of l) l) = 1.
Proof.
  intros Hn. rewrite (norm_of_sumsq (map _ l)), sumsq_scaled by exact Hn.
  rewrite norm_of_sumsq in *. rewrite sqrt_sqrt by apply sumsq_nonneg.
  assert (Spec.sumsq l <> 0) as Hs by (intros E; apply Hn; rewrite E; apply sqrt_0).
  replace (Spec.sumsq l / Spec.sumsq l) with 1 by (field; exact Hs).
  apply sqrt_1.
Qed.

(** In exact arithmetic, with [f] the features before normalization: the
    norm of [f] is zero exactly when every feature is zero; in that case
    [vectorize] returns [f] itself; otherwise it returns every feature
    divided by the norm, and the result has L2 norm 1. *)
Lemma vectorize_unit_norm_exact (c : Scorer.VideoClassifier) (text : string) :
  let f := Scorer.features_of c text in
  (Scorer.norm_of f = 0 <-> Forall (fun x => x = 0) f)
  /\ (Scorer.norm_of f = 0 -> Scorer.vectorize c text = f)
  /\ (Scorer.norm_of f <> 0 ->
      Scorer.vectorize c text = map (fun x => x / Scorer.norm_of f) f
      /\ Scorer.norm_of (Scorer.vectorize c text) = 1).
Proof.
  intros f. split; [apply norm_of_zero|].
  unfold Scorer.vectorize. fold f.
  pose proof (norm_of_nonneg f) as Hpos.
  destruct (Rlt_dec 0 (Scorer.norm_of f)) as [Hlt|Hnlt]; split.
  - lra.
  - intros Hne. split; [reflexivity|]. apply norm_of_scaled, Hne.
  - reflexivity.
  - lra.
Qed.

(** Both branches of the normalization occur. *)
Example vectorize_no_token :
  Scorer.vectorize Sample.balanced "Funny Cat Compilation" = [0; 0].
Proof.
  assert (Scorer.features_of Sample.balanced "Funny Cat Compilation" = [0; 0])
    as Hf.
  { apply list_eq. intros j. rewrite lookup_features_of.
    destruct j as [|[|j]]; vm_compute; reflexivity. }
  unfold Scorer.vectorize. rewrite Hf.
  assert (Scorer.norm_of [0; 0] = 0) as ->
    by (apply norm_of_zero; repeat constructor).
  destruct (Rlt_dec 0 0) as [H|_]; [lra | reflexivity].
Qed.

Lemma features_of_one_token :
  Scorer.features_of Sample.balanced "Python for Beginners" = [1.5; 0].
Proof.
  assert (Scorer.idf_or_1 Sample.balanced 0 = 1.5) as Hidf.
  { unfold Scorer.idf_or_1. simpl. destruct (Req_dec_T 1.5 0); [lra|reflexivity]. }
  apply list_eq. intros j. rewrite lookup_features_of.
  destruct j as [|[|j]].
  - assert (Spec.hit Sample.balanced
              (Scorer.ngrams_of Sample.balanced
                 (Scorer.preprocessText "Python for Beginners")) 0 = true)
      as -> by (vm_compute; reflexivity).
    rewrite Hidf. reflexivity.
  - vm_compute. reflexivity.
  - vm_compute. reflexivity.
Qed.

Example vectorize_one_token :
  Scorer.vectorize Sample.balanced "Python for Beginners" = [1; 0].
Proof.
  assert (Scorer.norm_of [1.5; 0] = 1.5) as Hn.
  { rewrite norm_of_sumsq. simpl.
    replace (1.5 * 1.5 + (0 * 0 + 0)) with (1.5 * 1.5) by lra.
    apply sqrt_square. lra. }
  unfold Scorer.vectorize. rewrite features_of_one_token, Hn.
  destruct (Rlt_dec 0 1.5) as [_|H]; [|lra].
  simpl. f_equal; [|f_equal]; field; lra.
Qed.

Example vectorize_one_token_norm :
  Scorer.norm_of (Scorer.vectorize Sample.balanced "Python for Beginners") = 1.
Proof.
  refine (proj2 (proj2 (proj2 (vectorize_unit_norm_exact Sample.balanced
                                 "Python for Beginners")) _)).
  rewrite features_of_one_token. intros H%norm_of_zero.
  inversion H as [|x l Hx Hl]. lra.
Qed.

Close Scope R_scope.

(** *** Normalization in binary64 *)

Section Rounded.

Import PrimFloat.



(** Zero divided by zero is NaN, which is not zero: a division of the zero
    vector by its norm would not return it. *)
Example zero_by_zero : (0 / 0)%float <> 0%float /\ is_nan (0 / 0)%float = true.
Proof.
  split; [|reflexivity]. intros H.
  apply (f_equal is_nan) in H. vm_compute in H. discriminate H.
Qed.

(** Both branches of the normalization occur. *)
Example vectorize_no_token_binary64 :
  Binary64.vectorize Sample64.weights_1_2 "Funny Cat Compilation"
  = [0%float; 0%float].
Proof. vm_compute. reflexivity. Qed.

Example vectorize_two_tokens_binary64 :
  Binary64.features_of Sample64.weights_1_2 "Python Tutorial"
  = [1%float; 2%float]
  /\ Binary64.norm_of [1%float; 2%float] = 0x1.1e3779b97f4a8p+1%float
  /\ Binary64.vectorize Sample64.weights_1_2 "Python Tutorial"
     = [0x1.c9f25c5bfedd9p-2%float; 0x1.c9f25c5bfedd9p-1%float].
Proof. vm_compute. repeat split. Qed.

Open Scope R_scope.


Close Scope R_scope.


End Rounded.

Open Scope R_scope.

(** ** Scoring *)

Lemma length_vectorize (c : Scorer.VideoClassifier) (text : string) :
  length (Scorer.vectorize c text) = Scorer.maxFeatures c.
Proof.
  unfold Scorer.vectorize. destruct (Rlt_dec _ _); rewrite ?length_map;
    apply length_features_of.
Qed.

(** Once the score is [NaN] it stays [NaN]. *)
Lemma lr_loop_NaN (cs features : list R) (i : nat) :
  Scorer.lr_loop (Some cs) features i Scorer.NaN = Some Scorer.NaN.
Proof.
  revert i. induction features as [|x rest IH]; intros i; simpl; auto.
Qed.

(** A feature vector longer than the weight vector drives the score to
    [NaN]: the first index past the weights reads [undefined]. *)
Lemma lr_loop_short (cs features : list R) (i : nat) (score : Scorer.num) :
  (i <= length cs < i + length features)%nat ->
  Scorer.lr_loop (Some cs) features i score = Some Scorer.NaN.
Proof.
  revert i score. induction features as [|x rest IH]; intros i score; simpl.
  - lia.
  - intros H. destruct (cs !! i) as [w|] eqn:Hw.
    + apply IH. apply lookup_lt_Some in Hw. lia.
    + simpl. destruct score; apply lr_loop_NaN.
Qed.

Lemma lr_loop_long (cs features : list R) (i : nat) (a : R) :
  (i + length features <= length cs)%nat ->
  exists s, Scorer.lr_loop (Some cs) features i (Scorer.Fin a)
            = Some (Scorer.Fin s).
Proof.
  revert i a. induction features as [|x rest IH]; intros i a; simpl.
  - eauto.
  - intros H. destruct (lookup_lt_is_Some_2 cs i) as [w ->]; [lia|].
    simpl. apply IH. lia.
Qed.

Lemma nb_loop_covered (ps features : list R) (i : nat) (a : R) :
  (forall k x, features !! k = Some x -> 0 < x -> (i + k < length ps)%nat) ->
  exists s, Scorer.nb_loop (Some ps) features i (Scorer.Fin a)
            = Some (Scorer.Fin s).
Proof.
  revert i a. induction features as [|x rest IH]; intros i a H; simpl.
  - eauto.
  - assert (forall k y, rest !! k = Some y -> 0 < y -> (S i + k < length ps)%nat)
      as Hrest.
    { intros k y Hk Hy. specialize (H (S k) y Hk Hy). lia. }
    destruct (Rlt_dec 0 x) as [Hx|_]; [|apply IH, Hrest].
    destruct (lookup_lt_is_Some_2 ps i) as [w ->].
    { specialize (H 0%nat x eq_refl Hx). lia. }
    simpl. apply IH, Hrest.
Qed.

Lemma sigmoid_bounds (s : R) : 0 < 1 / (1 + exp (- s)) < 1.
Proof.
  pose proof (exp_pos (- s)) as He.
  split.
  - apply Rdiv_lt_0_compat; lra.
  - apply (Rmult_lt_reg_r (1 + exp (- s))); [lra|].
    unfold Rdiv. rewrite Rmult_assoc, Rinv_l by lra. lra.
Qed.

(** The object literal built from a probability in [0, 1]. *)
Lemma verdict_in_unit (p : R) :
  0 <= p <= 1 ->
  let v := Scorer.verdict (Scorer.Fin p) in
  (Scorer.prediction v = 1%Z /\ 0.5 < p \/ Scorer.prediction v = 0%Z /\ p <= 0.5)
  /\ Scorer.probability v = Scorer.Fin p
  /\ Scorer.confidence v = Scorer.Fin (Rabs (p - 0.5) * 2)
  /\ Spec.in_unit (Scorer.probability v)
  /\ Spec.in_unit (Scorer.confidence v).
Proof.
  intros Hp. simpl. repeat split; try lra.
  - destruct (Rlt_dec 0.5 p); [left | right]; split; auto; lra.
  - pose proof (Rabs_pos (p - 0.5)). lra.
  - unfold Rabs. destruct (Rcase_abs _); lra.
Qed.

(** A feature of the normalized vector is positive only at the index of a
    vocabulary entry. *)
Lemma vectorize_positive (c : Scorer.VideoClassifier) (text : string)
    (k : nat) (x : R) :
  Scorer.vectorize c text !! k = Some x -> x <> 0 ->
  exists g, Scorer.vocabulary c !! g = Some k.
Proof.
  intros Hk Hx.
  assert (exists y, Scorer.features_of c text !! k = Some y /\ y <> 0)
    as (y & Hy & Hy0).
  { unfold Scorer.vectorize in Hk. destruct (Rlt_dec _ _); [|eauto].
    change (map ?f ?l) with (f <$> l) in Hk.
    rewrite list_lookup_fmap in Hk.
    destruct (Scorer.features_of c text !! k) as [y|]; [|discriminate].
    exists y. split; [reflexivity|]. intros ->. simpl in Hk.
    injection Hk as <-. apply Hx. unfold Rdiv. apply Rmult_0_l. }
  rewrite lookup_features_of in Hy.
  destruct (_ <? _)%nat; [|discriminate].
  destruct (Spec.hit _ _ _) eqn:Hhit; [|congruence].
  apply hit_true in Hhit as (g & _ & Hg). eauto.
Qed.

(** The logistic-regression branch with at least [max_features] weights
    returns a probability and a confidence in [0, 1]. *)
Lemma predict_logistic_regression_long (c : Scorer.VideoClassifier)
    (title description : string) (cs : list R) (b : R) :
  Scorer.modelType c = "logistic_regression" ->
  Scorer.coefficients c = Some cs ->
  Scorer.intercept c = Some b ->
  (Scorer.maxFeatures c <= length cs)%nat ->
  exists p, Scorer.predict c title description
            = Scorer.Return (Scorer.verdict (Scorer.Fin p)) /\ 0 < p < 1.
Proof.
  intros Ht Hc Hb Hlen. unfold Scorer.predict. rewrite Ht, Hc, Hb. simpl.
  destruct (lr_loop_long cs
              (Scorer.vectorize c (title +:+ " " +:+ description)) 0 b)
    as [s ->].
  { rewrite length_vectorize. lia. }
  eexists. split; [reflexivity|]. apply sigmoid_bounds.
Qed.

(** The naive-Bayes branch reads a log-probability only at the index of a
    vocabulary entry; when every such index has one, the probability and
    the confidence are in [0, 1]. *)
Lemma predict_naive_bayes_covered (c : Scorer.VideoClassifier)
    (title description : string) (ps : list R) (b : R) :
  Scorer.modelType c = "naive_bayes" ->
  Scorer.featureLogProb c = Some ps ->
  Scorer.classLogPrior c = Some b ->
  (forall g i, Scorer.vocabulary c !! g = Some i -> (i < length ps)%nat) ->
  exists p, Scorer.predict c title description
            = Scorer.Return (Scorer.verdict (Scorer.Fin p)) /\ 0 < p < 1.
Proof.
  intros Ht Hp Hb Hcov. unfold Scorer.predict. rewrite Ht, Hp, Hb. simpl.
  destruct (nb_loop_covered ps
              (Scorer.vectorize c (title +:+ " " +:+ description)) 0 b)
    as [s ->].
  { intros k x Hk Hx.
    destruct (vectorize_positive c _ k x Hk) as [g Hg]; [lra|].
    simpl. eapply Hcov, Hg. }
  eexists. split; [reflexivity|]. apply sigmoid_bounds.
Qed.

(** The logistic-regression branch with fewer than [max_features] weights
    returns [NaN] for the probability and the confidence, and 0 for the
    prediction, whatever the text. *)
Lemma predict_logistic_regression_short (c : Scorer.VideoClassifier)
    (title description : string) (cs : list R) :
  Scorer.modelType c = "logistic_regression" ->
  Scorer.coefficients c = Some cs ->
  (length cs < Scorer.maxFeatures c)%nat ->
  Scorer.predict c title description
  = Scorer.Return {| Scorer.prediction := 0;
                     Scorer.probability := Scorer.NaN;
                     Scorer.confidence := Scorer.NaN |}.
Proof.
  intros Ht Hc Hlen. unfold Scorer.predict. rewrite Ht, Hc. simpl.
  rewrite lr_loop_short by (rewrite length_vectorize; simpl; lia).
  reflexivity.
Qed.

(** C5, at an artifact of the exported form for a vectorizer with two
    vocabulary entries and the trainer's [max_features = 5000]: it holds one
    coefficient per vocabulary entry, as [export_to_json] takes them from
    [coef_[0]]. The scorer's loop runs over 5000 features and reads
    [undefined] from index 2 on, so the probability and the confidence are
    [NaN], not numbers in [0, 1]. *)
Theorem predict_exported_lr_is_NaN :
  Scorer.predict (Scorer.constructor Sample.exported_lr)
    "Python Tutorial for Beginners" ""
  = Scorer.Return {| Scorer.prediction := 0;
                     Scorer.probability := Scorer.NaN;
                     Scorer.confidence := Scorer.NaN |}
  /\ ~ Spec.in_unit Scorer.NaN.
Proof.
  split; [|intros []].
  apply (predict_logistic_regression_short _ _ _ [0.75; 0.25]);
    [reflexivity | reflexivity | simpl; lia].
Qed.

Close Scope R_scope.

(** ** The exporter *)

(** C6. When the persisted pair holds a model with neither [coef_] nor
    [feature_log_prob_], [export_to_json] prints "Model type not supported
    for JSON export" (after the loading line, before the advice line),
    returns normally, and leaves every file as it was; in particular the
    output file is not written. *)
Theorem export_unsupported_model (model_type output_file : string)
    (w : Exporter.World) (model : Sklearn.Model)
    (vectorizer : Sklearn.Vectorizer) :
  Exporter.files w !! Exporter.model_path model_type
  = Some (Exporter.Pickle model vectorizer) ->
  Sklearn.coef_ model = None ->
  Sklearn.feature_log_prob_ model = None ->
  Exporter.export_to_json model_type output_file w
  = (inr tt,
     {| Exporter.files := Exporter.files w;
        Exporter.directories := Exporter.directories w;
        Exporter.console :=
          Exporter.console w ++
          [Exporter.Say ("Loading model from "
                         +:+ Exporter.model_path model_type +:+ "...");
           Exporter.Say "Model type not supported for JSON export";
           Exporter.Say
             "Consider using TensorFlow.js or ONNX.js for complex models"] |}).
Proof.
  intros Hfile Hcoef Hflp.
  step_export Hfile. rewrite Hcoef, Hflp. simpl.
  rewrite <- !app_assoc. reflexivity.
Qed.

Lemma export_unsupported_model_witness :
  Exporter.export_to_json "random_forest" "models/model_for_extension.json"
    Sample.trained
  = (inr tt,
     {| Exporter.files := Exporter.files Sample.trained;
        Exporter.directories := Exporter.directories Sample.trained;
        Exporter.console :=
          [Exporter.Say "Loading model from models/random_forest_model.pkl...";
           Exporter.Say "Model type not supported for JSON export";
           Exporter.Say
             "Consider using TensorFlow.js or ONNX.js for complex models"] |}).
Proof.
  apply (export_unsupported_model "random_forest"
           "models/model_for_extension.json" Sample.trained
           Sample.random_forest Sample.vectorizer); reflexivity.
Defined.

(** The whole run with [--model random_forest]: the only file written is
    the loader script; no JSON artifact appears. *)
Example main_random_forest :
  let run := Exporter.main (Some "random_forest") Sample.trained in
  fst run = inr tt
  /\ Exporter.files (snd run)
     = <["models/model_loader.js" := Exporter.ModelLoaderJs]>
         (Exporter.files Sample.trained)
  /\ Exporter.files (snd run) !! "models/model_for_extension.json" = None.
Proof. repeat split. Qed.

(** The whole run with the default model on the pair that the trainer
    wrote: the dump raises, the beginning of the artifact stays behind, and
    the loader script is not written. *)
Example main_trained :
  let run := Exporter.main None Sample.trained in
  fst run = inl TypeError
  /\ Exporter.files (snd run) !! "models/model_for_extension.json"
     = Some (Exporter.Truncated Sample.exported_lr)
  /\ Exporter.files (snd run) !! "models/model_loader.js" = None.
Proof. repeat split. Qed.

Lemma open_w_writable (w : Exporter.World) (path : string) :
  Spec.writable w path -> Exporter.open_w path w = (inr tt, w).
Proof.
  intros (Hne & Hdir & Hfiles & Hparent). unfold Exporter.open_w.
  rewrite (proj2 (String.eqb_neq _ _) Hne).
  rewrite bool_decide_eq_false_2 by exact Hdir.
  assert (existsb (fun d => bool_decide (is_Some (Exporter.files w !! d)))
                  (Exporter.ancestors path) = false) as ->.
  { induction Hfiles as [|d l Hd Hl IH]; [reflexivity|].
    cbn [existsb]. rewrite Hd, IH.
    rewrite bool_decide_eq_false_2 by (intros [? ?]; discriminate).
    reflexivity. }
  destruct Hparent as [->|Hin]; [reflexivity|].
  rewrite (bool_decide_eq_true_2 _ Hin), orb_true_r. reflexivity.
Qed.

Lemma writable_print (w : Exporter.World) (l : Exporter.Line) (path : string) :
  Spec.writable w path -> Spec.writable (snd (Exporter.print l w)) path.
Proof. intros H. exact H. Qed.

Lemma encodable_spec (e : Json.ExportData) (v : Sklearn.Vectorizer) :
  Json.vocabulary e = Sklearn.vocabulary_ v ->
  Exporter.encodable {| Exporter.object := e;
                        Exporter.numpy_values := Sklearn.numpy_indices v |}
  = true <-> Spec.json_encodable v.
Proof.
  intros Hv. unfold Exporter.encodable, Spec.json_encodable. simpl.
  rewrite Hv, orb_true_iff, negb_true_iff, bool_decide_eq_true. reflexivity.
Qed.

(** What the dump leaves, on a path that can be opened. *)
Lemma json_dump_writable (d : Exporter.Dict) (output_file : string)
    (w : Exporter.World) :
  Spec.writable w output_file ->
  Exporter.json_dump d output_file w
  = if Exporter.encodable d
    then (inr tt,
          {| Exporter.files :=
               <[output_file := Exporter.JsonFile (Exporter.object d)]>
                 (Exporter.files w);
             Exporter.directories := Exporter.directories w;
             Exporter.console := Exporter.console w |})
    else (inl TypeError,
          {| Exporter.files :=
               <[output_file := Exporter.Truncated (Exporter.object d)]>
                 (Exporter.files w);
             Exporter.directories := Exporter.directories w;
             Exporter.console := Exporter.console w |}).
Proof.
  intros Hw. unfold Exporter.json_dump, Exporter.seq.
  rewrite (open_w_writable _ _ Hw).
  destruct (Exporter.encodable d); reflexivity.
Qed.

(** The statements after the dictionary is built. *)
Lemma save_writable (d : Exporter.Dict) (output_file : string)
    (w : Exporter.World) :
  Spec.writable w output_file ->
  let run := Exporter.save d output_file w in
  if Exporter.encodable d
  then fst run = inr tt
       /\ Exporter.files (snd run)
          = <[output_file := Exporter.JsonFile (Exporter.object d)]>
              (Exporter.files w)
  else fst run = inl TypeError
       /\ Exporter.files (snd run)
          = <[output_file := Exporter.Truncated (Exporter.object d)]>
              (Exporter.files w).
Proof.
  intros Hw. unfold Exporter.save, Exporter.seq.
  rewrite (json_dump_writable _ _ _ Hw).
  destruct (Exporter.encodable d); split; reflexivity.
Qed.

(** The outcome of an export whose dictionary [e] was built from the
    vectorizer [v]: the complete artifact and a normal return when [json]
    can encode the vocabulary, [TypeError] and the beginning of the
    artifact when it cannot. *)
Lemma save_outcome (e : Json.ExportData) (v : Sklearn.Vectorizer)
    (output_file : string) (w : Exporter.World) :
  Json.vocabulary e = Sklearn.vocabulary_ v ->
  Spec.writable w output_file ->
  let run :=
    Exporter.save {| Exporter.object := e;
                     Exporter.numpy_values := Sklearn.numpy_indices v |}
      output_file w in
  (Spec.json_encodable v ->
   fst run = inr tt
   /\ Exporter.files (snd run)
      = <[output_file := Exporter.JsonFile e]> (Exporter.files w))
  /\ (~ Spec.json_encodable v ->
      fst run = inl TypeError
      /\ Exporter.files (snd run)
         = <[output_file := Exporter.Truncated e]> (Exporter.files w)).
Proof.
  intros Hv Hw run.
  pose proof (save_writable
                {| Exporter.object := e;
                   Exporter.numpy_values := Sklearn.numpy_indices v |}
                output_file w Hw) as H.
  pose proof (encodable_spec e v Hv) as Hspec.
  fold run in H.
  destruct (Exporter.encodable _); split; intros Henc.
  - exact H.
  - exfalso. apply Henc, Hspec. reflexivity.
  - apply Hspec in Henc. discriminate Henc.
  - exact H.
Qed.

Lemma export_logistic_regression (model_type output_file : string)
    (w : Exporter.World) (model : Sklearn.Model)
    (vectorizer : Sklearn.Vectorizer) (coef : list R) (rows : list (list R)) :
  Exporter.files w !! Exporter.model_path model_type
  = Some (Exporter.Pickle model vectorizer) ->
  Sklearn.coef_ model = Some (coef :: rows) ->
  Sklearn.intercept_ model <> Some [] ->
  Exporter.export_to_json model_type output_file w
  = Exporter.save
      {| Exporter.object :=
           {| Json.type := "logistic_regression";
              Json.coefficients := Some coef;
              Json.intercept :=
                Some match Sklearn.intercept_ model with
                     | Some (b :: _) => b
                     | _ => 0%R
                     end;
              Json.feature_log_prob := None;
              Json.class_log_prior := None;
              Json.vocabulary := Sklearn.vocabulary_ vectorizer;
              Json.idf := Sklearn.idf_ vectorizer;
              Json.max_features := Sklearn.max_features vectorizer;
              Json.ngram_range := Sklearn.ngram_range vectorizer |};
         Exporter.numpy_values := Sklearn.numpy_indices vectorizer |}
      output_file
      (snd (Exporter.print
              (Exporter.Say ("Loading model from "
                             +:+ Exporter.model_path model_type +:+ "..."))
              w)).
Proof.
  intros Hfile Hcoef Hint.
  step_export Hfile. rewrite Hcoef. simpl.
  destruct (Sklearn.intercept_ model) as [[|b bs]|]; [congruence| |];
    reflexivity.
Qed.

Lemma export_naive_bayes (model_type output_file : string)
    (w : Exporter.World) (model : Sklearn.Model)
    (vectorizer : Sklearn.Vectorizer) (r0 r1 : list R) (rows : list (list R))
    (p0 p1 : R) (ps : list R) :
  Exporter.files w !! Exporter.model_path model_type
  = Some (Exporter.Pickle model vectorizer) ->
  Sklearn.coef_ model = None ->
  Sklearn.feature_log_prob_ model = Some (r0 :: r1 :: rows) ->
  Sklearn.class_log_prior_ model = Some (p0 :: p1 :: ps) ->
  Exporter.export_to_json model_type output_file w
  = Exporter.save
      {| Exporter.object :=
           {| Json.type := "naive_bayes";
              Json.coefficients := None;
              Json.intercept := None;
              Json.feature_log_prob := Some r1;
              Json.class_log_prior := Some p1;
              Json.vocabulary := Sklearn.vocabulary_ vectorizer;
              Json.idf := Sklearn.idf_ vectorizer;
              Json.max_features := Sklearn.max_features vectorizer;
              Json.ngram_range := Sklearn.ngram_range vectorizer |};
         Exporter.numpy_values := Sklearn.numpy_indices vectorizer |}
      output_file
      (snd (Exporter.print
              (Exporter.Say ("Loading model from "
                             +:+ Exporter.model_path model_type +:+ "..."))
              w)).
Proof.
  intros Hfile Hcoef Hflp Hprior.
  step_export Hfile. rewrite Hcoef, Hflp, Hprior. reflexivity.
Qed.

(** The dump and its report read the files and the directories, not the
    console. *)
Lemma save_by_files (d : Exporter.Dict) (output_file : string)
    (w1 w2 : Exporter.World) :
  Exporter.files w1 = Exporter.files w2 ->
  Exporter.directories w1 = Exporter.directories w2 ->
  fst (Exporter.save d output_file w1) = fst (Exporter.save d output_file w2)
  /\ Exporter.files (snd (Exporter.save d output_file w1))
     = Exporter.files (snd (Exporter.save d output_file w2)).
Proof.
  intros Hf Hd.
  unfold Exporter.save, Exporter.seq, Exporter.json_dump, Exporter.seq,
    Exporter.open_w, Exporter.write, Exporter.throw, Exporter.print.
  rewrite Hd, Hf.
  destruct (String.eqb output_file ""); [auto|].
  destruct (bool_decide (output_file ∈ Exporter.directories w2)); [auto|].
  destruct (existsb _ (Exporter.ancestors output_file)); [auto|].
  destruct (String.eqb (Exporter.dirname output_file) ""
            || bool_decide (Exporter.dirname output_file
                            ∈ Exporter.directories w2)); [|auto].
  destruct (Exporter.encodable d); cbn [fst snd Exporter.files];
    rewrite ?Hf; auto.
Qed.

(** What [export_to_json] does depends on the name only through what is
    found under it. *)
Lemma export_files_by_content (name1 name2 output_file : string)
    (w : Exporter.World) :
  Exporter.files w !! Exporter.model_path name1
  = Exporter.files w !! Exporter.model_path name2 ->
  is_Some (Exporter.files w !! Exporter.model_path name1) ->
  fst (Exporter.export_to_json name1 output_file w)
  = fst (Exporter.export_to_json name2 output_file w)
  /\ Exporter.files (snd (Exporter.export_to_json name1 output_file w))
     = Exporter.files (snd (Exporter.export_to_json name2 output_file w)).
Proof.
  intros H [file H1]. rewrite H1 in H. symmetry in H.
  unfold Exporter.export_to_json, Exporter.seq, Exporter.path_exists,
    Exporter.joblib_load, Exporter.print, Exporter.lift.
  cbn [fst snd Exporter.files Exporter.directories Exporter.console].
  rewrite H1, H.
  rewrite !(bool_decide_eq_true_2 (is_Some (Some file))) by eauto.
  cbn [orb negb fst snd Exporter.files Exporter.directories Exporter.console].
  rewrite ?H1, ?H.
  destruct file as [m v| | | |]; try (split; reflexivity).
  cbn [fst snd].
  destruct (Sklearn.coef_ m) as [[|coef rows]|];
    cbn [Exporter.item lookup list_lookup ret raise].
  - split; reflexivity.
  - destruct (Sklearn.intercept_ m) as [[|b bs]|];
      cbn [Exporter.item lookup list_lookup ret raise];
      try (split; reflexivity); apply save_by_files; reflexivity.
  - destruct (Sklearn.feature_log_prob_ m) as [[|r0 [|r1 rows]]|];
      cbn [Exporter.item lookup list_lookup ret raise];
      try (split; reflexivity).
    destruct (Sklearn.class_log_prior_ m) as [[|p0 [|p1 ps]]|];
      cbn [Exporter.getattr Exporter.item lookup list_lookup ret raise];
      try (split; reflexivity).
    apply save_by_files; reflexivity.
Qed.

(** C10. Whatever name selected the file, the [type] of the exported
    object comes from the attributes of the model found under it. A model
    that carries a coefficient vector is exported with type
    "logistic_regression", one without [coef_] that carries per-feature
    log-probabilities with type "naive_bayes": the complete artifact and a
    normal return when [json] can encode the vocabulary, [TypeError] and the
    beginning of the same artifact when it cannot. Two names under which the
    same pair is stored give the same result and leave the same files. *)
Theorem export_type_from_attributes (model_type output_file : string)
    (w : Exporter.World) (model : Sklearn.Model)
    (vectorizer : Sklearn.Vectorizer) :
  Exporter.files w !! Exporter.model_path model_type
  = Some (Exporter.Pickle model vectorizer) ->
  Spec.writable w output_file ->
  let run := Exporter.export_to_json model_type output_file w in
  let exported (type : string) :=
    exists e,
      Json.type e = type
      /\ (Spec.json_encodable vectorizer ->
          fst run = inr tt
          /\ Exporter.files (snd run) !! output_file
             = Some (Exporter.JsonFile e))
      /\ (~ Spec.json_encodable vectorizer ->
          fst run = inl TypeError
          /\ Exporter.files (snd run) !! output_file
             = Some (Exporter.Truncated e)) in
  (Spec.carries_coefficients model -> exported "logistic_regression")
  /\ (Sklearn.coef_ model = None -> Spec.carries_log_probabilities model ->
      exported "naive_bayes")
  /\ (forall other,
         Exporter.files w !! Exporter.model_path other
         = Some (Exporter.Pickle model vectorizer) ->
         fst (Exporter.export_to_json other output_file w) = fst run
         /\ Exporter.files (snd (Exporter.export_to_json other output_file w))
            = Exporter.files (snd run)).
Proof.
  intros Hfile Hw run exported. repeat split.
  - intros [(coef & rows & Hcoef) Hint]. subst exported run. cbv beta.
    rewrite (export_logistic_regression _ output_file _ _ _ _ _
               Hfile Hcoef Hint).
    match goal with
    | |- context [Exporter.save {| Exporter.object := ?e;
                                   Exporter.numpy_values := _ |} _ ?w'] =>
        exists e; split; [reflexivity|];
        destruct (save_outcome e vectorizer output_file w' eq_refl Hw)
          as [Hok Hfail]
    end.
    split; intros Henc; [destruct (Hok Henc) as [-> ->]
                        | destruct (Hfail Henc) as [-> ->]];
      rewrite lookup_insert_eq; split; reflexivity.
  - intros Hn [(r0 & r1 & rows & Hflp) (p0 & p1 & ps & Hprior)].
    subst exported run. cbv beta.
    rewrite (export_naive_bayes _ output_file _ _ _ _ _ _ _ _ _
               Hfile Hn Hflp Hprior).
    match goal with
    | |- context [Exporter.save {| Exporter.object := ?e;
                                   Exporter.numpy_values := _ |} _ ?w'] =>
        exists e; split; [reflexivity|];
        destruct (save_outcome e vectorizer output_file w' eq_refl Hw)
          as [Hok Hfail]
    end.
    split; intros Henc; [destruct (Hok Henc) as [-> ->]
                        | destruct (Hfail Henc) as [-> ->]];
      rewrite lookup_insert_eq; split; reflexivity.
  - apply export_files_by_content; [congruence | rewrite H; eauto].
  - apply export_files_by_content; [congruence | rewrite H; eauto].
Qed.

Lemma export_type_from_attributes_witness :
  exists e,
    Json.type e = "logistic_regression"
    /\ (Spec.json_encodable Sample.vectorizer ->
        fst (Exporter.export_to_json "naive_bayes" "out.json" Sample.renamed)
        = inr tt
        /\ Exporter.files
             (snd (Exporter.export_to_json "naive_bayes" "out.json"
                     Sample.renamed)) !! "out.json"
           = Some (Exporter.JsonFile e))
    /\ (~ Spec.json_encodable Sample.vectorizer ->
        fst (Exporter.export_to_json "naive_bayes" "out.json" Sample.renamed)
        = inl TypeError
        /\ Exporter.files
             (snd (Exporter.export_to_json "naive_bayes" "out.json"
                     Sample.renamed)) !! "out.json"
           = Some (Exporter.Truncated e)).
Proof.
  refine (proj1 (export_type_from_attributes "naive_bayes" "out.json"
                   Sample.renamed Sample.logistic_regression
                   Sample.vectorizer _ _) _).
  - reflexivity.
  - split; [discriminate|]. split; [|split; [constructor | left; reflexivity]].
    intros H. cbn [Sample.renamed Exporter.directories] in H.
    apply elem_of_singleton in H. discriminate H.
  - split; [eexists _, _; reflexivity | discriminate].
Defined.

(** ** The trainer *)

Lemma map_result_Forall {A B} (P : A -> Prop) (Q : B -> Prop)
    (f : A -> result B) (l : list A) :
  Forall P l ->
  (forall a, P a -> exists b, f a = inr b /\ Q b) ->
  exists bs, map_result f l = inr bs /\ Forall Q bs.
Proof.
  induction 1 as [|a l Ha Hl IH]; intros Hf; simpl.
  - exists []. split; [reflexivity | constructor].
  - destruct (Hf a Ha) as (b & -> & Hb). destruct (IH Hf) as (bs & -> & Hbs).
    simpl. exists (b :: bs). split; [reflexivity | constructor; assumption].
Qed.

Lemma fillna_textual (cells : list Trainer.Cell) :
  Spec.textual cells -> Forall Spec.is_str (Trainer.fillna cells).
Proof.
  induction 1 as [|c l Hc Hl IH]; simpl; constructor; [|exact IH].
  destruct c; simpl; auto.
Qed.

(** Without a [description] column [extract_features] always raises. *)
Lemma extract_features_needs_description (df : Trainer.DataFrame) :
  df !! "description" = None ->
  exists e, Trainer.extract_features df = inl e.
Proof.
  intros H. unfold Trainer.extract_features, Trainer.getitem.
  destruct (df !! "title") as [title|]; simpl; [|eauto].
  destruct (map_result _ _); simpl; [eauto|].
  rewrite H. simpl. eauto.
Qed.

(** C7, on every CSV that has the columns [title] and [label], a [title]
    column of strings and missing values, and no [description] column:
    [main] gets past its check of the required columns, and
    [extract_features] then raises [KeyError: 'description']. *)
Theorem main_without_description_raises (df : Trainer.DataFrame)
    (title : list Trainer.Cell) :
  df !! "title" = Some title ->
  is_Some (df !! "label") ->
  Spec.textual title ->
  df !! "description" = None ->
  Trainer.main (Some df) = Trainer.Raises (KeyError "description").
Proof.
  intros Ht Hl Htext Hd. unfold Trainer.main, Trainer.required_cols.
  cbn [forallb]. rewrite Ht.
  rewrite !bool_decide_eq_true_2 by (assumption || eauto).
  cbn [andb negb].
  unfold Trainer.extract_features, Trainer.getitem. rewrite Ht.
  cbn [bind ret raise].
  destruct (map_result_Forall Spec.is_str Spec.is_str
              (fun c => Trainer.add_str c " ") _ (fillna_textual _ Htext))
    as (title_sp & -> & _).
  { intros [|s|] Hs; try contradiction. simpl. eexists. split; [reflexivity|].
    exact I. }
  cbn [bind ret raise]. rewrite Hd. reflexivity.
Qed.

Lemma main_without_description_raises_witness :
  Trainer.main (Some Sample.title_label)
  = Trainer.Raises (KeyError "description").
Proof.
  apply (main_without_description_raises Sample.title_label
           [Trainer.Str "Python Tutorial for Beginners";
            Trainer.Str "Funny Cat Compilation"]).
  - reflexivity.
  - eexists. reflexivity.
  - repeat constructor.
  - reflexivity.
Defined.

Lemma add_series_str (left right : list Trainer.Cell) :
  Forall Spec.is_str left -> Forall Spec.is_str right ->
  exists cs, Trainer.add_series left right = inr cs /\ Forall Spec.is_str cs.
Proof.
  intros Hl. revert right.
  induction Hl as [|l ls Hl Hls IH]; intros right Hr; simpl.
  - exists []. split; [reflexivity | constructor].
  - destruct Hr as [|r rs Hr Hrs].
    + exists []. split; [reflexivity | constructor].
    + destruct l as [|s|]; try contradiction.
      destruct r as [|t|]; try contradiction. simpl.
      destruct (IH rs Hrs) as (cs & -> & Hcs). simpl.
      eexists. split; [reflexivity|]. constructor; [exact I | exact Hcs].
Qed.

(** With both text columns present and holding only strings and missing
    values, [extract_features] returns a frame. *)
Lemma extract_features_textual (df : Trainer.DataFrame)
    (title description : list Trainer.Cell) :
  df !! "title" = Some title ->
  df !! "description" = Some description ->
  Spec.textual title -> Spec.textual description ->
  exists df', Trainer.extract_features df = inr df'.
Proof.
  intros Ht Hd Htt%fillna_textual Htd%fillna_textual.
  unfold Trainer.extract_features, Trainer.getitem. rewrite Ht. cbn [bind ret raise].
  destruct (map_result_Forall Spec.is_str Spec.is_str
              (fun c => Trainer.add_str c " ") _ Htt) as (title_sp & -> & Hsp).
  { intros [|s|] Hs; try contradiction. simpl. eexists. split; [reflexivity|].
    exact I. }
  cbn [bind ret raise]. rewrite Hd. cbn [bind ret raise].
  destruct (add_series_str _ _ Hsp Htd) as (combined & -> & Hc). cbn [bind ret raise].
  rewrite lookup_insert_eq. cbn [bind ret raise].
  rewrite !lookup_insert_ne, Ht by discriminate. cbn [bind ret raise].
  destruct (map_result_Forall Spec.is_str (fun _ => True) Trainer.len _ Htt)
    as (title_length & -> & _).
  { intros [|s|] Hs; try contradiction. simpl. eauto. }
  cbn [bind ret raise]. rewrite !lookup_insert_ne, Hd by discriminate. cbn [bind ret raise].
  destruct (map_result_Forall Spec.is_str (fun _ => True) Trainer.len _ Htd)
    as (desc_length & -> & _).
  { intros [|s|] Hs; try contradiction. simpl. eauto. }
  cbn [bind ret raise]. rewrite !lookup_insert_ne, lookup_insert_eq by discriminate. cbn [bind ret raise].
  set (texts := map (fun text => Trainer.Str (Trainer.preprocess_text text))
                    combined).
  assert (Forall Spec.is_str texts) as Htexts.
  { subst texts. clear. induction combined as [|c l IH]; constructor;
      [exact I | exact IH]. }
  destruct (map_result_Forall Spec.is_str (fun _ => True)
              (fun c => match c with
                        | Trainer.Str x =>
                            ret (Trainer.Num (Z.of_nat (length (Trainer.split x))))
                        | _ => raise TypeError
                        end) _ Htexts) as (word_count & Hwc & _).
  { intros [|s|] Hs; try contradiction. simpl. eauto. }
  rewrite Hwc. cbn [bind ret raise].
  rewrite !lookup_insert_ne, lookup_insert_eq by discriminate. cbn [bind ret raise].
  destruct (map_result_Forall Spec.is_str (fun _ => True)
              (Trainer.keyword_count Trainer.edu_keywords) _ Htexts)
    as (edu & -> & _).
  { intros [|s|] Hs; try contradiction. simpl. eauto. }
  cbn [bind ret raise]. rewrite !lookup_insert_ne, lookup_insert_eq by discriminate. cbn [bind ret raise].
  destruct (map_result_Forall Spec.is_str (fun _ => True)
              (Trainer.keyword_count Trainer.ent_keywords) _ Htexts)
    as (ent & -> & _).
  { intros [|s|] Hs; try contradiction. simpl. eauto. }
  cbn [bind ret raise]. eauto.
Qed.

(** ** The collector: video ids *)

Lemma read_id_shape (n : nat) (s g : string) :
  Collector.read_id n s = Some g ->
  String.length g = n /\ Spec.all_chars Collector.is_id_char g = true
  /\ exists after, s = g +:+ after.
Proof.
  revert s g. induction n as [|n IH]; intros s g; simpl.
  - intros [= <-]. repeat split. exists s. reflexivity.
  - destruct s as [|c r]; [discriminate|].
    destruct (Collector.is_id_char c) eqn:Hc; [|discriminate].
    destruct (Collector.read_id n r) as [g'|] eqn:Hr; [|discriminate].
    intros [= <-]. destruct (IH _ _ Hr) as (Hlen & Hall & after & ->).
    simpl. rewrite Hlen, Hc, Hall. repeat split. exists after. reflexivity.
Qed.

Lemma read_id_app (id after : string) :
  Spec.all_chars Collector.is_id_char id = true ->
  Collector.read_id (String.length id) (id +:+ after) = Some id.
Proof.
  induction id as [|c r IH]; simpl; [reflexivity|].
  intros [-> Hr]%andb_prop. rewrite (IH Hr). reflexivity.
Qed.

Lemma after_literal_app (lit s r : string) :
  Collector.after_literal lit s = Some r -> s = lit +:+ r.
Proof.
  revert s. induction lit as [|a lit IH]; intros s; simpl.
  - intros [= ->]. reflexivity.
  - destruct s as [|c s']; [discriminate|].
    destruct (Ascii.eqb_spec a c) as [->|]; [|discriminate].
    intros H. rewrite (IH _ H). reflexivity.
Qed.

Lemma after_literal_here (lit r : string) :
  Collector.after_literal lit (lit +:+ r) = Some r.
Proof.
  induction lit as [|a lit IH]; simpl; [reflexivity|].
  rewrite Ascii.eqb_refl. exact IH.
Qed.

Lemma match_here_shape (alternatives : list string) (s g : string) :
  Collector.match_here alternatives s = Some g ->
  exists lit r, lit ∈ alternatives /\ s = lit +:+ r
                /\ Collector.read_id 11 r = Some g.
Proof.
  induction alternatives as [|lit rest IH]; cbn [Collector.match_here];
    [discriminate|].
  assert (Collector.match_here rest s = Some g ->
          exists l r, l ∈ lit :: rest /\ s = l +:+ r
                      /\ Collector.read_id 11 r = Some g) as IH'.
  { intros (l & r' & Hin & H)%IH. exists l, r'.
    split; [apply elem_of_cons; auto | exact H]. }
  destruct (Collector.after_literal lit s) as [r|] eqn:Hlit; [|exact IH'].
  destruct (Collector.read_id 11 r) as [g'|] eqn:Hid; [|exact IH'].
  intros [= <-]. exists lit, r. split; [apply elem_of_cons; auto|].
  split; [apply after_literal_app, Hlit | exact Hid].
Qed.

(** A successful search found its match at some suffix of the text. *)
Lemma search_Some (alternatives : list string) (s g : string) :
  Collector.search alternatives s = Some g ->
  exists before t, s = before +:+ t
                   /\ Collector.match_here alternatives t = Some g.
Proof.
  induction s as [|c r IH]; simpl.
  - destruct (Collector.match_here alternatives "") as [g'|] eqn:H; [|discriminate].
    intros [= <-]. exists "", "". auto.
  - destruct (Collector.match_here alternatives (String c r)) as [g'|] eqn:H.
    + intros [= <-]. exists "", (String c r). auto.
    + intros (before & t & -> & Ht)%IH. exists (String c before), t. auto.
Qed.

(** A failed search means that no suffix of the text matches. *)
Lemma search_None (alternatives : list string) (before t : string) :
  Collector.search alternatives (before +:+ t) = None ->
  Collector.match_here alternatives t = None.
Proof.
  induction before as [|c r IH].
  - change ("" +:+ t) with t. destruct t as [|c r]; simpl;
      destruct (Collector.match_here alternatives _); auto; discriminate.
  - change (String c r +:+ t) with (String c (r +:+ t)). simpl.
    destruct (Collector.match_here alternatives (String c (r +:+ t)));
      [discriminate | exact IH].
Qed.

Lemma match_here_slash (r g : string) :
  Collector.read_id 11 r = Some g ->
  Collector.match_here ["v="; "/"] ("/" +:+ r) = Some g.
Proof.
  intros Hid.
  assert (Collector.after_literal "v=" ("/" +:+ r) = None) as E1 by reflexivity.
  assert (Collector.after_literal "/" ("/" +:+ r) = Some r) as E2 by reflexivity.
  cbn [Collector.match_here]. rewrite E1, E2, Hid. reflexivity.
Qed.

(** Whenever a pattern with a literal that ends in a slash matches, so
    does the first pattern. *)
Lemma search_slash_literal (stem : string) (url g : string) :
  Collector.search [stem +:+ "/"] url = Some g ->
  Collector.search ["v="; "/"] url <> None.
Proof.
  intros (before & t & -> & Ht)%search_Some Hnone.
  apply match_here_shape in Ht as (lit & r & Hin & -> & Hid).
  apply list_elem_of_singleton in Hin as ->.
  rewrite string_app_assoc, <- string_app_assoc in Hnone.
  apply search_None in Hnone.
  rewrite (match_here_slash _ _ Hid) in Hnone. discriminate.
Qed.

Lemma match_here_v (r g : string) :
  Collector.read_id 11 r = Some g ->
  Collector.match_here ["v="; "/"] ("v=" +:+ r) = Some g.
Proof.
  intros Hid.
  assert (Collector.after_literal "v=" ("v=" +:+ r) = Some r) as E by reflexivity.
  cbn [Collector.match_here]. rewrite E, Hid. reflexivity.
Qed.

Lemma search_here (alternatives : list string) (s g : string) :
  Collector.match_here alternatives s = Some g ->
  Collector.search alternatives s = Some g.
Proof. intros H. destruct s; simpl; rewrite H; reflexivity. Qed.

Lemma read_valid_id (id after : string) :
  Notions.valid_id id -> Collector.read_id 11 (id +:+ after) = Some id.
Proof. intros [<- Hall]. apply read_id_app, Hall. Qed.

(** X1. Whatever [extract_video_id] returns is eleven characters of
    [0-9A-Za-z_-] that stand in the URL right after [v=] or right after a
    slash. *)
Theorem extract_video_id_shape (url id : string) :
  Collector.extract_video_id url = Some id ->
  Notions.valid_id id
  /\ exists before after,
       Notions.splits_at url before "v=" id after
       \/ Notions.splits_at url before "/" id after.
Proof.
  unfold Collector.extract_video_id, Collector.patterns.
  cbn [Collector.first_match]. intros H.
  assert (exists pattern, pattern ∈ Collector.patterns
                          /\ Collector.search pattern url = Some id)
    as (pattern & Hp & Hs).
  { unfold Collector.patterns.
    destruct (Collector.search ["v="; "/"] url) eqn:E1;
      [injection H as ->; eexists; split; [|exact E1]; set_solver|].
    destruct (Collector.search ["embed/"] url) eqn:E2;
      [injection H as ->; eexists; split; [|exact E2]; set_solver|].
    destruct (Collector.search ["youtu.be/"] url) eqn:E3;
      [injection H as ->; eexists; split; [|exact E3]; set_solver|].
    discriminate. }
  apply search_Some in Hs as (before & t & -> & Ht).
  apply match_here_shape in Ht as (lit & r & Hlit & -> & Hid).
  apply read_id_shape in Hid as (Hlen & Hall & after & ->).
  split; [split; assumption|].
  unfold Notions.splits_at.
  assert (lit = "v=" \/ exists stem, lit = stem +:+ "/") as [->|[stem ->]].
  { unfold Collector.patterns in Hp.
    repeat (apply elem_of_cons in Hp as [->|Hp]);
      try (apply elem_of_nil in Hp; contradiction);
      repeat (apply elem_of_cons in Hlit as [->|Hlit]);
      try (apply elem_of_nil in Hlit; contradiction); auto.
    - right. exists "". reflexivity.
    - right. exists "embed". reflexivity.
    - right. exists "youtu.be". reflexivity. }
  - exists before, after. left. reflexivity.
  - exists (before +:+ stem), after. right.
    rewrite !string_app_assoc. reflexivity.
Qed.

Lemma extract_video_id_shape_witness :
  Notions.valid_id "dQw4w9WgXcQ"
  /\ exists before after,
       Notions.splits_at "https://youtu.be/dQw4w9WgXcQ" before "v="
         "dQw4w9WgXcQ" after
       \/ Notions.splits_at "https://youtu.be/dQw4w9WgXcQ" before "/"
            "dQw4w9WgXcQ" after.
Proof.
  apply (extract_video_id_shape "https://youtu.be/dQw4w9WgXcQ" "dQw4w9WgXcQ").
  reflexivity.
Defined.

(** X2. The second and the third pattern never decide the result: whenever
    one of them matches, the first pattern matches too, so
    [extract_video_id] returns what the first pattern finds. *)
Theorem extract_video_id_first_pattern (url : string) :
  Collector.extract_video_id url = Collector.search ["v="; "/"] url.
Proof.
  unfold Collector.extract_video_id, Collector.patterns.
  cbn [Collector.first_match].
  destruct (Collector.search ["v="; "/"] url) eqn:E1; [reflexivity|].
  destruct (Collector.search ["embed/"] url) eqn:E2.
  { apply (search_slash_literal "embed") in E2. contradiction. }
  destruct (Collector.search ["youtu.be/"] url) eqn:E3.
  { apply (search_slash_literal "youtu.be") in E3. contradiction. }
  reflexivity.
Qed.

(** X3. For every eleven-character id and whatever follows it, the id is
    read back from a watch URL (with or without www), from a short
    youtu.be link and from an embed URL. *)
Theorem extract_video_id_round_trip (id rest : string) :
  Notions.valid_id id ->
  Collector.extract_video_id
    ("https://www.youtube.com/watch?v=" +:+ id +:+ rest) = Some id
  /\ Collector.extract_video_id
       ("https://youtube.com/watch?v=" +:+ id +:+ rest) = Some id
  /\ Collector.extract_video_id ("https://youtu.be/" +:+ id +:+ rest) = Some id
  /\ Collector.extract_video_id
       ("https://www.youtube.com/embed/" +:+ id +:+ rest) = Some id.
Proof.
  intros Hid. pose proof (read_valid_id id rest Hid) as Hread.
  pose proof (search_here _ _ _ (match_here_v _ _ Hread)) as Hv.
  pose proof (search_here _ _ _ (match_here_slash _ _ Hread)) as Hslash.
  unfold Collector.extract_video_id, Collector.patterns.
  cbn [Collector.first_match].
  repeat split.
  - change (Collector.search ["v="; "/"]
              ("https://www.youtube.com/watch?v=" +:+ id +:+ rest))
      with (Collector.search ["v="; "/"] ("v=" +:+ id +:+ rest)).
    rewrite Hv. reflexivity.
  - change (Collector.search ["v="; "/"]
              ("https://youtube.com/watch?v=" +:+ id +:+ rest))
      with (Collector.search ["v="; "/"] ("v=" +:+ id +:+ rest)).
    rewrite Hv. reflexivity.
  - change (Collector.search ["v="; "/"]
              ("https://youtu.be/" +:+ id +:+ rest))
      with (Collector.search ["v="; "/"] ("/" +:+ id +:+ rest)).
    rewrite Hslash. reflexivity.
  - change (Collector.search ["v="; "/"]
              ("https://www.youtube.com/embed/" +:+ id +:+ rest))
      with (Collector.search ["v="; "/"] ("/" +:+ id +:+ rest)).
    rewrite Hslash. reflexivity.
Qed.

Lemma extract_video_id_round_trip_witness :
  Collector.extract_video_id
    ("https://www.youtube.com/watch?v=" +:+ "dQw4w9WgXcQ" +:+ "&t=43s")
  = Some "dQw4w9WgXcQ".
Proof.
  refine (proj1 (extract_video_id_round_trip "dQw4w9WgXcQ" "&t=43s" _)).
  split; reflexivity.
Defined.

(** ** The collector: page metadata, template and API rows *)

Lemma length_truncate (n : nat) (s : string) :
  String.length (Collector.truncate n s) <= n.
Proof.
  revert s. induction n as [|n IH]; intros s; simpl; [lia|].
  destruct s as [|c r]; simpl; [lia|]. specialize (IH r). lia.
Qed.

Lemma search_watch_url (id : string) :
  Notions.valid_id id ->
  Collector.extract_video_id ("https://www.youtube.com/watch?v=" +:+ id) = Some id
  /\ Collector.extract_video_id ("https://youtube.com/watch?v=" +:+ id) = Some id.
Proof.
  intros Hid. pose proof (read_valid_id id "" Hid) as Hread.
  rewrite string_app_nil_r in Hread.
  pose proof (search_here _ _ _ (match_here_v _ _ Hread)) as Hv.
  unfold Collector.extract_video_id, Collector.patterns.
  cbn [Collector.first_match]. split.
  - change (Collector.search ["v="; "/"]
              ("https://www.youtube.com/watch?v=" +:+ id))
      with (Collector.search ["v="; "/"] ("v=" +:+ id)).
    rewrite Hv. reflexivity.
  - change (Collector.search ["v="; "/"] ("https://youtube.com/watch?v=" +:+ id))
      with (Collector.search ["v="; "/"] ("v=" +:+ id)).
    rewrite Hv. reflexivity.
Qed.

(** X4. For every page text, [get_video_metadata_from_page] returns a
    record and prints nothing: the record carries the id it was given, a
    description of at most 500 characters, a title with no whitespace at
    either end, and a URL from which [extract_video_id] reads the id back
    when it is a valid one. When the request raises, the result is [None]
    and one error line. *)
Theorem get_video_metadata_from_page_result (video_id : string) :
  (forall text, exists m,
      Collector.get_video_metadata_from_page video_id (inr text) = (Some m, [])
      /\ Collector.video_id m = video_id
      /\ String.length (Collector.description m) <= 500
      /\ Text.strip Text.py_isspace (Collector.title m) = Collector.title m
      /\ (Notions.valid_id video_id ->
          Collector.extract_video_id (Collector.url m) = Some video_id))
  /\ (forall e,
         Collector.get_video_metadata_from_page video_id (inl e)
         = (None, [Collector.SayError ("Error fetching " +:+ video_id) e])).
Proof.
  split; [|reflexivity].
  intros text. eexists. split; [reflexivity|]. cbn [Collector.video_id
    Collector.description Collector.title Collector.url].
  split; [reflexivity|]. split; [apply length_truncate|]. split.
  - destruct (Collector.search_title text); [apply strip_strip | reflexivity].
  - intros Hid. apply (search_watch_url _ Hid).
Qed.

(** [create_template_csv] never overwrites: an existing file keeps its
    rows; after one call the file exists, and a second call returns [None]
    and leaves the rows as they are. *)
Lemma create_template_csv_keeps_file (w : Collector.World) :
  let w1 := snd (Collector.create_template_csv w) in
  (forall rows, Collector.csv w = Some rows -> Collector.csv w1 = Some rows)
  /\ (Collector.csv w = None ->
      Collector.csv w1 = Some (Collector.header :: Collector.examples)
      /\ fst (Collector.create_template_csv w) = Some Collector.csv_path)
  /\ fst (Collector.create_template_csv w1) = None
  /\ Collector.csv (snd (Collector.create_template_csv w1)) = Collector.csv w1.
Proof.
  unfold Collector.create_template_csv.
  destruct (Collector.csv w) as [rows|] eqn:E; simpl; rewrite ?E; simpl;
    repeat split; intros; try congruence; try discriminate; auto.
Qed.

(** What [map_result] returns element by element. *)
Lemma map_result_inr {A B} (f : A -> result B) (l : list A) (bs : list B) :
  map_result f l = inr bs -> Forall2 (fun a b => f a = inr b) l bs.
Proof.
  revert bs. induction l as [|a l IH]; intros bs; simpl.
  - intros [= <-]. constructor.
  - destruct (f a) as [e|b] eqn:Ha; simpl; [discriminate|].
    destruct (map_result f l) as [e|bs'] eqn:Hl; simpl; [discriminate|].
    intros [= <-]. constructor; auto.
Qed.

Lemma map_result_all {A B} (f : A -> result B) (l : list A) :
  Forall (fun a => exists b, f a = inr b) l ->
  exists bs, map_result f l = inr bs.
Proof.
  induction 1 as [|a l [b Hb] Hl [bs IH]]; simpl; [eexists; reflexivity|].
  rewrite Hb, IH. simpl. eexists. reflexivity.
Qed.

Lemma collect_queries_fail (api : Collector.Api) (key : string)
    (queries : list string) (max_results : Z) (query : string) (e : exn)
    (videos : list Collector.Video) :
  query ∈ queries ->
  Collector.execute api key query max_results = inl e ->
  exists e', Collector.collect_queries api key queries max_results videos
             = inl e'.
Proof.
  intros Hin He. revert videos.
  induction queries as [|q rest IH]; intros videos.
  - apply elem_of_nil in Hin. contradiction.
  - cbn [Collector.collect_queries].
    destruct (decide (query = q)) as [<-|Hne].
    + rewrite He. simpl. eauto.
    + apply elem_of_cons in Hin as [Hq|Hin]; [contradiction|].
      destruct (Collector.execute api key q max_results) as [e1|response];
        simpl; [eauto|].
      destruct (map_result _ _) as [e2|found]; simpl; [eauto|].
      apply IH, Hin.
Qed.

(** X5. The API collection is all or nothing: when the request of any one
    query raises, the function returns the empty list and an error line,
    and the videos of the queries before it are lost. *)
Theorem collect_from_youtube_api_all_or_nothing (api : Collector.Api)
    (queries : list string) (key : string) (max_results : Z) (query : string)
    (e : exn) :
  Collector.installed api = true ->
  query ∈ queries ->
  Collector.execute api key query max_results = inl e ->
  exists e',
    Collector.collect_from_youtube_api api queries key max_results
    = ([], [Collector.SayError "API Error" e']).
Proof.
  intros Hinst Hin He. unfold Collector.collect_from_youtube_api.
  rewrite Hinst. simpl.
  destruct (Collector.build api key) as [e0|[]]; simpl; [eauto|].
  destruct (collect_queries_fail api key queries max_results query e [] Hin He)
    as [e' ->].
  eauto.
Qed.

Lemma collect_from_youtube_api_all_or_nothing_witness :
  exists e',
    Collector.collect_from_youtube_api Fixture.flaky
      ["python tutorial"; "javascript course"; "math lesson"] "KEY" 50
    = ([], [Collector.SayError "API Error" e']).
Proof.
  apply (collect_from_youtube_api_all_or_nothing Fixture.flaky _ "KEY" 50
           "math lesson" (KeyError "quota")).
  - reflexivity.
  - set_solver.
  - reflexivity.
Defined.

Lemma video_data_shape (item : Collector.Item) (video : Collector.Video) :
  Collector.video_data item = inr video ->
  String.length (Collector.v_description video) <= 500
  /\ Collector.v_url video
     = "https://youtube.com/watch?v=" +:+ Collector.v_video_id video.
Proof.
  unfold Collector.video_data, Collector.key. intros H.
  destruct (Collector.id item) as [[[video_id|]]|];
    destruct (Collector.snippet item) as [[[t|] [d|] [c|] [p|]]|];
    cbn [bind ret raise Collector.videoId Collector.snippet_title
         Collector.snippet_description Collector.channelTitle
         Collector.publishedAt] in H;
    try discriminate H.
  unfold ret in H.
  match type of H with inr ?v = _ => assert (v = video) as <- by congruence end.
  cbn [Collector.v_description Collector.v_url Collector.v_video_id].
  split; [apply length_truncate | reflexivity].
Qed.

Lemma collect_queries_In (api : Collector.Api) (key : string)
    (queries : list string) (max_results : Z)
    (videos result : list Collector.Video) (video : Collector.Video) :
  Collector.collect_queries api key queries max_results videos = inr result ->
  video ∈ result ->
  video ∈ videos
  \/ exists query response item,
       query ∈ queries
       /\ Collector.execute api key query max_results = inr response
       /\ item ∈ default [] (Collector.items response)
       /\ Collector.video_data item = inr video.
Proof.
  revert videos. induction queries as [|q rest IH]; intros videos;
    cbn [Collector.collect_queries].
  - intros [= <-] Hin. left. exact Hin.
  - destruct (Collector.execute api key q max_results) as [e|response] eqn:Hq;
      simpl; [discriminate|].
    destruct (map_result _ _) as [e|found] eqn:Hfound; simpl; [discriminate|].
    intros Hres Hin. destruct (IH _ Hres Hin) as [Hacc|Hlater].
    + apply elem_of_app in Hacc as [Hacc|Hnew]; [left; exact Hacc|].
      right. apply map_result_inr in Hfound.
      apply list_elem_of_lookup in Hnew as [i Hi].
      destruct (Forall2_lookup_r _ _ _ _ _ Hfound Hi) as (item & Hitem & Hdata).
      exists q, response, item. split; [apply elem_of_cons; auto|].
      split; [exact Hq|]. split; [|exact Hdata].
      apply list_elem_of_lookup. eauto.
    + destruct Hlater as (query & response' & item & Hin' & H).
      right. exists query, response', item.
      split; [apply elem_of_cons; auto | exact H].
Qed.

(** X6. Every video that [collect_from_youtube_api] returns was built from
    an item of the answer to one of the queries; its description has at
    most 500 characters, and its URL is the watch URL of its id, from which
    [extract_video_id] reads a valid id back. *)
Theorem collect_from_youtube_api_videos (api : Collector.Api)
    (queries : list string) (key : string) (max_results : Z)
    (video : Collector.Video) :
  video ∈ fst (Collector.collect_from_youtube_api api queries key max_results) ->
  (exists query response item,
      query ∈ queries
      /\ Collector.execute api key query max_results = inr response
      /\ item ∈ default [] (Collector.items response)
      /\ Collector.video_data item = inr video)
  /\ String.length (Collector.v_description video) <= 500
  /\ (Notions.valid_id (Collector.v_video_id video) ->
      Collector.extract_video_id (Collector.v_url video)
      = Some (Collector.v_video_id video)).
Proof.
  unfold Collector.collect_from_youtube_api.
  destruct (Collector.installed api); simpl;
    [|intros H; apply elem_of_nil in H; contradiction].
  destruct (Collector.build api key) as [e|[]]; simpl;
    [intros H; apply elem_of_nil in H; contradiction|].
  destruct (Collector.collect_queries api key queries max_results [])
    as [e|result] eqn:Hres; simpl;
    [intros H; apply elem_of_nil in H; contradiction|].
  intros Hin.
  destruct (collect_queries_In _ _ _ _ _ _ _ Hres Hin) as [Hnil|Hfrom];
    [apply elem_of_nil in Hnil; contradiction|].
  split; [exact Hfrom|].
  destruct Hfrom as (query & response & item & _ & _ & _ & Hdata).
  destruct (video_data_shape _ _ Hdata) as [Hlen Hurl].
  split; [exact Hlen|]. intros Hid. rewrite Hurl.
  apply (search_watch_url _ Hid).
Qed.

Lemma collect_from_youtube_api_videos_witness :
  exists query response item,
    query ∈ ["funny videos"]
    /\ Collector.execute Fixture.steady "KEY" query 50 = inr response
    /\ item ∈ default [] (Collector.items response)
    /\ Collector.video_data item
       = inr {| Collector.v_video_id := "dQw4w9WgXcQ";
                Collector.v_title := "funny videos";
                Collector.v_description := "about";
                Collector.v_channel := "channel";
                Collector.v_published_at := "2024";
                Collector.v_url := "https://youtube.com/watch?v=dQw4w9WgXcQ" |}.
Proof.
  refine (proj1 (collect_from_youtube_api_videos Fixture.steady
                   ["funny videos"] "KEY" 50 _ _)).
  vm_compute. apply list_elem_of_here.
Defined.

Lemma collect_queries_answered (api : Collector.Api) (key : string)
    (queries : list string) (max_results : Z) (videos : list Collector.Video) :
  Forall (Notions.answered api key max_results) queries ->
  Collector.collect_queries api key queries max_results videos
  = inr (videos ++ flat_map (Notions.answers api key max_results) queries)%list.
Proof.
  intros H. revert videos.
  induction H as [|q rest (response & found & Hq & Hfound) Hrest IH];
    intros videos; cbn [Collector.collect_queries flat_map].
  - rewrite app_nil_r. reflexivity.
  - unfold Notions.answers at 1. rewrite Hq. cbn [bind].
    rewrite Hfound. cbn [bind]. rewrite IH, app_assoc. reflexivity.
Qed.

(** X7. When the library is installed, [build] succeeds, every request
    succeeds and every item has all its keys, [collect_from_youtube_api]
    returns the videos of all queries, in the order of the queries and of
    the items, and prints nothing. *)
Theorem collect_from_youtube_api_in_order (api : Collector.Api)
    (queries : list string) (key : string) (max_results : Z) :
  Collector.installed api = true ->
  Collector.build api key = inr tt ->
  Forall (Notions.answered api key max_results) queries ->
  Collector.collect_from_youtube_api api queries key max_results
  = (flat_map (Notions.answers api key max_results) queries, []).
Proof.
  intros Hinst Hbuild Hall. unfold Collector.collect_from_youtube_api.
  rewrite Hinst, Hbuild. cbn [negb bind].
  rewrite (collect_queries_answered _ _ _ _ [] Hall). reflexivity.
Qed.

Lemma collect_from_youtube_api_in_order_witness :
  Collector.collect_from_youtube_api Fixture.steady
    ["funny videos"; "music video"] "KEY" 50
  = (flat_map (Notions.answers Fixture.steady "KEY" 50)
       ["funny videos"; "music video"], []).
Proof.
  apply collect_from_youtube_api_in_order; [reflexivity | reflexivity |].
  repeat constructor; eexists _, _; split; reflexivity.
Defined.

Lemma collected_videos_shape (api : Collector.Api) (queries : list string)
    (key : string) (max_results : Z) (label : string) :
  Forall (Notions.data_row label)
    (map (Collector.row_of label)
       (fst (Collector.collect_from_youtube_api api queries key max_results))).
Proof.
  apply Forall_forall. intros row (video & -> & Hin)%list_elem_of_fmap.
  unfold Collector.collect_from_youtube_api in Hin.
  destruct (Collector.installed api); simpl in Hin;
    [|apply elem_of_nil in Hin; contradiction].
  destruct (Collector.build api key) as [e|[]]; simpl in Hin;
    [apply elem_of_nil in Hin; contradiction|].
  destruct (Collector.collect_queries api key queries max_results [])
    as [e|result] eqn:Hres; simpl in Hin;
    [apply elem_of_nil in Hin; contradiction|].
  destruct (collect_queries_In _ _ _ _ _ _ _ Hres Hin) as [Hnil|Hfrom];
    [apply elem_of_nil in Hnil; contradiction|].
  destruct Hfrom as (query & response & item & _ & _ & _ & Hdata).
  destruct (video_data_shape _ _ Hdata) as [Hlen Hurl].
  exists (Collector.v_video_id video), (Collector.v_title video),
    (Collector.v_description video).
  unfold Collector.row_of. rewrite Hurl. auto.
Qed.

(** X8. With a non-empty API key, the collector's [main] replaces the CSV,
    whatever it held, by the header, then one row with label 1 for each
    video that [collect_from_youtube_api] returns for the three educational
    queries, then one row with label 0 for each video that it returns for
    the three entertainment queries, in the order returned and with half of
    [--count] as the number of results per query. Every data row has the
    five fields of the header: an id, a title, a description of at most 500
    characters, the label, and the watch URL of the id. *)
Theorem main_with_key_rows (api : Collector.Api) (count : Z) (key : string)
    (w : Collector.World) :
  key <> "" ->
  let educational :=
    map (Collector.row_of "1")
      (fst (Collector.collect_from_youtube_api api
              ["python tutorial"; "javascript course"; "math lesson"]
              key (count / 2))) in
  let entertainment :=
    map (Collector.row_of "0")
      (fst (Collector.collect_from_youtube_api api
              ["funny videos"; "music video"; "gaming"]
              key (count / 2))) in
  Collector.csv (Collector.main api count (Some key) w)
  = Some (Collector.header :: (educational ++ entertainment)%list)
  /\ Forall (Notions.data_row "1") educational
  /\ Forall (Notions.data_row "0") entertainment.
Proof.
  intros Hkey educational entertainment.
  destruct key as [|c k]; [contradiction|].
  split; [|split; apply collected_videos_shape].
  unfold Collector.main. subst educational entertainment.
  destruct (Collector.collect_from_youtube_api api
              ["python tutorial"; "javascript course"; "math lesson"]
              (String c k) (count / 2)) as [edu edu_lines].
  destruct (Collector.collect_from_youtube_api api
              ["funny videos"; "music video"; "gaming"]
              (String c k) (count / 2)) as [ent ent_lines].
  reflexivity.
Qed.

Lemma main_with_key_rows_witness :
  Collector.csv (Collector.main Fixture.steady 100 (Some "KEY")
                   Fixture.labelled)
  = Some (Collector.header
          :: (map (Collector.row_of "1")
                (fst (Collector.collect_from_youtube_api Fixture.steady
                        ["python tutorial"; "javascript course"; "math lesson"]
                        "KEY" (100 / 2)))
              ++ map (Collector.row_of "0")
                   (fst (Collector.collect_from_youtube_api Fixture.steady
                           ["funny videos"; "music video"; "gaming"]
                           "KEY" (100 / 2))))%list).
Proof.
  refine (proj1 (main_with_key_rows Fixture.steady 100 "KEY"
                   Fixture.labelled _)).
  discriminate.
Defined.

(** The rows of that run: three with label 1, then three with label 0. *)
Example main_with_key_steady :
  Collector.csv (Collector.main Fixture.steady 100 (Some "KEY")
                   Fixture.labelled)
  = Some [Collector.header;
          ["dQw4w9WgXcQ"; "python tutorial"; "about"; "1";
           "https://youtube.com/watch?v=dQw4w9WgXcQ"];
          ["dQw4w9WgXcQ"; "javascript course"; "about"; "1";
           "https://youtube.com/watch?v=dQw4w9WgXcQ"];
          ["dQw4w9WgXcQ"; "math lesson"; "about"; "1";
           "https://youtube.com/watch?v=dQw4w9WgXcQ"];
          ["dQw4w9WgXcQ"; "funny videos"; "about"; "0";
           "https://youtube.com/watch?v=dQw4w9WgXcQ"];
          ["dQw4w9WgXcQ"; "music video"; "about"; "0";
           "https://youtube.com/watch?v=dQw4w9WgXcQ"];
          ["dQw4w9WgXcQ"; "gaming"; "about"; "0";
           "https://youtube.com/watch?v=dQw4w9WgXcQ"]].
Proof. reflexivity. Qed.

(** X9. With a non-empty API key but without the client library, or when
    [build] raises, the collector's [main] still opens the CSV for writing: whatever rows
    the file held are replaced by the header alone. *)
Theorem main_with_key_without_api (api : Collector.Api) (count : Z)
    (key : string) (w : Collector.World) :
  key <> "" ->
  Collector.installed api = false
  \/ (exists e, Collector.build api key = inl e) ->
  Collector.csv (Collector.main api count (Some key) w)
  = Some [Collector.header].
Proof.
  intros Hkey Hapi. destruct key as [|c k]; [contradiction|].
  unfold Collector.main, Collector.collect_from_youtube_api.
  destruct Hapi as [->|[e ->]]; [reflexivity|].
  destruct (Collector.installed api); reflexivity.
Qed.

Lemma main_with_key_without_api_witness :
  Collector.csv (Collector.main Fixture.absent 100 (Some "KEY") Fixture.labelled)
  = Some [Collector.header].
Proof.
  apply main_with_key_without_api; [discriminate | left; reflexivity].
Defined.

(** X10. Without an API key (the flag absent or empty), the collector's
    [main] never
    touches an existing CSV, and creates the template when there is none. *)
Theorem main_without_key (api : Collector.Api) (count : Z)
    (key : option string) (w : Collector.World) :
  key = None \/ key = Some "" ->
  (forall rows, Collector.csv w = Some rows ->
                Collector.csv (Collector.main api count key w) = Some rows)
  /\ (Collector.csv w = None ->
      Collector.csv (Collector.main api count key w)
      = Some (Collector.header :: Collector.examples)).
Proof.
  intros [->| ->]; unfold Collector.main, Collector.create_template_csv;
    destruct (Collector.csv w) as [rows|] eqn:E; simpl; rewrite ?E;
    split; intros; try congruence; try discriminate; auto.
Qed.

Lemma main_without_key_witness :
  Collector.csv (Collector.main Fixture.absent 100 None Fixture.labelled)
  = Collector.csv Fixture.labelled.
Proof.
  refine (proj1 (main_without_key Fixture.absent 100 None Fixture.labelled _)
            _ _); [left|]; reflexivity.
Defined.

(** ** train_model.py: the model comparison *)

Lemma insert_Permutation (x : string * R) (l : list (string * R)) :
  Report.insert x l ≡ₚ x :: l.
Proof.
  induction l as [|y r IH]; simpl; [reflexivity|].
  destruct (Rlt_dec _ _); [|reflexivity].
  rewrite IH. apply Permutation_swap.
Qed.

Lemma sorted_Permutation (items : list (string * R)) :
  Report.sorted items ≡ₚ items.
Proof.
  induction items as [|x r IH]; simpl; [reflexivity|].
  rewrite insert_Permutation, IH. reflexivity.
Qed.

Lemma insert_descending (x : string * R) (l : list (string * R)) :
  Notions.descending l -> Notions.descending (Report.insert x l).
Proof.
  induction l as [|y r IH]; simpl; [auto|].
  intros [Hy Hr]. destruct (Rlt_dec (snd x) (snd y)) as [Hlt|Hge]; simpl.
  - split; [|auto].
    rewrite insert_Permutation. constructor; [lra | exact Hy].
  - split; [|auto]. constructor; [lra|].
    eapply Forall_impl; [exact Hy|]. simpl. intros z Hz. lra.
Qed.

Lemma sorted_descending (items : list (string * R)) :
  Notions.descending (Report.sorted items).
Proof.
  induction items as [|x r IH]; simpl; [exact I|].
  apply insert_descending, IH.
Qed.

Lemma with_accuracy_insert (a : R) (x : string * R) (l : list (string * R)) :
  Notions.with_accuracy a (Report.insert x l)
  = Notions.with_accuracy a (x :: l).
Proof.
  unfold Notions.with_accuracy.
  induction l as [|y r IH]; simpl; [reflexivity|].
  destruct (Rlt_dec (snd x) (snd y)) as [Hlt|Hge]; simpl; [|reflexivity].
  rewrite IH. simpl.
  destruct (Req_dec_T (snd x) a) as [Hx|Hx];
    destruct (Req_dec_T (snd y) a) as [Hy|Hy]; try reflexivity.
  lra.
Qed.

Lemma with_accuracy_sorted (a : R) (items : list (string * R)) :
  Notions.with_accuracy a (Report.sorted items)
  = Notions.with_accuracy a items.
Proof.
  induction items as [|x r IH]; simpl; [reflexivity|].
  rewrite with_accuracy_insert. unfold Notions.with_accuracy in *. simpl.
  rewrite IH. reflexivity.
Qed.

(** X11. The comparison lists every trained model once, from the highest
    accuracy to the lowest, and models with the same accuracy in the order
    in which they were trained. *)
Theorem summary_ranking (nb_acc lr_acc rf_acc nn_acc : R) :
  let results := Report.results nb_acc lr_acc rf_acc nn_acc in
  let lines := fst (Report.summary nb_acc lr_acc rf_acc nn_acc) in
  lines ≡ₚ results
  /\ Notions.descending lines
  /\ forall a, Notions.with_accuracy a lines = Notions.with_accuracy a results.
Proof.
  intros results lines.
  change lines with (Report.sorted results). clear lines.
  split; [apply sorted_Permutation|].
  split; [apply sorted_descending|].
  intros a. apply with_accuracy_sorted.
Qed.

Lemma max_from_max (x : string * R) (r : list (string * R)) :
  Report.max_from x r
  = match Report.max r with
    | None => x
    | Some m => if Rlt_dec (snd x) (snd m) then m else x
    end.
Proof.
  revert x. induction r as [|y r IH]; intros x; [reflexivity|].
  cbn [Report.max_from Report.max].
  destruct r as [|z r'].
  - reflexivity.
  - rewrite (IH (if Rlt_dec (snd x) (snd y) then y else x)), (IH y).
    cbn [Report.max].
    set (m := Report.max_from z r').
    destruct (Rlt_dec (snd x) (snd y)) as [Hxy|Hxy];
      destruct (Rlt_dec (snd y) (snd m)) as [Hym|Hym];
      destruct (Rlt_dec (snd x) (snd m)) as [Hxm|Hxm];
      try reflexivity; try lra;
      destruct (Rlt_dec (snd x) (snd y)); try reflexivity; lra.
Qed.

Lemma head_insert (x : string * R) (l : list (string * R)) :
  head (Report.insert x l)
  = match head l with
    | None => Some x
    | Some y => if Rlt_dec (snd x) (snd y) then Some y else Some x
    end.
Proof.
  destruct l as [|y r]; simpl; [reflexivity|].
  destruct (Rlt_dec _ _); reflexivity.
Qed.

Lemma max_head_sorted (items : list (string * R)) :
  Report.max items = head (Report.sorted items).
Proof.
  induction items as [|x r IH]; [reflexivity|].
  cbn [Report.max Report.sorted fold_right].
  change (fold_right Report.insert [] r) with (Report.sorted r).
  rewrite head_insert, <- IH, max_from_max.
  destruct (Report.max r) as [m|]; [|reflexivity].
  destruct (Rlt_dec _ _); reflexivity.
Qed.

(** X12. The recommended model is the one on the first line of the
    comparison: it is one of the trained models, and no trained model has a
    higher accuracy. *)
Theorem summary_best_is_first (nb_acc lr_acc rf_acc nn_acc : R) :
  let results := Report.results nb_acc lr_acc rf_acc nn_acc in
  let run := Report.summary nb_acc lr_acc rf_acc nn_acc in
  exists best,
    snd run = Some best
    /\ head (fst run) = Some best
    /\ best ∈ results
    /\ forall e, e ∈ results -> (snd e <= snd best)%R.
Proof.
  intros results run.
  change (snd run) with (Report.max results).
  change (fst run) with (Report.sorted results). clear run.
  pose proof (max_head_sorted results) as Hmax.
  pose proof (sorted_Permutation results) as Hperm.
  pose proof (sorted_descending results) as Hdesc.
  destruct (Report.sorted results) as [|best rest] eqn:Hsorted.
  - apply Permutation_nil_l in Hperm. discriminate Hperm.
  - exists best. simpl in Hmax, Hdesc. destruct Hdesc as [Hrest _].
    repeat split; [exact Hmax | |].
    + rewrite <- Hperm. apply list_elem_of_here.
    + intros e He. rewrite <- Hperm in He.
      apply elem_of_cons in He as [->|He]; [lra|].
      rewrite Forall_forall in Hrest. apply Hrest, He.
Qed.

(** ** predict.py *)

Lemma to_lower_to_lower (c : ascii) :
  Text.to_lower (Text.to_lower c) = Text.to_lower c.
Proof. each_char c. Qed.

Lemma lower_lower (s : string) : Text.lower (Text.lower s) = Text.lower s.
Proof.
  induction s as [|c r IH]; simpl; [reflexivity|].
  rewrite to_lower_to_lower, IH. reflexivity.
Qed.

Lemma lower_app (s t : string) :
  Text.lower (s +:+ t) = Text.lower s +:+ Text.lower t.
Proof.
  induction s as [|c r IH]; [reflexivity|].
  change (String (Text.to_lower c) (Text.lower (r +:+ t))
          = String (Text.to_lower c) (Text.lower r +:+ Text.lower t)).
  f_equal. exact IH.
Qed.

Lemma lower_combined (title description : string) :
  Text.lower (Text.lower title +:+ " " +:+ Text.lower description)
  = Text.lower (title +:+ " " +:+ description).
Proof.
  rewrite !lower_app, !lower_lower. reflexivity.
Qed.

(** X13. [predict_video] does not tell upper case from lower case: the
    result and the lines printed are the same for a title and a description
    and for their lower-cased forms, with every model type and whatever the
    [models] directory holds. *)
Theorem predict_video_case_insensitive (lib : Predict.Library)
    (title description model_type : string) (w : Predict.World) :
  Predict.predict_video lib (Text.lower title) (Text.lower description)
    model_type w
  = Predict.predict_video lib title description model_type w.
Proof.
  unfold Predict.predict_video, Predictor.combined_text.
  rewrite lower_combined. reflexivity.
Qed.

Lemma predict_video_no_directory (lib : Predict.Library)
    (title description model_type : string) (w : Predict.World) :
  Predict.models w = None ->
  model_type <> "neural_network" ->
  Predict.predict_video lib title description model_type w
  = (inl (Predict.FileNotFoundError "models"),
     Predict.say w
       [Predict.Say ("Model not found: models/" +:+ model_type +:+ "_model.pkl");
        Predict.Say "Available models:"]).
Proof.
  intros Hdir Hnn%String.eqb_neq.
  unfold Predict.predict_video, Predict.path_exists.
  rewrite Hnn, Hdir. cbn [negb Predict.say Predict.models]. rewrite Hdir.
  reflexivity.
Qed.

(** X14. Without a [models] directory, asking for any model type other
    than the neural network does not end with the two values [None]: after
    the line that names the missing file, listing the directory raises
    [FileNotFoundError], and [main] lets it escape. For the neural network
    the same situation is reported and [None, None] is returned. *)
Theorem predict_video_without_models_directory (lib : Predict.Library)
    (title description model_type : string) (w : Predict.World) :
  Predict.models w = None ->
  model_type <> "neural_network" ->
  fst (Predict.predict_video lib title description model_type w)
  = inl (Predict.FileNotFoundError "models")
  /\ fst (Predict.main lib ["predict.py"; title; description; model_type] w)
     = inl (Predict.FileNotFoundError "models")
  /\ fst (Predict.predict_video lib title description "neural_network" w)
     = inr (None, None).
Proof.
  intros Hdir Hnn. split; [|split].
  - rewrite predict_video_no_directory by assumption. reflexivity.
  - unfold Predict.main. cbn [lookup list_lookup default].
    unfold Datatypes.id.
    rewrite predict_video_no_directory;
      [reflexivity | destruct description; exact Hdir | exact Hnn].
  - unfold Predict.predict_video, Predict.path_exists.
    cbn [String.eqb Ascii.eqb Bool.eqb]. rewrite Hdir. reflexivity.
Qed.

Lemma predict_video_without_models_directory_witness :
  fst (Predict.predict_video Fixture.library "Python Tutorial" ""
         "logistic_regression" Fixture.untrained)
  = inl (Predict.FileNotFoundError "models").
Proof.
  refine (proj1 (predict_video_without_models_directory Fixture.library
                   "Python Tutorial" "" "logistic_regression"
                   Fixture.untrained _ _)); [reflexivity | discriminate].
Defined.

(** X15. [predict_video] returns a prediction exactly when it returns a
    probability, so the test [prediction is not None] of [main] is enough;
    it never changes the [models] directory, and when it returns a
    prediction it has printed nothing. *)
Theorem predict_video_result (lib : Predict.Library)
    (title description model_type : string) (w : Predict.World) :
  let run := Predict.predict_video lib title description model_type w in
  Predict.models (snd run) = Predict.models w
  /\ (forall prediction probability,
         fst run = inr (prediction, probability) ->
         (prediction = None <-> probability = None)
         /\ (is_Some prediction -> snd run = w)).
Proof.
  unfold Predict.predict_video.
  repeat match goal with
         | |- context [if ?b then _ else _] => destruct b
         | |- context [match ?x with _ => _ end] => destruct x
         end;
    cbn [fst snd Predict.say Predict.models];
    (split; [reflexivity|]);
    intros prediction probability H; try discriminate H;
    injection H as <- <-;
    (split; [split; intros E; (reflexivity || discriminate E)
            | intros [? E]; (reflexivity || discriminate E)]).
Qed.

(** ** The scorer: what [predict] computes *)

Open Scope R_scope.

Lemma vectorize_by_processed (c : Scorer.VideoClassifier) (s t : string) :
  Scorer.preprocessText s = Scorer.preprocessText t ->
  Scorer.vectorize c s = Scorer.vectorize c t.
Proof.
  intros H. unfold Scorer.vectorize, Scorer.features_of. rewrite H.
  reflexivity.
Qed.

(** X16. The scorer does not tell upper case from lower case: [predict]
    gives the same answer for a title and a description and for their
    lower-cased forms, with every model. *)
Theorem predict_case_insensitive (c : Scorer.VideoClassifier)
    (title description : string) :
  Scorer.predict c (Text.lower title) (Text.lower description)
  = Scorer.predict c title description.
Proof.
  unfold Scorer.predict.
  rewrite (vectorize_by_processed c
             (Text.lower title +:+ " " +:+ Text.lower description)
             (title +:+ " " +:+ description)); [reflexivity|].
  unfold Scorer.preprocessText. rewrite lower_combined. reflexivity.
Qed.

Lemma lr_loop_dot (cs features : list R) (i : nat) (a : R) :
  (i + length features <= length cs)%nat ->
  Scorer.lr_loop (Some cs) features i (Scorer.Fin a)
  = Some (Scorer.Fin (a + Notions.dot (drop i cs) features)).
Proof.
  revert i a. induction features as [|x rest IH]; intros i a H.
  - unfold Notions.dot. rewrite zip_with_nil_r. simpl.
    do 2 f_equal. lra.
  - destruct (lookup_lt_is_Some_2 cs i) as [w Hw]; [simpl in H; lia|].
    cbn [Scorer.lr_loop]. rewrite Hw. cbn [Scorer.to_num Scorer.lift2].
    rewrite IH by (simpl in H; lia).
    rewrite (drop_S _ _ _ Hw). unfold Notions.dot. simpl.
    do 2 f_equal. lra.
Qed.

Lemma sigmoid_above_half (s : R) : 0.5 < 1 / (1 + exp (- s)) <-> 0 < s.
Proof.
  pose proof (exp_pos (- s)) as He.
  assert (1 / (1 + exp (- s)) = / (1 + exp (- s))) as -> by (field; lra).
  split.
  - intros H.
    assert (exp (- s) < 1) as Hlt.
    { apply Rnot_le_lt. intros Hge.
      assert (/ (1 + exp (- s)) <= / 2) as Hle
        by (apply Rinv_le_contravar; lra).
      lra. }
    rewrite <- exp_0 in Hlt. apply exp_lt_inv in Hlt. lra.
  - intros Hs.
    assert (exp (- s) < 1) as Hlt
      by (rewrite <- exp_0; apply exp_increasing; lra).
    assert (/ 2 < / (1 + exp (- s))) as Hinv
      by (apply Rinv_lt_contravar; [apply Rmult_lt_0_compat|]; lra).
    lra.
Qed.

Lemma nb_loop_not_above (ps features : list R) (i : nat) (score : Scorer.num) :
  Forall (fun p => p <= 0) ps ->
  Notions.not_above 0 score ->
  exists r, Scorer.nb_loop (Some ps) features i score = Some r
            /\ Notions.not_above 0 r.
Proof.
  intros Hps. revert i score.
  induction features as [|x rest IH]; intros i score Hscore;
    cbn [Scorer.nb_loop]; [eauto|].
  destruct (Rlt_dec 0 x); [|apply IH, Hscore].
  apply IH. destruct score as [|a]; [exact I|].
  destruct (ps !! i) as [w|] eqn:Hw; cbn [Scorer.to_num Scorer.lift2];
    [|exact I].
  simpl in *. rewrite Forall_forall in Hps.
  pose proof (Hps w (list_elem_of_lookup_2 _ _ _ Hw)). lra.
Qed.

(** X18. Log-probabilities are never above 0. When the per-feature
    log-probabilities and the class prior of a naive-Bayes scorer are not
    above 0, [predict] returns the prediction 0 for every title and
    description: the score is a sum of such numbers, so the logistic
    function of it never exceeds 0.5. *)
Theorem predict_naive_bayes_never_educational (c : Scorer.VideoClassifier)
    (title description : string) (ps : list R) :
  Scorer.modelType c = "naive_bayes" ->
  Scorer.featureLogProb c = Some ps ->
  Forall (fun p => p <= 0) ps ->
  (forall b, Scorer.classLogPrior c = Some b -> b <= 0) ->
  exists p,
    Scorer.predict c title description = Scorer.Return p
    /\ Scorer.prediction p = 0%Z
    /\ Notions.not_above 0.5 (Scorer.probability p).
Proof.
  intros Ht Hp Hps Hb. unfold Scorer.predict.
  rewrite Ht, Hp. cbn [String.eqb Ascii.eqb Bool.eqb].
  destruct (nb_loop_not_above ps
              (Scorer.vectorize c (title +:+ " " +:+ description)) 0
              (Scorer.to_num (Scorer.classLogPrior c)) Hps)
    as (r & -> & Hr).
  { destruct (Scorer.classLogPrior c) as [b|]; simpl; auto. }
  eexists. split; [reflexivity|].
  destruct r as [|s]; cbn; [auto|].
  simpl in Hr.
  assert (~ 0.5 < 1 / (1 + exp (- s))) as Hhalf.
  { intros H%sigmoid_above_half. lra. }
  destruct (Rlt_dec 0.5 (1 / (1 + exp (- s)))); [contradiction|].
  split; [reflexivity | lra].
Qed.

Lemma predict_naive_bayes_never_educational_witness :
  exists p,
    Scorer.predict Fixture.bayes "Python Tutorial for Beginners" ""
    = Scorer.Return p
    /\ Scorer.prediction p = 0%Z
    /\ Notions.not_above 0.5 (Scorer.probability p).
Proof.
  apply (predict_naive_bayes_never_educational Fixture.bayes
           "Python Tutorial for Beginners" "" [-0.5; -0.25]).
  - reflexivity.
  - reflexivity.
  - repeat constructor; lra.
  - intros b [= <-]. lra.
Defined.

Close Scope R_scope.

(** ** The exporter: what a run leaves behind *)

(** Run [export_to_json] through every branch, on what the model file
    holds. *)
Ltac run_export w model_type :=
  let H := fresh "Hfile" in
  unfold Exporter.export_to_json, Exporter.seq, Exporter.path_exists,
    Exporter.joblib_load, Exporter.print, Exporter.lift;
  cbn [fst snd Exporter.files Exporter.directories Exporter.console];
  destruct (Exporter.files w !! Exporter.model_path model_type)
    as [[m v| | | |]|] eqn:H;
  rewrite ?(bool_decide_eq_true_2 (is_Some (Some _))) by eauto;
  rewrite ?(bool_decide_eq_false_2 (is_Some None))
    by (intros [? ?]; discriminate);
  cbn [orb negb fst snd Exporter.files Exporter.directories
       Exporter.console];
  rewrite ?H;
  try (let Hdir := fresh "Hdir" in
       destruct (bool_decide (Exporter.model_path model_type
                              ∈ Exporter.directories w)) eqn:Hdir;
       cbn [orb negb fst snd Exporter.files Exporter.directories
            Exporter.console];
       rewrite ?H, ?Hdir);
  try (destruct (Sklearn.coef_ m) as [[|coef rows]|];
       cbn [fst snd Exporter.item Exporter.getattr lookup list_lookup
            ret raise];
       [ | destruct (Sklearn.intercept_ m) as [[|b bs]|];
           cbn [fst snd Exporter.item lookup list_lookup ret raise]
         | destruct (Sklearn.feature_log_prob_ m) as [[|r0 [|r1 rs]]|];
           cbn [fst snd Exporter.item lookup list_lookup ret raise];
           try (destruct (Sklearn.class_log_prior_ m) as [[|p0 [|p1 ps]]|];
                cbn [fst snd Exporter.item Exporter.getattr lookup
                     list_lookup ret raise]) ]).

(** Whatever the path and the vocabulary, the dump and its report change
    at most the output file, and only add to the console. *)
Lemma save_frame (d : Exporter.Dict) (output_file : string)
    (w : Exporter.World) :
  let run := Exporter.save d output_file w in
  (forall path, path <> output_file ->
                Exporter.files (snd run) !! path = Exporter.files w !! path)
  /\ Exporter.directories (snd run) = Exporter.directories w
  /\ (exists lines, Exporter.console (snd run)
                    = (Exporter.console w ++ lines)%list)
  /\ (fst run = inr tt
      \/ (exists e, fst run = inl e /\ e <> TypeError)
         /\ Exporter.files (snd run) = Exporter.files w
      \/ fst run = inl TypeError
         /\ Exporter.files (snd run)
            = <[output_file := Exporter.Truncated (Exporter.object d)]>
                (Exporter.files w)).
Proof.
  unfold Exporter.save, Exporter.seq, Exporter.json_dump, Exporter.seq,
    Exporter.open_w, Exporter.write, Exporter.throw, Exporter.print.
  destruct (String.eqb output_file "");
    [|destruct (bool_decide (output_file ∈ Exporter.directories w));
      [|destruct (existsb _ (Exporter.ancestors output_file));
        [|destruct (String.eqb (Exporter.dirname output_file) ""
                    || bool_decide (Exporter.dirname output_file
                                    ∈ Exporter.directories w));
          [destruct (Exporter.encodable d)|]]]];
    cbn [fst snd Exporter.files Exporter.directories Exporter.console];
    (split; [intros path Hpath; rewrite ?lookup_insert_ne by congruence;
             reflexivity|]);
    (split; [reflexivity|]);
    (split; [first [exists []; rewrite app_nil_r; reflexivity
                   | eexists; reflexivity]|]);
    first [ left; reflexivity
          | right; left; split; [eexists; split; [reflexivity|discriminate]
                                |reflexivity]
          | right; right; split; reflexivity ].
Qed.

(** X19. [export_to_json] changes no file other than its output file, for
    every model type and whatever the model file holds, and it only adds
    lines to the console. *)
Theorem export_to_json_frame (model_type output_file : string)
    (w : Exporter.World) :
  let run := Exporter.export_to_json model_type output_file w in
  (forall path, path <> output_file ->
                Exporter.files (snd run) !! path = Exporter.files w !! path)
  /\ exists lines, Exporter.console (snd run)
                   = (Exporter.console w ++ lines)%list.
Proof.
  run_export w model_type;
    first
      [ match goal with
        | |- context [Exporter.save ?d ?o ?w'] =>
            destruct (save_frame d o w') as (Hfiles & _ & [lines Hlines] & _);
            split; [exact Hfiles|];
            rewrite Hlines; cbn [Exporter.console];
            rewrite <- app_assoc; eexists; reflexivity
        end
      | cbn [fst snd Exporter.files Exporter.directories Exporter.console];
        split;
        [ intros path Hpath; reflexivity
        | rewrite <- ?app_assoc; eexists; reflexivity ] ].
Qed.

(** X20. Export and load, for a pair whose model has [coef_], written to a
    path that can be opened. When [json] can encode the vocabulary, the
    scorer built from the artifact holds the vectorizer's vocabulary, IDF
    weights, [max_features] and [ngram_range], row 0 of [coef_] as
    coefficients, and element 0 of [intercept_] (0 without that attribute)
    as intercept. When it cannot, as for the [numpy.int64] indices of a
    vectorizer fitted with [max_features], the export raises [TypeError]
    and leaves the beginning of the artifact, which is no JSON text. *)
Theorem export_then_load_logistic_regression (model_type output_file : string)
    (w : Exporter.World) (model : Sklearn.Model)
    (vectorizer : Sklearn.Vectorizer) (coef : list R) (rows : list (list R)) :
  Exporter.files w !! Exporter.model_path model_type
  = Some (Exporter.Pickle model vectorizer) ->
  Sklearn.coef_ model = Some (coef :: rows) ->
  Sklearn.intercept_ model <> Some [] ->
  Spec.writable w output_file ->
  let run := Exporter.export_to_json model_type output_file w in
  (Spec.json_encodable vectorizer ->
   fst run = inr tt
   /\ exists e,
        Exporter.files (snd run) !! output_file = Some (Exporter.JsonFile e)
        /\ Scorer.constructor e
           = {| Scorer.modelType := "logistic_regression";
                Scorer.vocabulary := Sklearn.vocabulary_ vectorizer;
                Scorer.idf := Sklearn.idf_ vectorizer;
                Scorer.maxFeatures := Sklearn.max_features vectorizer;
                Scorer.ngramRange := Sklearn.ngram_range vectorizer;
                Scorer.coefficients := Some coef;
                Scorer.intercept :=
                  Some match Sklearn.intercept_ model with
                       | Some (b :: _) => b
                       | _ => 0%R
                       end;
                Scorer.featureLogProb := None;
                Scorer.classLogPrior := None |})
  /\ (~ Spec.json_encodable vectorizer ->
      fst run = inl TypeError
      /\ exists e,
           Exporter.files (snd run) !! output_file
           = Some (Exporter.Truncated e)).
Proof.
  intros Hfile Hcoef Hint Hw run. subst run.
  rewrite (export_logistic_regression _ output_file _ _ _ _ _
             Hfile Hcoef Hint).
  match goal with
  | |- context [Exporter.save {| Exporter.object := ?e;
                                 Exporter.numpy_values := _ |} _ ?w'] =>
      destruct (save_outcome e vectorizer output_file w' eq_refl Hw)
        as [Hok Hfail]
  end.
  split; intros Henc.
  - destruct (Hok Henc) as [-> ->]. split; [reflexivity|].
    eexists. rewrite lookup_insert_eq. split; reflexivity.
  - destruct (Hfail Henc) as [-> ->]. split; [reflexivity|].
    eexists. apply lookup_insert_eq.
Qed.

Lemma export_then_load_logistic_regression_witness :
  fst (Exporter.export_to_json "logistic_regression" "models/out.json"
         Sample.encodable) = inr tt
  /\ exists e,
       Exporter.files
         (snd (Exporter.export_to_json "logistic_regression" "models/out.json"
                 Sample.encodable)) !! "models/out.json"
       = Some (Exporter.JsonFile e)
       /\ Scorer.constructor e
          = {| Scorer.modelType := "logistic_regression";
               Scorer.vocabulary := Sklearn.vocabulary_ Sample.given_vocabulary;
               Scorer.idf := Sklearn.idf_ Sample.given_vocabulary;
               Scorer.maxFeatures := Sklearn.max_features Sample.given_vocabulary;
               Scorer.ngramRange := Sklearn.ngram_range Sample.given_vocabulary;
               Scorer.coefficients := Some [0.75; 0.25]%R;
               Scorer.intercept := Some 0.1%R;
               Scorer.featureLogProb := None;
               Scorer.classLogPrior := None |}.
Proof.
  refine (proj1 (export_then_load_logistic_regression "logistic_regression"
                   "models/out.json" Sample.encodable
                   Sample.logistic_regression Sample.given_vocabulary
                   [0.75; 0.25]%R [] _ _ _ _) _).
  - reflexivity.
  - reflexivity.
  - discriminate.
  - split; [discriminate|]. split.
    + intros H. cbn [Sample.encodable Exporter.directories] in H.
      apply elem_of_singleton in H. discriminate H.
    + split; [repeat constructor | right; vm_compute; reflexivity].
  - left. reflexivity.
Defined.

(** X21. Export and load, for a pair whose model has no [coef_] but has
    [feature_log_prob_], written to a path that can be opened. When [json]
    can encode the vocabulary, the scorer built from the artifact holds the
    vectorizer's data, row 1 of [feature_log_prob_] and element 1 of
    [class_log_prior_], the values of the educational class only. When it
    cannot, the export raises [TypeError] and leaves the beginning of the
    artifact. *)
Theorem export_then_load_naive_bayes (model_type output_file : string)
    (w : Exporter.World) (model : Sklearn.Model)
    (vectorizer : Sklearn.Vectorizer) (r0 r1 : list R) (rows : list (list R))
    (p0 p1 : R) (ps : list R) :
  Exporter.files w !! Exporter.model_path model_type
  = Some (Exporter.Pickle model vectorizer) ->
  Sklearn.coef_ model = None ->
  Sklearn.feature_log_prob_ model = Some (r0 :: r1 :: rows) ->
  Sklearn.class_log_prior_ model = Some (p0 :: p1 :: ps) ->
  Spec.writable w output_file ->
  let run := Exporter.export_to_json model_type output_file w in
  (Spec.json_encodable vectorizer ->
   fst run = inr tt
   /\ exists e,
        Exporter.files (snd run) !! output_file = Some (Exporter.JsonFile e)
        /\ Scorer.constructor e
           = {| Scorer.modelType := "naive_bayes";
                Scorer.vocabulary := Sklearn.vocabulary_ vectorizer;
                Scorer.idf := Sklearn.idf_ vectorizer;
                Scorer.maxFeatures := Sklearn.max_features vectorizer;
                Scorer.ngramRange := Sklearn.ngram_range vectorizer;
                Scorer.coefficients := None;
                Scorer.intercept := None;
                Scorer.featureLogProb := Some r1;
                Scorer.classLogPrior := Some p1 |})
  /\ (~ Spec.json_encodable vectorizer ->
      fst run = inl TypeError
      /\ exists e,
           Exporter.files (snd run) !! output_file
           = Some (Exporter.Truncated e)).
Proof.
  intros Hfile Hcoef Hflp Hprior Hw run. subst run.
  rewrite (export_naive_bayes _ output_file _ _ _ _ _ _ _ _ _
             Hfile Hcoef Hflp Hprior).
  match goal with
  | |- context [Exporter.save {| Exporter.object := ?e;
                                 Exporter.numpy_values := _ |} _ ?w'] =>
      destruct (save_outcome e vectorizer output_file w' eq_refl Hw)
        as [Hok Hfail]
  end.
  split; intros Henc.
  - destruct (Hok Henc) as [-> ->]. split; [reflexivity|].
    eexists. rewrite lookup_insert_eq. split; reflexivity.
  - destruct (Hfail Henc) as [-> ->]. split; [reflexivity|].
    eexists. apply lookup_insert_eq.
Qed.

Lemma export_then_load_naive_bayes_witness :
  fst (Exporter.export_to_json "naive_bayes" "models/out.json" Sample.trained)
  = inl TypeError
  /\ exists e,
       Exporter.files
         (snd (Exporter.export_to_json "naive_bayes" "models/out.json"
                 Sample.trained)) !! "models/out.json"
       = Some (Exporter.Truncated e).
Proof.
  refine (proj2 (export_then_load_naive_bayes "naive_bayes"
                   "models/out.json" Sample.trained
                   Sample.naive_bayes Sample.vectorizer
                   [-1; -2]%R [-0.5; -0.25]%R [] (-0.7)%R (-0.6)%R []
                   _ _ _ _ _) _).
  - reflexivity.
  - reflexivity.
  - reflexivity.
  - reflexivity.
  - split; [discriminate|]. split.
    + intros H. cbn [Sample.trained Exporter.directories] in H.
      apply elem_of_singleton in H. discriminate H.
    + split; [repeat constructor | right; vm_compute; reflexivity].
  - intros [H|H]; [discriminate H|].
    apply (f_equal (fun m : gmap string nat => m !! "python")) in H.
    vm_compute in H. discriminate H.
Defined.

(** How [export_to_json] can end: it returns; or it raises with every file
    as it was; or the dump raises [TypeError] and the output file holds the
    beginning of an artifact. Files other than the output file and the
    directories stay as they were. *)
Lemma export_to_json_outcome (model_type output_file : string)
    (w : Exporter.World) :
  let run := Exporter.export_to_json model_type output_file w in
  (forall path, path <> output_file ->
                Exporter.files (snd run) !! path = Exporter.files w !! path)
  /\ Exporter.directories (snd run) = Exporter.directories w
  /\ (fst run = inr tt
      \/ (exists e, fst run = inl e /\ e <> TypeError)
         /\ Exporter.files (snd run) = Exporter.files w
      \/ fst run = inl TypeError
         /\ exists e, Exporter.files (snd run)
                      = <[output_file := Exporter.Truncated e]>
                          (Exporter.files w)).
Proof.
  run_export w model_type;
    first
      [ match goal with
        | |- context [Exporter.save ?d ?o ?w'] =>
            destruct (save_frame d o w') as (Hfiles & Hdirs & _ & Hend);
            split; [exact Hfiles|]; split; [exact Hdirs|];
            destruct Hend as [Hend|[Hend|[Htype Htrunc]]];
            [ left; exact Hend
            | right; left; exact Hend
            | right; right; split; [exact Htype|]; eexists; exact Htrunc ]
        end
      | cbn [fst snd Exporter.files Exporter.directories Exporter.console];
        split; [intros path Hpath; reflexivity|];
        split; [reflexivity|];
        first [ left; reflexivity
              | right; left; split;
                [eexists; split; [reflexivity|discriminate] | reflexivity] ] ].
Qed.

(** How [create_js_model_loader] can end: the script is written; or
    opening raises, not a [TypeError], and nothing has changed. *)
Lemma create_js_model_loader_outcome (output_file : string)
    (w : Exporter.World) :
  let run := Exporter.create_js_model_loader output_file w in
  fst run = inr tt
  /\ Exporter.files (snd run)
     = <[output_file := Exporter.ModelLoaderJs]> (Exporter.files w)
  \/ (exists e, fst run = inl e /\ e <> TypeError) /\ snd run = w.
Proof.
  unfold Exporter.create_js_model_loader, Exporter.seq, Exporter.open_w,
    Exporter.write, Exporter.print.
  destruct (String.eqb output_file "");
    [right; split; [eexists; split; [reflexivity|discriminate] | reflexivity]|].
  destruct (bool_decide (output_file ∈ Exporter.directories w));
    [right; split; [eexists; split; [reflexivity|discriminate] | reflexivity]|].
  destruct (existsb _ (Exporter.ancestors output_file));
    [right; split; [eexists; split; [reflexivity|discriminate] | reflexivity]|].
  destruct (String.eqb (Exporter.dirname output_file) ""
            || bool_decide (Exporter.dirname output_file
                            ∈ Exporter.directories w));
    [left; auto
    |right; split; [eexists; split; [reflexivity|discriminate] | reflexivity]].
Qed.

(** X22. A run of the exporter that ends with an exception has not written
    the loader script and has changed no file other than the JSON
    artifact; when the exception is the [TypeError] of the dump, that file
    holds the beginning of an artifact. A run that returns has written the
    loader script, whether or not a JSON artifact was written. *)
Theorem main_loader_or_nothing (model : option string) (w : Exporter.World) :
  let run := Exporter.main model w in
  let json := "models/model_for_extension.json" in
  (forall e, fst run = inl e ->
             forall path, path <> json ->
                          Exporter.files (snd run) !! path
                          = Exporter.files w !! path)
  /\ (fst run = inl TypeError ->
      exists e, Exporter.files (snd run)
                = <[json := Exporter.Truncated e]> (Exporter.files w))
  /\ (fst run = inr tt ->
      Exporter.files (snd run) !! "models/model_loader.js"
      = Some Exporter.ModelLoaderJs).
Proof.
  cbv zeta. unfold Exporter.main.
  destruct (bool_decide _);
    [|split; [intros; reflexivity | split; discriminate]].
  unfold Exporter.seq. cbv beta.
  pose proof (export_to_json_outcome (default "logistic_regression" model)
                "models/model_for_extension.json" w)
    as (Hframe & _ & Hend).
  destruct (Exporter.export_to_json _ _ w) as [[e|[]] w']; cbn [fst snd] in *.
  - split; [intros _ _; exact Hframe|]. split; [|discriminate].
    intros He.
    destruct Hend as [Hend|[[(e' & He' & Hne) _]|[_ Htrunc]]];
      [discriminate Hend | congruence | exact Htrunc].
  - pose proof (create_js_model_loader_outcome "models/model_loader.js" w')
      as Hloader.
    destruct (Exporter.create_js_model_loader _ w') as [r w''];
      cbn [fst snd] in *.
    destruct Hloader as [[-> ->]|[(e & -> & He) ->]].
    + split; [discriminate|]. split; [discriminate|].
      intros _. apply lookup_insert_eq.
    + split; [intros _ _; exact Hframe|]. split; [congruence | discriminate].
Qed.

(** X23. When nothing exists under the path of the chosen model, the
    exporter reports it and goes on to write the loader script. With the
    [models] directory in place the script is written and the run returns
    normally, for a JSON artifact that it did not write. Without that
    directory, which the exporter never creates, and with no regular file
    of that name either, opening the script raises [FileNotFoundError] and
    no file is written. *)
Theorem main_without_model_file (model : option string) (w : Exporter.World) :
  let name := default "logistic_regression" model in
  let loader := "models/model_loader.js" in
  let reported :=
    (Exporter.console w
     ++ [Exporter.Say ("Model not found: " +:+ Exporter.model_path name)])%list in
  name ∈ Exporter.choices ->
  Exporter.files w !! Exporter.model_path name = None ->
  Exporter.model_path name ∉ Exporter.directories w ->
  loader ∉ Exporter.directories w ->
  Exporter.files w !! "models" = None ->
  ("models" ∈ Exporter.directories w ->
   Exporter.main model w
   = (inr tt,
      {| Exporter.files :=
           <[loader := Exporter.ModelLoaderJs]> (Exporter.files w);
         Exporter.directories := Exporter.directories w;
         Exporter.console :=
           (reported ++ [Exporter.LoaderCreated loader])%list |}))
  /\ ("models" ∉ Exporter.directories w ->
      Exporter.main model w
      = (inl (FileNotFoundError loader),
         {| Exporter.files := Exporter.files w;
            Exporter.directories := Exporter.directories w;
            Exporter.console := reported |})).
Proof.
  intros name loader reported Hname Hfile Hdir Hloader Hnofile.
  unfold Exporter.main. fold name.
  rewrite bool_decide_eq_true_2 by exact Hname.
  unfold Exporter.export_to_json, Exporter.create_js_model_loader,
    Exporter.seq, Exporter.path_exists, Exporter.print, Exporter.open_w,
    Exporter.write.
  cbn [fst snd Exporter.files Exporter.directories Exporter.console].
  rewrite Hfile.
  rewrite bool_decide_eq_false_2 by (intros [? ?]; discriminate).
  rewrite (bool_decide_eq_false_2 _ Hdir).
  cbn [orb negb fst snd Exporter.files Exporter.directories Exporter.console].
  change (String.eqb "models/model_loader.js" "") with false.
  change (Exporter.dirname "models/model_loader.js") with "models".
  change (Exporter.ancestors "models/model_loader.js") with ["models"].
  change (String.eqb "models" "") with false.
  cbn [existsb]. rewrite Hnofile.
  rewrite (bool_decide_eq_false_2 (is_Some None))
    by (intros [? ?]; discriminate).
  fold loader. rewrite (bool_decide_eq_false_2 _ Hloader). cbn [orb].
  split; intros Hmodels.
  - rewrite (bool_decide_eq_true_2 _ Hmodels).
    cbn [fst snd Exporter.files Exporter.directories Exporter.console].
    reflexivity.
  - rewrite (bool_decide_eq_false_2 _ Hmodels). reflexivity.
Qed.

Lemma main_without_model_file_witness :
  Exporter.main (Some "naive_bayes") Sample.untrained
  = (inl (FileNotFoundError "models/model_loader.js"),
     {| Exporter.files := ∅;
        Exporter.directories := ∅;
        Exporter.console :=
          [Exporter.Say ("Model not found: "
                         +:+ Exporter.model_path "naive_bayes")] |}).
Proof.
  refine (proj2 (main_without_model_file (Some "naive_bayes")
                   Sample.untrained _ _ _ _ _) _).
  - apply list_elem_of_here.
  - reflexivity.
  - apply not_elem_of_empty.
  - apply not_elem_of_empty.
  - reflexivity.
  - apply not_elem_of_empty.
Defined.

(** ** The trainer: the columns that [extract_features] adds *)

Lemma fillna_text (cells : list Trainer.Cell) :
  Spec.textual cells ->
  Trainer.fillna cells = map (fun c => Trainer.Str (Notions.text c)) cells.
Proof.
  induction 1 as [|c l Hc Hl IH]; [reflexivity|].
  unfold Trainer.fillna in *. cbn [map]. rewrite IH.
  destruct c; [reflexivity | reflexivity | contradiction].
Qed.

Lemma map_result_map {A B C} (f : B -> result C) (g : A -> B) (h : A -> C)
    (l : list A) :
  (forall a, f (g a) = inr (h a)) ->
  map_result f (map g l) = inr (map h l).
Proof.
  intros H. induction l as [|a l IH]; [reflexivity|].
  cbn [map map_result]. rewrite H, IH. reflexivity.
Qed.

Lemma add_series_zip (f g : Trainer.Cell -> string) (l r : list Trainer.Cell) :
  Trainer.add_series (map (fun c => Trainer.Str (f c)) l)
                     (map (fun c => Trainer.Str (g c)) r)
  = inr (zip_with (fun a b => Trainer.Str (f a +:+ g b)) l r).
Proof.
  revert r. induction l as [|a l IH]; intros [|b r]; try reflexivity.
  cbn [map Trainer.add_series Trainer.add_str bind ret].
  change (map (fun c => Trainer.Str (f c)) l) with
    (map (fun c => Trainer.Str (f c)) l).
  rewrite IH. reflexivity.
Qed.

Lemma map_zip_with_ext {A B C D E} (h : C -> E) (h' : D -> E)
    (F : A -> B -> C) (G : A -> B -> D) (l : list A) (r : list B) :
  (forall a b, h (F a b) = h' (G a b)) ->
  map h (zip_with F l r) = map h' (zip_with G l r).
Proof.
  intros H. revert r. induction l as [|a l IH]; intros [|b r];
    try reflexivity.
  cbn [zip_with map]. rewrite H, IH. reflexivity.
Qed.

(** X24. On a frame whose [title] and [description] columns hold strings
    and missing values, [extract_features] returns the frame with six
    columns added and every other column as it was. Row by row: the
    combined text is the normalized title, space, description, a missing
    value counting as the empty string; the two lengths are those of the
    title and of the description; the word count and the two keyword counts
    are taken from the combined text, a keyword counting once however often
    it occurs. *)
Theorem extract_features_columns (df : Trainer.DataFrame)
    (title description : list Trainer.Cell) :
  df !! "title" = Some title ->
  df !! "description" = Some description ->
  Spec.textual title -> Spec.textual description ->
  let texts := zip_with Notions.combined title description in
  let length_of c := Trainer.Num (Z.of_nat (String.length (Notions.text c))) in
  exists df',
    Trainer.extract_features df = inr df'
    /\ df' !! "combined_text" = Some (map Trainer.Str texts)
    /\ df' !! "title_length" = Some (map length_of title)
    /\ df' !! "desc_length" = Some (map length_of description)
    /\ df' !! "word_count"
       = Some (map (fun x => Trainer.Num
                               (Z.of_nat (List.length (Trainer.split x))))
                   texts)
    /\ df' !! "edu_keyword_count"
       = Some (map (Notions.count Trainer.edu_keywords) texts)
    /\ df' !! "ent_keyword_count"
       = Some (map (Notions.count Trainer.ent_keywords) texts)
    /\ forall col, col ∉ Notions.new_columns -> df' !! col = df !! col.
Proof.
  intros Ht Hd Htt Htd texts length_of.
  unfold Trainer.extract_features, Trainer.getitem.
  rewrite Ht. cbn [bind ret raise].
  rewrite (fillna_text _ Htt).
  rewrite (map_result_map (fun c => Trainer.add_str c " ")
             (fun c => Trainer.Str (Notions.text c))
             (fun c => Trainer.Str (Notions.text c +:+ " ")))
    by reflexivity.
  cbn [bind ret raise]. rewrite Hd. cbn [bind ret raise].
  rewrite (fillna_text _ Htd).
  rewrite (add_series_zip (fun c => Notions.text c +:+ " ") Notions.text).
  cbn [bind ret raise]. rewrite lookup_insert_eq. cbn [bind ret raise].
  rewrite !lookup_insert_ne, Ht by discriminate. cbn [bind ret raise].
  rewrite (fillna_text _ Htt).
  rewrite (map_result_map Trainer.len
             (fun c => Trainer.Str (Notions.text c)) length_of)
    by reflexivity.
  cbn [bind ret raise]. rewrite !lookup_insert_ne, Hd by discriminate.
  cbn [bind ret raise]. rewrite (fillna_text _ Htd).
  rewrite (map_result_map Trainer.len
             (fun c => Trainer.Str (Notions.text c)) length_of)
    by reflexivity.
  cbn [bind ret raise].
  rewrite !lookup_insert_ne, lookup_insert_eq by discriminate.
  cbn [bind ret raise].
  rewrite (map_result_map _
             (fun text => Trainer.Str (Trainer.preprocess_text text))
             (fun text => Trainer.Num
                            (Z.of_nat (List.length
                                         (Trainer.split
                                            (Trainer.preprocess_text text))))))
    by reflexivity.
  cbn [bind ret raise].
  rewrite !lookup_insert_ne, lookup_insert_eq by discriminate.
  cbn [bind ret raise].
  rewrite (map_result_map (Trainer.keyword_count Trainer.edu_keywords)
             (fun text => Trainer.Str (Trainer.preprocess_text text))
             (fun text => Notions.count Trainer.edu_keywords
                            (Trainer.preprocess_text text)))
    by reflexivity.
  cbn [bind ret raise].
  rewrite !lookup_insert_ne, lookup_insert_eq by discriminate.
  cbn [bind ret raise].
  rewrite (map_result_map (Trainer.keyword_count Trainer.ent_keywords)
             (fun text => Trainer.Str (Trainer.preprocess_text text))
             (fun text => Notions.count Trainer.ent_keywords
                            (Trainer.preprocess_text text)))
    by reflexivity.
  cbn [bind ret raise].
  assert (forall a b : Trainer.Cell,
             Trainer.preprocess_text
               (Trainer.Str ((Notions.text a +:+ " ") +:+ Notions.text b))
             = Notions.combined a b) as Hrow.
  { intros a b. unfold Notions.combined. rewrite string_app_assoc.
    reflexivity. }
  eexists. split; [reflexivity|].
  repeat split.
  - rewrite !lookup_insert_ne, lookup_insert_eq by discriminate. f_equal.
    apply map_zip_with_ext. intros a b. rewrite Hrow. reflexivity.
  - rewrite !lookup_insert_ne, lookup_insert_eq by discriminate. reflexivity.
  - rewrite !lookup_insert_ne, lookup_insert_eq by discriminate. reflexivity.
  - rewrite !lookup_insert_ne, lookup_insert_eq by discriminate. f_equal.
    apply map_zip_with_ext. intros a b. rewrite Hrow. reflexivity.
  - rewrite !lookup_insert_ne, lookup_insert_eq by discriminate. f_equal.
    apply map_zip_with_ext. intros a b. rewrite Hrow. reflexivity.
  - rewrite lookup_insert_eq. f_equal.
    apply map_zip_with_ext. intros a b. rewrite Hrow. reflexivity.
  - intros col Hcol. unfold Notions.new_columns in Hcol.
    rewrite !not_elem_of_cons in Hcol.
    destruct Hcol as (H1 & H2 & H3 & H4 & H5 & H6 & _).
    rewrite !lookup_insert_ne by congruence. reflexivity.
Qed.

Lemma extract_features_columns_witness :
  exists df',
    Trainer.extract_features Fixture.videos = inr df'
    /\ df' !! "combined_text"
       = Some [Trainer.Str "python tutorial learn the basics";
               Trainer.Str "funny cat compilation"]
    /\ df' !! "title_length" = Some [Trainer.Num 34; Trainer.Num 0]
    /\ df' !! "desc_length" = Some [Trainer.Num 0; Trainer.Num 21]
    /\ df' !! "word_count" = Some [Trainer.Num 5; Trainer.Num 3]
    /\ df' !! "edu_keyword_count" = Some [Trainer.Num 3; Trainer.Num 0]
    /\ df' !! "ent_keyword_count" = Some [Trainer.Num 0; Trainer.Num 2]
    /\ forall col, col ∉ Notions.new_columns ->
                   df' !! col = Fixture.videos !! col.
Proof.
  apply (extract_features_columns Fixture.videos
           [Trainer.Str "Python Tutorial: Learn the Basics!"; Trainer.NaN]
           [Trainer.NaN; Trainer.Str "Funny cat compilation"]);
    [reflexivity | reflexivity | repeat constructor | repeat constructor].
Defined.

(** X25. For a title and a description made of code points below U+0100,
    the alphabet of this development: the text that the scorer normalizes
    is the combined text that the trainer computed for the same row,
    whenever neither holds one of the control characters U+001C..U+001F and
    U+0085, which only Python counts as whitespace there. Nothing is said
    about code points from U+0100 on, where the two whitespace classes
    differ once more. *)
Theorem scorer_text_is_trainer_text (title description : string) :
  Spec.all_chars Spec.same_class title = true ->
  Spec.all_chars Spec.same_class description = true ->
  Scorer.preprocessText (title +:+ " " +:+ description)
  = Notions.combined (Trainer.Str title) (Trainer.Str description).
Proof.
  intros Ht Hd. unfold Notions.combined, Notions.text.
  apply preprocessText_preprocess_text.
  apply all_chars_app; [exact Ht|].
  apply (all_chars_app _ " "); [reflexivity | exact Hd].
Qed.

Lemma scorer_text_is_trainer_text_witness :
  Scorer.preprocessText ("Don't Stop" +:+ " " +:+ "Learning C++")
  = Notions.combined (Trainer.Str "Don't Stop") (Trainer.Str "Learning C++").
Proof.
  apply scorer_text_is_trainer_text; reflexivity.
Defined.

(** X26. Whatever the cell, the text that [preprocess_text] returns holds
    only the characters a-z and 0-9 and single spaces, and neither starts
    nor ends with a space; the same holds for what the scorer's
    [preprocessText] returns for any string. *)
Theorem preprocess_text_shape :
  (forall text : Trainer.Cell,
      let s := Trainer.preprocess_text text in
      Spec.all_chars (fun c => Text.is_az09 c || Ascii.eqb c " ") s = true
      /\ Spec.squeezed Text.py_isspace true s = true
      /\ Text.rstrip Text.py_isspace s = s)
  /\ (forall text : string,
         let s := Scorer.preprocessText text in
         Spec.all_chars (fun c => Text.is_az09 c || Ascii.eqb c " ") s = true
         /\ Spec.squeezed Text.js_isspace true s = true
         /\ Text.rstrip Text.js_isspace s = s).
Proof.
  split.
  - intros [|s|z]; [repeat split | |];
      apply (normalize_shape Text.py_isspace eq_refl).
  - intros text. apply (normalize_shape Text.js_isspace eq_refl).
Qed.

(** ** The scorer on a text without a known n-gram *)

Open Scope R_scope.

Lemma features_of_no_hit (c : Scorer.VideoClassifier) (text : string) :
  (forall g, g ∈ Scorer.ngrams_of c (Scorer.preprocessText text) ->
             Scorer.vocabulary c !! g = None) ->
  Scorer.features_of c text = replicate (Scorer.maxFeatures c) 0.
Proof.
  intros Hnone. apply list_eq. intros j. rewrite lookup_features_of.
  destruct (Nat.ltb_spec j (Scorer.maxFeatures c)) as [Hj|Hj].
  - rewrite (lookup_replicate_2 _ _ _ Hj).
    destruct (Spec.hit _ _ _) eqn:Hhit; [|reflexivity].
    apply hit_true in Hhit as (g & Hg & Hv).
    rewrite (Hnone g Hg) in Hv. discriminate.
  - symmetry. apply lookup_replicate_None. lia.
Qed.

Lemma norm_of_replicate_0 (n : nat) : Scorer.norm_of (replicate n 0) = 0.
Proof.
  apply norm_of_zero, Forall_forall.
  intros x Hx%elem_of_replicate. tauto.
Qed.

Lemma dot_replicate_0 (cs : list R) (n : nat) :
  Notions.dot cs (replicate n 0) = 0.
Proof.
  unfold Notions.dot. revert cs.
  induction n as [|n IH]; intros [|w cs]; simpl; try reflexivity.
  rewrite IH. lra.
Qed.

Lemma nb_loop_replicate_0 (ps : option (list R)) (n i : nat)
    (score : Scorer.num) :
  Scorer.nb_loop ps (replicate n 0) i score = Some score.
Proof.
  revert i. induction n as [|n IH]; intros i; simpl; [reflexivity|].
  destruct (Rlt_dec 0 0) as [H|_]; [lra | apply IH].
Qed.

(** X27. A text none of whose unigrams and bigrams is in the vocabulary
    gets the zero vector, and with it the same answer whatever it says: the
    logistic function of the class prior from the naive-Bayes branch, and
    of the intercept from the logistic-regression branch with at least
    [max_features] coefficients. *)
Theorem predict_without_known_ngram (c : Scorer.VideoClassifier)
    (title description : string) :
  let text := title +:+ " " +:+ description in
  (forall g, g ∈ Scorer.ngrams_of c (Scorer.preprocessText text) ->
             Scorer.vocabulary c !! g = None) ->
  Scorer.vectorize c text = replicate (Scorer.maxFeatures c) 0
  /\ (Scorer.modelType c = "naive_bayes" ->
      Scorer.predict c title description
      = Scorer.Return
          (Scorer.verdict
             (Scorer.sigmoid (Scorer.to_num (Scorer.classLogPrior c)))))
  /\ (forall cs b,
         Scorer.modelType c = "logistic_regression" ->
         Scorer.coefficients c = Some cs ->
         Scorer.intercept c = Some b ->
         (Scorer.maxFeatures c <= length cs)%nat ->
         Scorer.predict c title description
         = Scorer.Return (Scorer.verdict (Scorer.sigmoid (Scorer.Fin b)))).
Proof.
  intros text Hnone.
  assert (Scorer.vectorize c text = replicate (Scorer.maxFeatures c) 0)
    as Hzero.
  { unfold Scorer.vectorize. rewrite (features_of_no_hit _ _ Hnone).
    rewrite norm_of_replicate_0.
    destruct (Rlt_dec 0 0) as [H|_]; [lra | reflexivity]. }
  split; [exact Hzero|]. split.
  - intros Ht. unfold Scorer.predict. fold text. rewrite Hzero, Ht.
    cbn [String.eqb Ascii.eqb Bool.eqb].
    rewrite nb_loop_replicate_0. reflexivity.
  - intros cs b Ht Hc Hb Hlen. unfold Scorer.predict. fold text.
    rewrite Hzero, Ht, Hc, Hb.
    cbn [String.eqb Ascii.eqb Bool.eqb Scorer.to_num].
    rewrite lr_loop_dot by (rewrite length_replicate; lia).
    rewrite dot_replicate_0, Rplus_0_r. reflexivity.
Qed.

Lemma predict_without_known_ngram_witness :
  Scorer.vectorize Sample.balanced ("Funny Cat" +:+ " " +:+ "")
  = replicate (Scorer.maxFeatures Sample.balanced) 0.
Proof.
  refine (proj1 (predict_without_known_ngram Sample.balanced "Funny Cat" "" _)).
  assert (Scorer.ngrams_of Sample.balanced
            (Scorer.preprocessText ("Funny Cat" +:+ " " +:+ ""))
          = ["funny"; "cat"; "funny cat"]) as -> by reflexivity.
  intros g Hg.
  repeat (apply elem_of_cons in Hg as [->|Hg]); try reflexivity.
  apply elem_of_nil in Hg. contradiction.
Defined.

Close Scope R_scope.
